(** * Hours import and CSV codec of extranet/models/_coder.py

    A shallow embedding of the timesheet model layer: the time and date
    readers, [Coder], the CSV codec of [HoursManager] ([_csv_parse],
    [csv_dump]), the dedup import [csv_get_or_create], the methods of
    [Hours] and [HourTag] that go with them and the billing months,
    followed by the properties the specification states about them and
    by further properties of the code.

    Conventions.
    - Python 2 byte strings are [string]s, of any bytes.  The fields of a
      row, the pending tag names and the comment of an entry are byte
      strings: [json.dumps] and [utf8_safe] decode them as UTF-8
      ([decodes]), and the join of the tag names with a [unicode]
      separator decodes them as ASCII ([is_ascii]); each raises
      [UnicodeDecodeError] when it cannot.  Text that is read from the
      database (user, project, repository and tag names) is [unicode],
      held here as its UTF-8 bytes, and is not decoded again.
      [csv.writer] takes a value as a C string, up to its first NUL byte.
    - The amount column is a [DecimalField] of 4 digits and 2 decimal
      places: a row is written with the amount as the column makes it
      ([Decimal_column]: rounded, or refused with [InvalidOperation]
      when it has too many digits), while a lookup compares the amount as
      it is given and the instance in memory keeps the amount it was
      built with.
    - An exception is a value of [Exception]; a call that can raise returns
      a [Result].  Code that touches the database runs in the monad [M],
      which threads the database and keeps the state reached when an
      exception is raised (the module opens no transaction).
    - Timestamps ([created_at], [updated_at]) and the two billing months
      are left out of a row: the codec and the import neither read nor
      set them.  The billing months are kept beside the database, in a
      [Ledger], each column as a map from the key of an hours row to the
      key of its month.
    - [Hours.__unicode__], [get_need] and [ticket_info] and the two totals
      of [Month] are not modelled: they only pass on what [Issue],
      [Project] and [Decimal] give.
    - A table is the list of its rows; the primary key of the row at
      position [i] is [S i], as an auto-increment column hands them out
      (this layer never deletes).
    - The calls into Django read as its documentation has them:
      [objects.get] returns the one row that meets the criteria and raises
      [DoesNotExist] for none and [MultipleObjectsReturned] for more;
      [get_or_create] is [get], and on [DoesNotExist] it creates and saves
      the row at once; assigning to a many-to-many attribute clears the
      relation of the instance and adds each given key once, at once;
      [save] on an instance with a key updates its row, or inserts it
      when the table has no row of that key; [==] on instances
      compares keys; an instance is true.
    - [time.strptime] is modelled for the C locale and for the directives
      that [DATE_FORMAT] and [TIME_FORMATS] use. *)

From Stdlib Require Import Ascii String List Arith Lia Bool ZArith.
From stdpp Require Import base list option strings gmap.
Import ListNotations.
Set Warnings "-abstract-large-number".
Open Scope string_scope.
Open Scope list_scope.
Open Scope nat_scope.

(* ================================================================== *)
(** ** Python string helpers *)

(** [c.isspace()] for a byte of a [str]; also the class [\s] of [re]. *)
Definition is_space (c : ascii) : bool :=
  let n := nat_of_ascii c in (n =? 32) || ((9 <=? n) && (n <=? 13)).

Definition lower_ascii (c : ascii) : ascii :=
  let n := nat_of_ascii c in
  if (65 <=? n) && (n <=? 90) then ascii_of_nat (n + 32) else c.

(** [s.lower()] *)
Fixpoint lower (s : string) : string :=
  match s with
  | EmptyString => EmptyString
  | String c s' => String (lower_ascii c) (lower s')
  end.

Fixpoint lstrip (s : string) : string :=
  match s with
  | EmptyString => EmptyString
  | String c s' => if is_space c then lstrip s' else s
  end.

Fixpoint rstrip (s : string) : string :=
  match s with
  | EmptyString => EmptyString
  | String c s' =>
      match rstrip s' with
      | EmptyString => if is_space c then EmptyString else String c EmptyString
      | r => String c r
      end
  end.

(** [s.strip()] *)
Definition strip (s : string) : string := rstrip (lstrip s).

(** [s.split(sep)] for a one-character separator: never an empty list. *)
Fixpoint split (sep : ascii) (s : string) : list string :=
  match s with
  | EmptyString => [EmptyString]
  | String c s' =>
      if Ascii.eqb c sep then EmptyString :: split sep s'
      else match split sep s' with
           | [] => [String c EmptyString]
           | w :: ws => String c w :: ws
           end
  end.

(** [sep.join(l)] *)
Fixpoint join (sep : string) (l : list string) : string :=
  match l with
  | [] => EmptyString
  | [x] => x
  | x :: l' => x +:+ sep +:+ join sep l'
  end.

(** Truth value of a [str]. *)
Definition truthy (s : string) : bool :=
  match s with EmptyString => false | _ => true end.

(** Every byte of the [str] is an ASCII one: the implicit conversion to
    [unicode] of Python 2, which decodes as ASCII, succeeds. *)
Fixpoint is_ascii (s : string) : bool :=
  match s with
  | EmptyString => true
  | String c s' => (nat_of_ascii c <? 128) && is_ascii s'
  end.

(** The [str] as C code reads it through a [char *]: up to its first NUL
    byte. *)
Fixpoint c_string (s : string) : string :=
  match s with
  | EmptyString => EmptyString
  | String c s' => if nat_of_ascii c =? 0 then EmptyString else String c (c_string s')
  end.

Definition digit_char (n : nat) : ascii := ascii_of_nat (48 + n).

(** ["%02d" % n] and ["%04d" % n], as [strftime] pads its numbers. *)
Definition pad2 (n : nat) : string :=
  String (digit_char (n / 10 mod 10)) (String (digit_char (n mod 10)) EmptyString).

Definition pad4 (n : nat) : string :=
  String (digit_char (n / 10 / 10 / 10 mod 10))
         (String (digit_char (n / 10 / 10 mod 10)) (pad2 n)).

(** [int(s)] on a string of digits; blanks around them are skipped. *)
Fixpoint int_acc (acc : nat) (s : string) : nat :=
  match s with
  | EmptyString => acc
  | String c s' =>
      let n := nat_of_ascii c in
      if (48 <=? n) && (n <=? 57) then int_acc (10 * acc + (n - 48)) s'
      else int_acc acc s'
  end.

Definition int (s : string) : nat := int_acc 0 s.

(* ================================================================== *)
(** ** time.strptime *)

(** The format directives of [DATE_FORMAT] and [TIME_FORMATS]. *)
Inductive directive := dir_d | dir_H | dir_I | dir_m | dir_M | dir_p | dir_S | dir_Y.

#[export] Instance directive_eq_dec : EqDecision directive.
Proof. solve_decision. Defined.

Definition char_class := ascii -> bool.

(** [[lo-hi]] over the decimal digits. *)
Definition digit_in (lo hi : nat) : char_class :=
  fun c => let n := nat_of_ascii c in (48 + lo <=? n) && (n <=? 48 + hi).

Definition any_digit : char_class := digit_in 0 9.

(** A literal character; the pattern is compiled with [IGNORECASE]. *)
Definition literal (c0 : ascii) : char_class :=
  fun c => Ascii.eqb (lower_ascii c) (lower_ascii c0).

(** The regular expression [TimeRE] holds for each directive: its
    alternatives, in the order in which [re] tries them. *)
Definition directive_regex (d : directive) : list (list char_class) :=
  match d with
  | dir_d => [ [digit_in 3 3; digit_in 0 1]; [digit_in 1 2; any_digit];
               [digit_in 0 0; digit_in 1 9]; [digit_in 1 9];
               [literal " "; digit_in 1 9] ]
  | dir_H => [ [digit_in 2 2; digit_in 0 3]; [digit_in 0 1; any_digit]; [any_digit] ]
  | dir_I => [ [digit_in 1 1; digit_in 0 2]; [digit_in 0 0; digit_in 1 9]; [digit_in 1 9] ]
  | dir_m => [ [digit_in 1 1; digit_in 0 2]; [digit_in 0 0; digit_in 1 9]; [digit_in 1 9] ]
  | dir_M => [ [digit_in 0 5; any_digit]; [any_digit] ]
  | dir_p => [ [literal "a"; literal "m"]; [literal "p"; literal "m"] ]
  | dir_S => [ [digit_in 6 6; digit_in 0 1]; [digit_in 0 5; any_digit]; [any_digit] ]
  | dir_Y => [ [any_digit; any_digit; any_digit; any_digit] ]
  end.

Definition directive_of (c : ascii) : option directive :=
  if Ascii.eqb c "d" then Some dir_d else
  if Ascii.eqb c "H" then Some dir_H else
  if Ascii.eqb c "I" then Some dir_I else
  if Ascii.eqb c "m" then Some dir_m else
  if Ascii.eqb c "M" then Some dir_M else
  if Ascii.eqb c "p" then Some dir_p else
  if Ascii.eqb c "S" then Some dir_S else
  if Ascii.eqb c "Y" then Some dir_Y else None.

Inductive re_item :=
| ReGroup (d : directive)   (* (?P<d>...) *)
| ReLiteral (c : ascii)
| ReBlanks.                 (* \s+ *)

(** [TimeRE.pattern] before runs of blanks are merged: [None] is the
    [ValueError] of a bad directive or a stray [%]. *)
Fixpoint pattern_items (format : string) : option (list re_item) :=
  match format with
  | EmptyString => Some []
  | String c rest =>
      if Ascii.eqb c "%" then
        match rest with
        | EmptyString => None
        | String k rest' =>
            match directive_of k, pattern_items rest' with
            | Some d, Some its => Some (ReGroup d :: its)
            | _, _ => None
            end
        end
      else
        match pattern_items rest with
        | Some its => Some ((if is_space c then ReBlanks else ReLiteral c) :: its)
        | None => None
        end
  end.

(** A run of blanks in the format is one [\s+]. *)
Fixpoint merge_blanks (its : list re_item) : list re_item :=
  match its with
  | ReBlanks :: ((ReBlanks :: _) as its') => merge_blanks its'
  | it :: its' => it :: merge_blanks its'
  | [] => []
  end.

Definition pattern (format : string) : option (list re_item) :=
  merge_blanks <$> pattern_items format.

(** One alternative against the head of [s]: the text matched and the rest. *)
Fixpoint match_seq (cs : list char_class) (s : string) : option (string * string) :=
  match cs with
  | [] => Some (EmptyString, s)
  | p :: cs' =>
      match s with
      | String c s' =>
          if p c then
            match match_seq cs' s' with
            | Some (m, r) => Some (String c m, r)
            | None => None
            end
          else None
      | EmptyString => None
      end
  end.

(** The tails of [s] that [\s+] can leave, longest match first. *)
Fixpoint blank_tails (s : string) : list string :=
  match s with
  | String c s' => if is_space c then blank_tails s' ++ [s'] else []
  | EmptyString => []
  end.

(** The ways an item can match at the head of [s], in the order of the
    backtracking matcher: what each captures and the text that is left. *)
Definition candidates (it : re_item) (s : string)
  : list (option (directive * string) * string) :=
  match it with
  | ReGroup d =>
      omap (fun cs => match match_seq cs s with
                      | Some (m, r) => Some (Some (d, m), r)
                      | None => None
                      end) (directive_regex d)
  | ReLiteral c0 =>
      match s with
      | String c s' => if literal c0 c then [(None, s')] else []
      | EmptyString => []
      end
  | ReBlanks => (fun r => (None, r)) <$> blank_tails s
  end.

Fixpoint first_success {A B} (f : A -> option B) (l : list A) : option B :=
  match l with
  | [] => None
  | x :: l' => match f x with Some y => Some y | None => first_success f l' end
  end.

(** [format_regex.match(data_string)]: the first match in backtracking
    order, anchored at the start only; its groups and the text left over. *)
Fixpoint re_match (items : list re_item) (s : string)
  : option (list (directive * string) * string) :=
  match items with
  | [] => Some ([], s)
  | it :: items' =>
      first_success
        (fun cand : option (directive * string) * string =>
           match re_match items' (snd cand) with
           | Some (found, r) =>
               Some (match fst cand with Some g => g :: found | None => found end, r)
           | None => None
           end)
        (candidates it s)
  end.

Record struct_time := {
  tm_year : nat; tm_mon : nat; tm_mday : nat;
  tm_hour : nat; tm_min : nat; tm_sec : nat }.

Definition found_get (d : directive) (found : list (directive * string)) : option string :=
  snd <$> List.find (fun g => bool_decide (fst g = d)) found.

Definition is_leap (y : nat) : bool :=
  ((y mod 4 =? 0) && negb (y mod 100 =? 0)) || (y mod 400 =? 0).

Definition days_in_month (y m : nat) : nat :=
  match m with
  | 2 => if is_leap y then 29 else 28
  | 4 | 6 | 9 | 11 => 30
  | _ => 31
  end.

(** [datetime.date(y, m, d)] accepts exactly these. *)
Definition valid_date (y m d : nat) : bool :=
  (1 <=? y) && (y <=? 9999) && (1 <=? m) && (m <=? 12)
  && (1 <=? d) && (d <=? days_in_month y m).

(** The hour of a [%I] group: noon and midnight apart, PM adds twelve. *)
Definition hour_of_I (hour : nat) (ampm : string) : nat :=
  if String.eqb ampm "pm" then (if hour =? 12 then 12 else hour + 12)
  else (if hour =? 12 then 0 else hour).

(** [_strptime] after the match: the fields default to 1900-01-01 00:00:00;
    the date is checked when the day of the year is computed. *)
Definition time_of_found (found : list (directive * string)) : option struct_time :=
  let num d dflt := match found_get d found with Some s => int s | None => dflt end in
  let year := num dir_Y 1900 in
  let month := num dir_m 1 in
  let day := num dir_d 1 in
  let hour :=
    match found_get dir_I found with
    | Some s => hour_of_I (int s) (lower (default EmptyString (found_get dir_p found)))
    | None => num dir_H 0
    end in
  if valid_date year month day then
    Some {| tm_year := year; tm_mon := month; tm_mday := day;
            tm_hour := hour; tm_min := num dir_M 0; tm_sec := num dir_S 0 |}
  else None.

(** [time.strptime(data_string, format)]; [None] stands for [ValueError]. *)
Definition strptime (data_string format : string) : option struct_time :=
  match pattern format with
  | None => None
  | Some items =>
      match re_match items data_string with
      | Some (found, EmptyString) => time_of_found found
      | _ => None   (* no match, or unconverted data remains *)
      end
  end.

(** [datetime.time]: hour, minute, second. *)
Record time_of_day := { hour : nat; minute : nat; second : nat }.

#[export] Instance time_of_day_eq_dec : EqDecision time_of_day.
Proof. solve_decision. Defined.

(** [datetime.time(h, m, s)]; [None] stands for [ValueError]. *)
Definition datetime_time (h m s : nat) : option time_of_day :=
  if (h <? 24) && (m <? 60) && (s <? 60)
  then Some {| hour := h; minute := m; second := s |} else None.

(** Truth value of a [datetime.time] in Python 2: midnight is false. *)
Definition time_truthy (t : time_of_day) : bool :=
  negb ((hour t =? 0) && (minute t =? 0) && (second t =? 0)).

(** [t.strftime('%H:%M')] *)
Definition strftime_HM (t : time_of_day) : string :=
  pad2 (hour t) +:+ ":" +:+ pad2 (minute t).

(** [datetime.date] *)
Record date_t := { year : nat; month : nat; day : nat }.

#[export] Instance date_t_eq_dec : EqDecision date_t.
Proof. solve_decision. Defined.

(** [d.strftime('%Y-%m-%d')]; Python 2 refuses years before 1900. *)
Definition strftime_Ymd (d : date_t) : option string :=
  if 1900 <=? year d
  then Some (pad4 (year d) +:+ "-" +:+ pad2 (month d) +:+ "-" +:+ pad2 (day d))
  else None.

(* ================================================================== *)
(** ** parse_time *)

(** One turn of the loop of [parse_time]: the [try] block.  [t] is a
    non-empty tuple, hence true; whatever is raised is swallowed. *)
Definition try_format (x frmt : string) : option time_of_day :=
  match strptime x frmt with
  | Some t => datetime_time (tm_hour t) (tm_min t) (tm_sec t)
  | None => None
  end.

Fixpoint parse_time_loop (x : string) (time_formats : list string) : option time_of_day :=
  match time_formats with
  | [] => None
  | frmt :: rest =>
      match try_format x frmt with
      | Some t => Some t
      | None => parse_time_loop x rest
      end
  end.

Definition parse_time (x : string) (time_formats : list string) : option time_of_day :=
  if truthy x then parse_time_loop x time_formats else None.

Definition DATE_FORMAT : string := "%Y-%m-%d".
Definition TIME_FORMATS : list string := ["%H:%M"; "%I:%M:%S %p"].

(* ================================================================== *)
(** ** Exceptions and results *)

Inductive model_name := User_model | Project_model | Hours_model | HourTag_model.

(** The [assert] statements of the module, by the line they stand on. *)
Inductive assert_site :=
| assert_a_eq_b                      (* _csv_parse: assert(a == b) *)
| assert_project                     (* _csv_parse: assert(project) *)
| assert_project_in_coder_projects   (* _csv_parse: assert project in coder.projects, u'Not allowed' *)
| assert_tags_to_be.                 (* csv_get_or_create: assert(parsed._tags_to_be) *)

Inductive Exception :=
| DoesNotExist (m : model_name)              (* Model.DoesNotExist *)
| MultipleObjectsReturned (m : model_name)   (* Model.MultipleObjectsReturned *)
| NoCoderProjects
| AtLeastOneTagRequired
| AssertionError (site : assert_site)
| ValueError (what : string)                 (* tuple unpacking, strptime, strftime *)
| InvalidOperation                           (* decimal.InvalidOperation *)
| AttributeError (attr : string)
| UnicodeDecodeError.                        (* a byte string that is not text *)

(** The names the specification gives to the three assertions of the parser. *)
Definition ProjectMismatch : Exception := AssertionError assert_a_eq_b.
Definition ProjectRequired : Exception := AssertionError assert_project.
Definition NotAllowed : Exception := AssertionError assert_project_in_coder_projects.

Inductive Result (A : Type) :=
| Ok (a : A)
| Raise (e : Exception).
Arguments Ok {A} a.
Arguments Raise {A} e.

(* ================================================================== *)
(** ** Entities of the collaborating modules *)

(** Modelled from the spec: [_needs.Project] is not in this module.  Of a
    project the codec uses the key and the name by which
    [Project.find_by_name] finds it. *)
Record Project := { project_pk : nat; project_name : string }.

(** Modelled from the spec: the group-to-project membership.  A group of
    [django.contrib.auth] with what [customer_projects.all()] lists. *)
Record Group := { customer_projects : list Project }.

(** Modelled from the spec: the user identity, with what [groups.all()]
    lists. *)
Record User := { user_pk : nat; username : string; groups : list Group }.

(** Modelled from the spec: [_issues.Repository] is not in this module;
    [distinct_name] is what [get_distinct_name()] returns. *)
Record Repository := { repository_pk : nat; distinct_name : string }.

(** Modelled from the spec: [_issues.Issue] is not in this module;
    [issue_number] is [number] as [unicode] prints it. *)
Record Issue := { issue_pk : nat; issue_number : string }.

(** Modelled from the spec: [utils.Nameable], which gives [HourTag] its
    [name], is not in this module. *)
Record HourTag := { tag_pk : nat; name : string }.

(** [a == b] on model instances compares primary keys. *)
Definition Project_eq (a b : Project) : bool := project_pk a =? project_pk b.

(** [Model.objects.get(...)] over the rows that meet the criteria. *)
Definition objects_get {A} (m : model_name) (criteria : A -> bool) (rows : list A) : Result A :=
  match List.filter criteria rows with
  | [] => Raise (DoesNotExist m)
  | [x] => Ok x
  | _ => Raise (MultipleObjectsReturned m)
  end.

(** The rows of a table that meet [p], each with its primary key; [k] is
    the key of the first row. *)
Fixpoint select {A} (p : A -> bool) (k : nat) (rows : list A) : list (nat * A) :=
  match rows with
  | [] => []
  | x :: rows' => (if p x then [(k, x)] else []) ++ select p (S k) rows'
  end.

(* ------------------------------------------------------------------ *)
(** *** Coder *)

Record Coder := { user : User; projects : list Project }.

(** [Coder._iter_projects] *)
Definition _iter_projects (u : User) : list Project :=
  flat_map customer_projects (groups u).

(** [Coder.__init__] *)
Definition Coder_init (u : User) : Result Coder :=
  let projects := _iter_projects u in
  match projects with
  | [] => Raise NoCoderProjects   (* for now, a coder should have projects, always *)
  | _ => Ok {| user := u; projects := projects |}
  end.

(* ================================================================== *)
(** ** What the module imports and this file does not define *)

(** The collaborators whose code is outside this module: the [decimal]
    and [json] libraries, the codec of UTF-8, the [DecimalField] of Django
    and the lookups of [_issues].  The amount of an entry is a value of
    [Decimal], compared as the column compares it. *)
Record World := {
  Decimal : Type;
  Decimal_eq_dec :: EqDecision Decimal;
  (** [Decimal(s)]; [None] stands for [InvalidOperation] *)
  Decimal_of_string : string -> option Decimal;
  (** [unicode(d)] *)
  unicode_Decimal : Decimal -> string;
  (** The value that the column [DecimalField(max_digits=4,
      decimal_places=2)] holds once an amount is written to it: the
      amount rounded to two decimal places; [None] stands for the
      [InvalidOperation] of an amount that then has more than four
      digits. *)
  Decimal_column : Decimal -> option Decimal;
  (** [s.decode('utf-8')] succeeds, asked of a [str] that has a byte
      beyond ASCII *)
  decodes_utf8 : string -> bool;
  (** [json.dumps(row)] *)
  json_dumps : list string -> string;
  (** [Repository.objects.try_to_get_by_name(repo)] *)
  try_to_get_by_name : string -> option Repository;
  (** [repository.try_to_get_issue(iss)] *)
  try_to_get_issue : Repository -> string -> option Issue;
  (** [issue.try_to_get_project()] *)
  try_to_get_project : Issue -> option Project }.

Section Model.
Context (W : World).

(* ------------------------------------------------------------------ *)
(** *** Hours *)

(** The columns of [Hours] that the codec and the import use. *)
Record HoursFields := {
  coder : User;
  project : Project;
  date : date_t;
  amount : Decimal W;
  start_time : option time_of_day;
  end_time : option time_of_day;
  issue : option Issue;
  repository : option Repository;
  comment : option string;
  input_data_json : option string }.

(** An [Hours] instance: [pk] is [None] until it is saved; [_tags_to_be]
    is the attribute [_csv_parse] adds ([None]: the attribute is not set). *)
Record Hours := {
  pk : option nat;
  fields :> HoursFields;
  _tags_to_be : option (list string) }.

(** The keyword arguments [q] of the lookup: one entry per name in
    [HOURS_IDENTITY_FIELDS]. *)
Record Identity := {
  q_coder : User;
  q_project : Project;
  q_date : date_t;
  q_amount : Decimal W;
  q_start_time : option time_of_day;
  q_issue : option Issue;
  q_repository : option Repository;
  q_comment : option string }.

(** [dict((key, getattr(obj, key)) for key in HOURS_IDENTITY_FIELDS)] *)
Definition HOURS_IDENTITY_FIELDS (obj : HoursFields) : Identity :=
  {| q_coder := coder obj; q_project := project obj; q_date := date obj;
     q_amount := amount obj; q_start_time := start_time obj; q_issue := issue obj;
     q_repository := repository obj; q_comment := comment obj |}.

(** The values of the names in [HOURS_EXTRA_FIELDS]. *)
Record Extra := {
  x_end_time : option time_of_day;
  x_input_data_json : option string }.

Definition HOURS_EXTRA_FIELDS (obj : HoursFields) : Extra :=
  {| x_end_time := end_time obj; x_input_data_json := input_data_json obj |}.

(** [for key in HOURS_EXTRA_FIELDS: setattr(obj, key, ...)] *)
Definition set_extra (x : Extra) (obj : Hours) : Hours :=
  {| pk := pk obj;
     fields := {| coder := coder obj; project := project obj; date := date obj;
                  amount := amount obj; start_time := start_time obj;
                  end_time := x_end_time x;
                  issue := issue obj; repository := repository obj;
                  comment := comment obj;
                  input_data_json := x_input_data_json x |};
     _tags_to_be := _tags_to_be obj |}.

(** [Hours] built from the keyword arguments [q]: the fields outside
    [q] keep their defaults. *)
Definition Hours_of_kwargs (q : Identity) : HoursFields :=
  {| coder := q_coder q; project := q_project q; date := q_date q;
     amount := q_amount q; start_time := q_start_time q; end_time := None;
     issue := q_issue q; repository := q_repository q; comment := q_comment q;
     input_data_json := None |}.

(** The filter of the keyword arguments [q] on one row: foreign keys by primary key, [None] as
    [IS NULL], the other columns by value. *)
Definition lookup_matches (q : Identity) (r : HoursFields) : bool :=
  (user_pk (coder r) =? user_pk (q_coder q))
  && (project_pk (project r) =? project_pk (q_project q))
  && bool_decide (date r = q_date q)
  && bool_decide (amount r = q_amount q)
  && bool_decide (start_time r = q_start_time q)
  && bool_decide (issue_pk <$> issue r = issue_pk <$> q_issue q)
  && bool_decide (repository_pk <$> repository r = repository_pk <$> q_repository q)
  && bool_decide (comment r = q_comment q).

(** The fields with another amount. *)
Definition set_amount (a : Decimal W) (r : HoursFields) : HoursFields :=
  {| coder := coder r; project := project r; date := date r; amount := a;
     start_time := start_time r; end_time := end_time r; issue := issue r;
     repository := repository r; comment := comment r;
     input_data_json := input_data_json r |}.

(** The row that is written for the fields of an instance: every column
    takes its field as it is, but for [amount], which is a
    [DecimalField(max_digits=4, decimal_places=2)] and takes the amount
    as the column rounds it, or refuses it. *)
Definition Hours_row (r : HoursFields) : Result HoursFields :=
  match Decimal_column W (amount r) with
  | Some a => Ok (set_amount a r)
  | None => Raise InvalidOperation
  end.

(** A [str] is text: it is ASCII, or its bytes decode as UTF-8. *)
Definition decodes (s : string) : bool := is_ascii s || decodes_utf8 W s.

(* ------------------------------------------------------------------ *)
(** *** The database and the monad of the code that uses it *)

Record DB := {
  User_rows : list User;
  Project_rows : list Project;
  Hours_rows : list HoursFields;
  HourTag_rows : list string;          (* the [name] column *)
  Hours_tags_rows : list (nat * nat)   (* (hours_id, hourtag_id) *) }.

Definition M (A : Type) : Type := DB -> Result A * DB.

Definition ret {A} (a : A) : M A := fun db => (Ok a, db).
Definition raise {A} (e : Exception) : M A := fun db => (Raise e, db).
Definition bind {A B} (c : M A) (k : A -> M B) : M B :=
  fun db => match c db with
            | (Ok a, db') => k a db'
            | (Raise e, db') => (Raise e, db')
            end.
Definition query {A} (f : DB -> A) : M A := fun db => (Ok (f db), db).
Definition update (f : DB -> DB) : M unit := fun db => (Ok tt, f db).
Definition lift {A} (r : Result A) : M A := fun db => (r, db).

(** [try: c  except e: h] for the exceptions [handler] names. *)
Definition try_except {A} (c : M A) (handler : Exception -> option (M A)) : M A :=
  fun db => match c db with
            | (Ok a, db') => (Ok a, db')
            | (Raise e, db') =>
                match handler e with
                | Some h => h db'
                | None => (Raise e, db')
                end
            end.

Definition assert (b : bool) (site : assert_site) : M unit :=
  if b then ret tt else raise (AssertionError site).

End Model.

Arguments ret {W A} a.
Arguments raise {W A} e.
Arguments bind {W A B} c k.
Arguments query {W A} f.
Arguments update {W} f.
Arguments lift {W A} r.
Arguments try_except {W A} c handler.
Arguments assert {W} b site.
Arguments pk {W} h.
Arguments fields {W} h.
Arguments _tags_to_be {W} h.
Arguments coder {W} h.
Arguments project {W} h.
Arguments date {W} h.
Arguments amount {W} h.
Arguments start_time {W} h.
Arguments end_time {W} h.
Arguments issue {W} h.
Arguments repository {W} h.
Arguments comment {W} h.
Arguments input_data_json {W} h.
Arguments User_rows {W} d.
Arguments Project_rows {W} d.
Arguments Hours_rows {W} d.
Arguments HourTag_rows {W} d.
Arguments Hours_tags_rows {W} d.
Arguments HOURS_IDENTITY_FIELDS {W} obj.
Arguments HOURS_EXTRA_FIELDS {W} obj.
Arguments set_extra {W} x obj.
Arguments Hours_of_kwargs {W} q.
Arguments lookup_matches {W} q r.
Arguments set_amount {W} a r.
Arguments Hours_row {W} r.

Declare Scope py_scope.
Delimit Scope py_scope with py.
Notation "x <- c1 ;; c2" := (bind c1 (fun x => c2))
  (at level 100, c1 at next level, right associativity) : py_scope.
Notation "c1 ;;; c2" := (bind c1 (fun _ => c2))
  (at level 100, right associativity) : py_scope.
Open Scope py_scope.

Section Managers.
Context {W : World}.

(* ------------------------------------------------------------------ *)
(** *** Coder.get, Coder.get_or_none *)

(** [Coder.get]: its arguments are the criteria of the user lookup. *)
Definition Coder_get (criteria : User -> bool) : M W Coder :=
  user <- (rows <- query User_rows ;; lift (objects_get User_model criteria rows)) ;;
  lift (Coder_init user).

(** [Coder.get_or_none] *)
Definition Coder_get_or_none (criteria : User -> bool) : M W (option Coder) :=
  try_except (c <- Coder_get criteria ;; ret (Some c))
             (fun e => match e with
                       | NoCoderProjects => Some (ret None)
                       | _ => None
                       end).

(* ------------------------------------------------------------------ *)
(** *** HoursManager._csv_parse *)

(** The fields of a row after the coder's, in the order of the unpacking. *)
Record RowFields := {
  f_proj : string; f_date : string; f_strt : string; f_end : string;
  f_hrs : string; f_tags : string; f_repo : string; f_iss : string;
  f_comment : string }.

(** The [if not coder: ... else: ...] that opens [_csv_parse]: unpack the
    row, and look the coder up when none is given. *)
Definition unpack_row (row : list string) (coder : option Coder) : M W (Coder * RowFields) :=
  match coder with
  | None =>
      match row with
      | [usr; proj; date; strt; end_; hrs; tags; repo; iss; comment] =>
          coder <- Coder_get (fun u => String.eqb (username u) usr) ;;
          ret (coder, {| f_proj := proj; f_date := date; f_strt := strt; f_end := end_;
                         f_hrs := hrs; f_tags := tags; f_repo := repo; f_iss := iss;
                         f_comment := comment |})
      | _ => raise (ValueError "unpack")
      end
  | Some coder =>
      match row with
      | [proj; date; strt; end_; hrs; tags; repo; iss; comment] =>
          ret (coder, {| f_proj := proj; f_date := date; f_strt := strt; f_end := end_;
                         f_hrs := hrs; f_tags := tags; f_repo := repo; f_iss := iss;
                         f_comment := comment |})
      | _ => raise (ValueError "unpack")
      end
  end.

(** [filter(None, [x.strip().lower() for x in tags.split(',')])] *)
Definition normalize_tags (tags : string) : list string :=
  List.filter truthy (List.map (fun x => lower (strip x)) (split "," tags)).

(** [datetime.datetime.strptime(date, self.DATE_FORMAT).date()] *)
Definition parse_date (s : string) : Result date_t :=
  match strptime s DATE_FORMAT with
  | Some t => Ok {| year := tm_year t; month := tm_mon t; day := tm_mday t |}
  | None => Raise (ValueError "strptime")
  end.

(** [Decimal(hrs or '0')] *)
Definition parse_amount (hrs : string) : Result (Decimal W) :=
  match Decimal_of_string W (if truthy hrs then hrs else "0") with
  | Some d => Ok d
  | None => Raise InvalidOperation
  end.

(** [json.dumps(row)] on the byte strings of a row: each is decoded as
    UTF-8, and one that is not text raises [UnicodeDecodeError]. *)
Definition dump_row (row : list string) : Result string :=
  if forallb (decodes W) row then Ok (json_dumps W row) else Raise UnicodeDecodeError.

(** [Project.objects.get(name=proj)] *)
Definition Project_get (proj : string) : M W Project :=
  rows <- query Project_rows ;;
  lift (objects_get Project_model (fun p => String.eqb (project_name p) proj) rows).

(** [_csv_parse] from the tags on, with the coder and the fields that
    the unpacking gave. *)
Definition _csv_parse_fields (row : list string) (coder : Coder) (f : RowFields)
  : M W (Hours W) :=
  (* === tags === *)
  let tags := normalize_tags (f_tags f) in
  match tags with
  | [] => raise AtLeastOneTagRequired
  | _ =>
    (* === repository and issue === *)
    let repository := try_to_get_by_name W (f_repo f) in
    let issue := match repository with
                 | Some r => try_to_get_issue W r (f_iss f)
                 | None => None
                 end in
    (* === project === *)
    a <- (if truthy (f_proj f)
          then (p <- Project_get (f_proj f) ;; ret (Some p))
          else ret None) ;;
    let b := match issue with
             | Some i => try_to_get_project W i
             | None => None
             end in
    (match a, b with
     | Some a, Some b => assert (Project_eq a b) assert_a_eq_b
     | _, _ => ret tt
     end) ;;;
    match (match a with Some a => Some a | None => b end) with
    | None => raise (AssertionError assert_project)
    | Some project =>
        date <- lift (parse_date (f_date f)) ;;
        amount <- lift (parse_amount (f_hrs f)) ;;
        input_data <- lift (dump_row row) ;;
        let obj :=
          {| coder := user coder;
             project := project;
             date := date;
             amount := amount;
             start_time := parse_time (f_strt f) TIME_FORMATS;
             end_time := parse_time (f_end f) TIME_FORMATS;
             issue := issue;
             repository := repository;
             comment := Some (f_comment f);
             input_data_json := Some input_data |} in
        assert (existsb (Project_eq project) (projects coder))
               assert_project_in_coder_projects ;;;
        (* don't save yet! *)
        ret {| pk := None; fields := obj; _tags_to_be := Some tags |}
    end
  end.

Definition _csv_parse (row : list string) (coder : option Coder) : M W (Hours W) :=
  unpacked <- unpack_row row coder ;;
  _csv_parse_fields row (fst unpacked) (snd unpacked).

(* ------------------------------------------------------------------ *)
(** *** HoursManager.csv_dump *)

(** [frmt_time]: the first of [TIME_FORMATS], or nothing for a false [t]. *)
Definition frmt_time (t : option time_of_day) : string :=
  match t with
  | Some t => if time_truthy t then strftime_HM t else ""
  | None => ""
  end.

Definition HourTag_by_pk (names : list string) (k : nat) : option HourTag :=
  match k with
  | S i => (fun n => {| tag_pk := k; name := n |}) <$> names !! i
  | 0 => None
  end.

(** [obj.tags.all()] for the entry whose key is [k], in the order of the
    relation's rows. *)
Definition tags_all (k : nat) : M W (list HourTag) :=
  rel <- query Hours_tags_rows ;;
  names <- query HourTag_rows ;;
  ret (omap (fun p : nat * nat =>
               if fst p =? k then HourTag_by_pk names (snd p) else None) rel).

(** [u','.join(tags)]: names read from the database are [unicode]; the
    pending names are the byte strings of the row, which the join decodes
    as ASCII. *)
Definition join_tags (from_database : bool) (tags : list string) : Result string :=
  if from_database || forallb is_ascii tags
  then Ok (join "," tags)
  else Raise UnicodeDecodeError.

(** [utf8_safe]: a byte string is decoded and encoded again. *)
Definition utf8_safe (value : string) : Result string :=
  if decodes W value then Ok value else Raise UnicodeDecodeError.

(** The list [values] of [csv_dump], each value as [utf8_safe] leaves
    it.  Of the values only the comment can be a byte string out of a
    row: the others are text of the database, numbers, or dates and times
    written in ASCII, on which [utf8_safe] cannot fail. *)
Definition csv_dump_values (obj : Hours W) (omit_coder : bool) : M W (list string) :=
  (* === prepare values === *)
  tags <- match pk obj with
          | Some (S _ as k) => ts <- tags_all k ;; ret (true, List.map name ts)
          | _ => match _tags_to_be obj with
                 | Some tags => ret (false, tags)
                 | None => raise (AttributeError "_tags_to_be")
                 end
          end ;;
  let values := if omit_coder then [] else [username (coder obj)] in
  date <- lift (match strftime_Ymd (date obj) with
                | Some s => Ok s
                | None => Raise (ValueError "strftime")
                end) ;;
  joined <- lift (join_tags (fst tags) (snd tags)) ;;
  (* === dump to csv === *)
  comment <- lift (utf8_safe (match comment obj with Some c => c | None => "" end)) ;;
  ret (values ++
       [ project_name (project obj);
         date;
         frmt_time (start_time obj);
         frmt_time (end_time obj);
         unicode_Decimal W (amount obj);
         joined;
         match repository obj with Some r => distinct_name r | None => "" end;
         match issue obj with Some i => issue_number i | None => "" end;
         comment ]).

Definition quotechar : ascii := ascii_of_nat 34.

Fixpoint needs_quotes (s : string) : bool :=
  match s with
  | EmptyString => false
  | String c s' =>
      Ascii.eqb c ";" || Ascii.eqb c quotechar
      || (nat_of_ascii c =? 13) || (nat_of_ascii c =? 10) || needs_quotes s'
  end.

Fixpoint double_quotes (s : string) : string :=
  match s with
  | EmptyString => EmptyString
  | String c s' =>
      if Ascii.eqb c quotechar then String c (String c (double_quotes s'))
      else String c (double_quotes s')
  end.

(** A field as [csv.writer] writes it: quoted when it has to be. *)
Definition csv_field (v : string) : string :=
  if needs_quotes v
  then String quotechar (double_quotes v +:+ String quotechar EmptyString)
  else v.

(** [csv.writer(tmp, delimiter=';').writerow(values)] for two values or
    more: each value is read as a C string, that is up to its first NUL
    byte; minimal quoting; and the line ends with CR LF. *)
Definition writerow (values : list string) : string :=
  join ";" (List.map (fun v => csv_field (c_string v)) values)
  +:+ String (ascii_of_nat 13) (String (ascii_of_nat 10) EmptyString).

Definition csv_dump (obj : Hours W) (omit_coder : bool) : M W string :=
  values <- csv_dump_values obj omit_coder ;;
  (* === dump to csv === *)
  ret (writerow values).

(* ------------------------------------------------------------------ *)
(** *** The manager calls of csv_get_or_create *)

Definition set_Hours_rows (rows : list (HoursFields W)) (db : DB W) : DB W :=
  {| User_rows := User_rows db; Project_rows := Project_rows db;
     Hours_rows := rows; HourTag_rows := HourTag_rows db;
     Hours_tags_rows := Hours_tags_rows db |}.

Definition set_HourTag_rows (rows : list string) (db : DB W) : DB W :=
  {| User_rows := User_rows db; Project_rows := Project_rows db;
     Hours_rows := Hours_rows db; HourTag_rows := rows;
     Hours_tags_rows := Hours_tags_rows db |}.

Definition set_Hours_tags_rows (rows : list (nat * nat)) (db : DB W) : DB W :=
  {| User_rows := User_rows db; Project_rows := Project_rows db;
     Hours_rows := Hours_rows db; HourTag_rows := HourTag_rows db;
     Hours_tags_rows := rows |}.

(** [Hours.objects.get_or_create] with the keyword arguments [q]: [get],
    which compares the amount of a row with the amount of [q] as it is,
    and on [DoesNotExist] create and save, which writes the row with the
    amount as the column takes it while the instance keeps the amount of
    [q]; more than one match is [MultipleObjectsReturned]. *)
Definition Hours_get_or_create (q : Identity W) : M W (Hours W * bool) :=
  rows <- query Hours_rows ;;
  match select (lookup_matches q) 1 rows with
  | [] =>
      let r := Hours_of_kwargs q in
      row <- lift (Hours_row r) ;;
      update (set_Hours_rows (rows ++ [row])) ;;;
      ret ({| pk := Some (S (length rows)); fields := r; _tags_to_be := None |}, true)
  | [(k, r)] => ret ({| pk := Some k; fields := r; _tags_to_be := None |}, false)
  | _ => raise (MultipleObjectsReturned Hours_model)
  end.

(** [HourTag.objects.get_or_create(name=tag_name)] *)
Definition HourTag_get_or_create (tag_name : string) : M W (HourTag * bool) :=
  rows <- query HourTag_rows ;;
  match select (String.eqb tag_name) 1 rows with
  | [] =>
      update (set_HourTag_rows (rows ++ [tag_name])) ;;;
      ret ({| tag_pk := S (length rows); name := tag_name |}, true)
  | [(k, n)] => ret ({| tag_pk := k; name := n |}, false)
  | _ => raise (MultipleObjectsReturned HourTag_model)
  end.

(** [obj.tags = tags]: the descriptor clears the relation of [obj] and adds
    the tags, each key once, at once in the database. *)
Definition set_tags (obj : Hours W) (tags : list HourTag) : M W unit :=
  match pk obj with
  | Some k =>
      update (fun db =>
        set_Hours_tags_rows
          (List.filter (fun p : nat * nat => negb (fst p =? k)) (Hours_tags_rows db)
           ++ List.map (pair k) (nodup Nat.eq_dec (List.map tag_pk tags))) db)
  | None => raise (ValueError "needs a primary key")
  end.

(** [obj.save()]: the row with the key of [obj] is updated with the row
    written for its fields; when the instance has no key, or its key is
    the next one of the table, the row is inserted under that next key.
    A table here holds the keys from 1 to its length, so it has no place
    for a row whose key lies beyond the next one, which Django would
    insert under that key: such a save leaves the table as it is, and
    the properties of [save] are stated for keys up to the next one. *)
Definition save (obj : Hours W) : M W unit :=
  row <- lift (Hours_row (fields obj)) ;;
  rows <- query Hours_rows ;;
  match pk obj with
  | Some (S i) =>
      if i <? length rows
      then update (set_Hours_rows (<[i := row]> rows))
      else if i =? length rows
           then update (set_Hours_rows (rows ++ [row]))
           else ret tt
  | _ => update (set_Hours_rows (rows ++ [row]))
  end.

(** The loop [for tag_name in parsed._tags_to_be]. *)
Fixpoint for_tag_names (tag_names : list string) : M W (list HourTag) :=
  match tag_names with
  | [] => ret []
  | tag_name :: rest =>
      r <- HourTag_get_or_create tag_name ;;
      tags <- for_tag_names rest ;;
      ret (fst r :: tags)
  end.

Definition getattr_tags_to_be (parsed : Hours W) : M W (list string) :=
  match _tags_to_be parsed with
  | Some tags => ret tags
  | None => raise (AttributeError "_tags_to_be")
  end.

(* ------------------------------------------------------------------ *)
(** *** HoursManager.csv_get_or_create *)

(** The function from the lookup on: what it does with the parsed entry. *)
Definition get_or_create_parsed (parsed : Hours W) : M W (Hours W * bool) :=
  tags_to_be <- getattr_tags_to_be parsed ;;
  assert (match tags_to_be with [] => false | _ => true end) assert_tags_to_be ;;;
  (* get unique object *)
  let q := HOURS_IDENTITY_FIELDS parsed in
  r <- Hours_get_or_create q ;;
  let created := snd r in
  (* allow overwriting some fields *)
  let obj := set_extra (HOURS_EXTRA_FIELDS parsed) (fst r) in
  (* overwrite tags, regardless of whether the obj was created of not *)
  tags <- for_tag_names tags_to_be ;;
  set_tags obj tags ;;;
  save obj ;;;
  ret (obj, created).

Definition csv_get_or_create (row : list string) (coder : option Coder)
  : M W (Hours W * bool) :=
  parsed <- _csv_parse row coder ;;
  get_or_create_parsed parsed.

(** [csv_get_or_create] up to and including the lookup, before the extra
    fields and the tags are touched. *)
Definition csv_get_or_create_lookup (row : list string) (coder : option Coder)
  : M W (Hours W * (Hours W * bool)) :=
  parsed <- _csv_parse row coder ;;
  tags_to_be <- getattr_tags_to_be parsed ;;
  assert (match tags_to_be with [] => false | _ => true end) assert_tags_to_be ;;;
  r <- Hours_get_or_create (HOURS_IDENTITY_FIELDS parsed) ;;
  ret (parsed, r).

End Managers.

(* ================================================================== *)
(** ** The other methods of Hours and HourTag *)

Section Methods.
Context {W : World}.

(** [Hours.as_scsv]: semicolon-separated values. *)
Definition as_scsv (self : Hours W) : M W string := csv_dump self false.

(** [Hours.as_scsv_without_coder] *)
Definition as_scsv_without_coder (self : Hours W) : M W string := csv_dump self true.

(** [Hours.similar_row_exists]: can be used eg. when parsing new hours
    from CSV files.  Only [Hours.DoesNotExist] is caught. *)
Definition similar_row_exists (self : Hours W) : M W bool :=
  obj <- try_except
           (let q := HOURS_IDENTITY_FIELDS self in
            rows <- query Hours_rows ;;
            r <- lift (objects_get Hours_model (lookup_matches q) rows) ;;
            ret (Some r))
           (fun e => match e with
                     | DoesNotExist Hours_model => Some (ret None)
                     | _ => None
                     end) ;;
  ret (match obj with Some _ => true | None => false end).

(** [Hours.tags_string]; an instance without a key has no [tags]. *)
Definition tags_string (self : Hours W) : M W string :=
  match pk self with
  | Some k => ts <- tags_all k ;; ret (join ", " (List.map name ts))
  | None => raise (ValueError "needs a primary key")
  end.

(** The instance the row with key [k] loads as. *)
Definition Hours_by_pk (rows : list (HoursFields W)) (k : nat) : option (Hours W) :=
  match k with
  | S i => (fun r => {| pk := Some k; fields := r; _tags_to_be := None |}) <$> rows !! i
  | 0 => None
  end.

(** [HourTag.iter_hours]: what [self.hours_set.all()] yields, in the
    order of the relation's rows. *)
Definition iter_hours (self : HourTag) : M W (list (Hours W)) :=
  rel <- query Hours_tags_rows ;;
  rows <- query Hours_rows ;;
  ret (omap (fun p : nat * nat =>
               if snd p =? tag_pk self then Hours_by_pk rows (fst p) else None) rel).

End Methods.

(* ================================================================== *)
(** ** Billing months *)

(** A row of [Month]: two integer columns. *)
Module Month.
Record t := { year : Z; month : Z }.
End Month.

(** The exceptions the billing calls can raise: the lookup of
    [get_or_create] met more than one month; and [save] met an amount
    that the column of the hours table refuses. *)
Inductive Month_exception := Month_MultipleObjectsReturned | Hours_InvalidOperation.

Section Billing.
Context {W : World}.

(** The database with the billing tables beside it: the months, and the
    two nullable foreign keys of the hours table, each a map from the key
    of an hours row to the key of its month ([NULL] is no entry). *)
Record Ledger := {
  tables : DB W;
  Month_rows : list Month.t;
  coder_billing_month_id : gmap nat nat;
  project_billing_month_id : gmap nat nat }.

(** An [Hours] instance with its two billing attributes, each the key of
    a month or [None]; a month that is set is an instance, hence true. *)
Record BillableHours := {
  hours : Hours W;
  coder_billing_month : option nat;
  project_billing_month : option nat }.

(** The filter of [get_or_create(year=y, month=m)] on one row. *)
Definition Month_matches (y m : Z) (r : Month.t) : bool :=
  (Month.year r =? y)%Z && (Month.month r =? m)%Z.

(** [MonthManager.get_from_date]: the month instance, key and row. *)
Definition get_from_date (d : date_t) (l : Ledger)
  : (Month_exception + nat * Month.t) * Ledger :=
  let y := Z.of_nat (year d) in
  let m := Z.of_nat (month d) in
  match select (Month_matches y m) 1 (Month_rows l) with
  | [] =>
      let r := {| Month.year := y; Month.month := m |} in
      (inr (S (length (Month_rows l)), r),
       {| tables := tables l; Month_rows := Month_rows l ++ [r];
          coder_billing_month_id := coder_billing_month_id l;
          project_billing_month_id := project_billing_month_id l |})
  | [(k, r)] => (inr (k, r), l)
  | _ => (inl Month_MultipleObjectsReturned, l)
  end.

(** A nullable foreign key column takes the value of the attribute. *)
Definition set_column (k : nat) (v : option nat) (col : gmap nat nat) : gmap nat nat :=
  match v with
  | Some x => <[k := x]> col
  | None => delete k col
  end.

(** The key of [self] once it is saved: its own, or the next one of the
    table for an instance that has none. *)
Definition save_key (self : BillableHours) (l : Ledger) : nat :=
  match pk (hours self) with
  | Some (S i) => S i
  | _ => S (length (Hours_rows (tables l)))
  end.

(** [self.save()] with the billing attributes: every column of the row
    is written; an instance without a key is inserted and takes the next
    key.  The one exception of [save] is the [InvalidOperation] of the
    amount. *)
Definition save_billable (self : BillableHours) (l : Ledger)
  : (Month_exception + BillableHours) * Ledger :=
  match save (hours self) (tables l) with
  | (Raise _, _) => (inl Hours_InvalidOperation, l)
  | (Ok _, t) =>
      let k := save_key self l in
      (inr {| hours := {| pk := Some k; fields := fields (hours self);
                          _tags_to_be := _tags_to_be (hours self) |};
              coder_billing_month := coder_billing_month self;
              project_billing_month := project_billing_month self |},
       {| tables := t;
          Month_rows := Month_rows l;
          coder_billing_month_id :=
            set_column k (coder_billing_month self) (coder_billing_month_id l);
          project_billing_month_id :=
            set_column k (project_billing_month self) (project_billing_month_id l) |})
  end.

(** [Hours.set_default_coder_billing_month]; the instance is returned as
    the call leaves it. *)
Definition set_default_coder_billing_month (self : BillableHours) (l : Ledger)
  : (Month_exception + BillableHours) * Ledger :=
  match coder_billing_month self with
  | Some _ => (inr self, l)
  | None =>
      match get_from_date (date (hours self)) l with
      | (inl e, l') => (inl e, l')
      | (inr m, l') =>
          save_billable {| hours := hours self;
                           coder_billing_month := Some (fst m);
                           project_billing_month := project_billing_month self |} l'
      end
  end.

(** [Hours.set_default_project_billing_month] *)
Definition set_default_project_billing_month (self : BillableHours) (l : Ledger)
  : (Month_exception + BillableHours) * Ledger :=
  match project_billing_month self with
  | Some _ => (inr self, l)
  | None =>
      match get_from_date (date (hours self)) l with
      | (inl e, l') => (inl e, l')
      | (inr m, l') =>
          save_billable {| hours := hours self;
                           coder_billing_month := coder_billing_month self;
                           project_billing_month := Some (fst m) |} l'
      end
  end.

End Billing.

Arguments Ledger W : clear implicits.
Arguments BillableHours W : clear implicits.

(** The decimal digits of [n], most significant first. *)
Fixpoint decimal_digits (fuel n : nat) : string :=
  match fuel with
  | 0 => EmptyString
  | S fuel' =>
      (if n <? 10 then EmptyString else decimal_digits fuel' (n / 10))
      +:+ String (digit_char (n mod 10)) EmptyString
  end.

(** [str(n)] for a number that is not negative. *)
Definition str_nat (n : nat) : string := decimal_digits (S n) n.

(** ['{}'.format(z)] for an integer. *)
Definition format_int (z : Z) : string :=
  if (z <? 0)%Z then "-" +:+ str_nat (Z.to_nat (- z)) else str_nat (Z.to_nat z).

(** ['{:02d}'.format(z)]: at least two characters, the sign among them,
    filled with zeros. *)
Definition format_02d (z : Z) : string :=
  if (z <? 0)%Z then "-" +:+ str_nat (Z.to_nat (- z))
  else if (z <? 10)%Z then "0" +:+ str_nat (Z.to_nat z)
  else str_nat (Z.to_nat z).

(** [Month.__unicode__] *)
Definition Month_unicode (self : Month.t) : string :=
  format_int (Month.year self) +:+ "-" +:+ format_02d (Month.month self).


(* ================================================================== *)
(** ** Vocabulary of the statements *)

(** [c in s] *)
Fixpoint contains (c : ascii) (s : string) : bool :=
  match s with
  | EmptyString => false
  | String c' s' => Ascii.eqb c' c || contains c s'
  end.

(** A tag name as the parser leaves it: not empty, trimmed, in lower
    case, and without a comma. *)
Definition tag_name_normal (t : string) : Prop :=
  t <> "" /\ lower (strip t) = t /\ contains "," t = false.


Section Vocabulary.
Context {W : World}.

(** A computation that reads the user and project tables and writes
    nothing: its result is a function of these two tables. *)
Definition reads_only {A} (c : M W A) : Prop :=
  exists f : list User -> list Project -> Result A,
    forall db, c db = (f (User_rows db) (Project_rows db), db).

(** The repository and the issue [_csv_parse] finds for a row. *)
Definition row_repository (f : RowFields) : option Repository :=
  try_to_get_by_name W (f_repo f).

Definition row_issue (f : RowFields) : option Issue :=
  match row_repository f with
  | Some r => try_to_get_issue W r (f_iss f)
  | None => None
  end.

(** The two candidates [a] and [b] for the project of a row: the one the
    project name gives, and the one the issue gives. *)
Definition explicit_project (f : RowFields) : M W (option Project) :=
  if truthy (f_proj f) then (p <- Project_get (f_proj f) ;; ret (Some p)) else ret None.

Definition derived_project (f : RowFields) : option Project :=
  match row_issue f with
  | Some i => try_to_get_project W i
  | None => None
  end.

(** The project [_csv_parse] settles on from the two candidates, or the
    exception the project block raises. *)
Definition project_outcome (f : RowFields) (db : DB W) : Result Project :=
  match fst (explicit_project f db) with
  | Raise e => Raise e
  | Ok a =>
      match a, derived_project f with
      | Some pa, Some pb => if Project_eq pa pb then Ok pa else Raise ProjectMismatch
      | Some pa, None => Ok pa
      | None, Some pb => Ok pb
      | None, None => Raise ProjectRequired
      end
  end.

(** The entry [_csv_parse] returns, given what the row's fields were read as. *)
Definition pending_entry (row : list string) (c : Coder) (f : RowFields)
    (p : Project) (d : date_t) (amt : Decimal W) : Hours W :=
  {| pk := None;
     fields := {| coder := user c; project := p; date := d; amount := amt;
                  start_time := parse_time (f_strt f) TIME_FORMATS;
                  end_time := parse_time (f_end f) TIME_FORMATS;
                  issue := row_issue f; repository := row_repository f;
                  comment := Some (f_comment f);
                  input_data_json := Some (json_dumps W row) |};
     _tags_to_be := Some (normalize_tags (f_tags f)) |}.

(** The tags field of a row, by its place in the unpacking. *)
Definition row_tags (row : list string) (coder : option Coder) : string :=
  match coder with
  | None => nth 6 row EmptyString
  | Some _ => nth 5 row EmptyString
  end.

(** Two rows of the table name the same logical record: they agree on the
    eight identity fields. *)
Definition same_identity (r1 r2 : HoursFields W) : Prop :=
  user_pk (coder r1) = user_pk (coder r2)
  /\ project_pk (project r1) = project_pk (project r2)
  /\ date r1 = date r2
  /\ amount r1 = amount r2
  /\ start_time r1 = start_time r2
  /\ issue_pk <$> issue r1 = issue_pk <$> issue r2
  /\ repository_pk <$> repository r1 = repository_pk <$> repository r2
  /\ comment r1 = comment r2.

(** The entry with key [k]: its row and the names of its tags. *)
Definition stored (db : DB W) (k : nat) : option (HoursFields W) :=
  match k with
  | S i => Hours_rows db !! i
  | 0 => None
  end.

Definition stored_tag_names (db : DB W) (k : nat) : list string :=
  match tags_all k db with
  | (Ok ts, _) => List.map name ts
  | (Raise _, _) => []
  end.

(** The tag that the table [rows] holds for the name [n]: the only row
    with that name. *)
Definition tag_at (rows : list string) (n : string) (t : HourTag) : Prop :=
  name t = n /\ select (String.eqb n) 1 rows = [(tag_pk t, n)].

(** The uniqueness the specification asks of the hours table: no two
    rows name the same logical record. *)
Definition identity_unique (db : DB W) : Prop :=
  forall k1 k2 r1 r2,
    stored db k1 = Some r1 -> stored db k2 = Some r2 -> same_identity r1 r2 -> k1 = k2.

(** The row the table holds for the fields [r] once they are written:
    the amount is the one the column takes. *)
Definition column_row (r : HoursFields W) : HoursFields W :=
  match Hours_row r with
  | Ok row => row
  | Raise _ => r
  end.

(** The instance as the table holds it once it is saved. *)
Definition written (obj : Hours W) : Hours W :=
  {| pk := pk obj; fields := column_row (fields obj); _tags_to_be := _tags_to_be obj |}.

(** The column holds the amount as it is: the amount has no more than
    two decimal places and four digits. *)
Definition column_keeps (a : Decimal W) : Prop := Decimal_column W a = Some a.

(** Every amount of the hours table is one that its column holds. *)
Definition amounts_in_column (db : DB W) : Prop :=
  forall k r, stored db k = Some r -> column_keeps (amount r).

(** The database after a successful import that found or created the
    entry with key [S k], appended the tag names [ext] and resolved the
    tags [ts]. *)
Definition imported_db (db : DB W) (created : bool) (k : nat) (obj : Hours W)
    (ext : list string) (ts : list HourTag) : DB W :=
  {| User_rows := User_rows db;
     Project_rows := Project_rows db;
     Hours_rows := if created then Hours_rows db ++ [fields obj]
                   else <[k := fields obj]> (Hours_rows db);
     HourTag_rows := HourTag_rows db ++ ext;
     Hours_tags_rows :=
       List.filter (fun p : nat * nat => negb (fst p =? S k)) (Hours_tags_rows db)
       ++ List.map (pair (S k)) (nodup Nat.eq_dec (List.map tag_pk ts)) |}.

End Vocabulary.

Arguments row_repository W f : clear implicits.
Arguments row_issue W f : clear implicits.
Arguments derived_project W f : clear implicits.

(* ------------------------------------------------------------------ *)
(** *** Vocabulary of the further statements *)

(** AM or PM, in upper or in lower case. *)
Definition ampm_text (pm upper : bool) : string :=
  match pm, upper with
  | false, true => "AM" | true, true => "PM"
  | false, false => "am" | true, false => "pm"
  end.

(** A value [csv.writer] writes whole: the writer of Python 2 takes a
    value as a C string and ends it at its first NUL byte. *)
Definition nul_free (v : string) : Prop := contains (ascii_of_nat 0) v = false.

(** The line terminator of [csv.writer]. *)
Definition CRLF : string := String (ascii_of_nat 13) (String (ascii_of_nat 10) EmptyString).

(** The characters that make [csv.writer] quote a field. *)
Definition special (c : ascii) : bool :=
  Ascii.eqb c ";" || Ascii.eqb c quotechar
  || (nat_of_ascii c =? 13) || (nat_of_ascii c =? 10).

(** A reader for the fields [writerow] writes, by which a line is shown to
    determine its values.  After an opening quote: the text up to the
    closing quote, a doubled quote standing for one, and what follows the
    closing quote. *)
Fixpoint read_quoted (s : string) : option (string * string) :=
  match s with
  | EmptyString => None
  | String c s' =>
      if Ascii.eqb c quotechar then
        match s' with
        | String c2 s'' =>
            if Ascii.eqb c2 quotechar
            then match read_quoted s'' with
                 | Some (v, r) => Some (String quotechar v, r)
                 | None => None
                 end
            else Some (EmptyString, s')
        | EmptyString => Some (EmptyString, EmptyString)
        end
      else match read_quoted s' with
           | Some (v, r) => Some (String c v, r)
           | None => None
           end
  end.

(** A field that is not quoted: the text up to the first special character. *)
Fixpoint read_plain (s : string) : string * string :=
  match s with
  | EmptyString => (EmptyString, EmptyString)
  | String c s' =>
      if special c then (EmptyString, s)
      else (String c (fst (read_plain s')), snd (read_plain s'))
  end.

Definition read_field (s : string) : option (string * string) :=
  match s with
  | String c s' => if Ascii.eqb c quotechar then read_quoted s' else Some (read_plain s)
  | EmptyString => Some (EmptyString, EmptyString)
  end.

(** The exceptions [_csv_parse] can raise. *)
Definition parse_errors : list Exception :=
  [ ValueError "unpack"; DoesNotExist User_model; MultipleObjectsReturned User_model;
    NoCoderProjects; AtLeastOneTagRequired;
    DoesNotExist Project_model; MultipleObjectsReturned Project_model;
    ProjectMismatch; ProjectRequired;
    ValueError "strptime"; InvalidOperation; UnicodeDecodeError; NotAllowed ].

Section FurtherVocabulary.
Context {W : World}.

(** The tag names [csv_dump] writes for [obj], or the error of a missing
    [_tags_to_be]. *)
Definition dump_tags (obj : Hours W) (db : DB W) : Result (list string) :=
  match pk obj with
  | Some (S k) => Ok (stored_tag_names db (S k))
  | _ => match _tags_to_be obj with
         | Some tags => Ok tags
         | None => Raise (AttributeError "_tags_to_be")
         end
  end.

(** Whether [csv_dump] gets through the join of the tag names and the
    decoding of the comment: the names of stored tags are unicode, the
    pending names are byte strings that the join decodes as ASCII, and
    the comment is decoded as UTF-8. *)
Definition dump_decodes (obj : Hours W) : bool :=
  match pk obj with
  | Some (S _) => true
  | _ => match _tags_to_be obj with
         | Some tags => forallb is_ascii tags
         | None => true
         end
  end
  && decodes W (match comment obj with Some c => c | None => "" end).

(** The month with key [k]. *)
Definition Month_stored (l : Ledger W) (k : nat) : option Month.t :=
  match k with
  | S i => Month_rows l !! i
  | 0 => None
  end.

(** No two months stand for the same year and month. *)
Definition months_unique (l : Ledger W) : Prop :=
  forall k1 k2 r1 r2,
    Month_stored l k1 = Some r1 -> Month_stored l k2 = Some r2 ->
    Month.year r1 = Month.year r2 -> Month.month r1 = Month.month r2 -> k1 = k2.

End FurtherVocabulary.

(* ================================================================== *)
(** ** A sample installation

    The data of the specification's example: alice may log hours on Acme,
    repository repo-x has issue 42, which belongs to Acme.  Carol may log
    on Globex only, and bob's only group has no project. *)

Module Sample.

Definition Acme : Project := {| project_pk := 1; project_name := "Acme" |}.
Definition Globex : Project := {| project_pk := 2; project_name := "Globex" |}.

Definition alice : User :=
  {| user_pk := 1; username := "alice";
     groups := [ {| customer_projects := [Acme] |} ] |}.
Definition bob : User :=
  {| user_pk := 2; username := "bob";
     groups := [ {| customer_projects := [] |} ] |}.
Definition carol : User :=
  {| user_pk := 3; username := "carol";
     groups := [ {| customer_projects := [Globex] |} ] |}.

Definition repo_x : Repository := {| repository_pk := 1; distinct_name := "repo-x" |}.
Definition issue_42 : Issue := {| issue_pk := 1; issue_number := "42" |}.
Definition issue_7 : Issue := {| issue_pk := 2; issue_number := "7" |}.

(** Amounts in thousandths: one decimal place more than the column of
    the hours table holds. *)
Fixpoint thousandths (whole : nat) (frac : option (list nat)) (s : string) : option nat :=
  match s with
  | EmptyString =>
      match frac with
      | None | Some [] => Some (1000 * whole)
      | Some [a] => Some (1000 * whole + 100 * a)
      | Some [a; b] => Some (1000 * whole + 100 * a + 10 * b)
      | Some [a; b; c] => Some (1000 * whole + 100 * a + 10 * b + c)
      | Some _ => None
      end
  | String c s' =>
      let n := nat_of_ascii c in
      if Ascii.eqb c "." then
        match frac with None => thousandths whole (Some []) s' | Some _ => None end
      else if (48 <=? n) && (n <=? 57) then
        match frac with
        | None => thousandths (10 * whole + (n - 48)) None s'
        | Some ds => thousandths whole (Some (ds ++ [n - 48])) s'
        end
      else None
  end.

(** A reader for plain amounts of at most three decimals. *)
Definition amount_of_string (s : string) : option nat :=
  match s with
  | EmptyString | "." => None
  | _ => thousandths 0 None s
  end.

(** The column of the hours table: two decimal places, rounded half to
    even, and at most four digits. *)
Definition amount_column (n : nat) : option nat :=
  let q := n / 10 in
  let r := n mod 10 in
  let h := if r <? 5 then q
           else if 5 <? r then S q
           else if Nat.even q then q else S q in
  if h <? 10000 then Some (10 * h) else None.

(** A reader of UTF-8 by the length of its sequences. *)
Definition continuation (c : ascii) : bool :=
  (128 <=? nat_of_ascii c) && (nat_of_ascii c <? 192).

Fixpoint utf8 (s : string) : bool :=
  match s with
  | EmptyString => true
  | String c s1 =>
      let n := nat_of_ascii c in
      if n <? 128 then utf8 s1
      else if (194 <=? n) && (n <? 224) then
        match s1 with
        | String c1 s2 => continuation c1 && utf8 s2
        | _ => false
        end
      else if (224 <=? n) && (n <? 240) then
        match s1 with
        | String c1 (String c2 s3) => continuation c1 && continuation c2 && utf8 s3
        | _ => false
        end
      else if (240 <=? n) && (n <? 245) then
        match s1 with
        | String c1 (String c2 (String c3 s4)) =>
            continuation c1 && continuation c2 && continuation c3 && utf8 s4
        | _ => false
        end
      else false
  end.

Fixpoint digits (fuel n : nat) : string :=
  match fuel with
  | 0 => EmptyString
  | S fuel' =>
      (if n <? 10 then EmptyString else digits fuel' (n / 10))
      +:+ String (digit_char (n mod 10)) EmptyString
  end.

Definition unicode_amount (n : nat) : string :=
  digits (S (n / 1000)) (n / 1000) +:+ "."
  +:+ (if n mod 10 =? 0 then pad2 (n mod 1000 / 10)
       else String (digit_char (n mod 1000 / 100)) (pad2 (n mod 100))).

Definition quoted (s : string) : string :=
  String quotechar (s +:+ String quotechar EmptyString).

Definition world : World :=
  {| Decimal := nat;
     Decimal_of_string := amount_of_string;
     unicode_Decimal := unicode_amount;
     Decimal_column := amount_column;
     decodes_utf8 := utf8;
     json_dumps := fun row => "[" +:+ join ", " (List.map quoted row) +:+ "]";
     try_to_get_by_name := fun repo =>
       if String.eqb repo "repo-x" then Some repo_x else None;
     try_to_get_issue := fun r iss =>
       if negb (repository_pk r =? 1) then None
       else if String.eqb iss "42" then Some issue_42
       else if String.eqb iss "7" then Some issue_7 else None;
     try_to_get_project := fun i =>
       if issue_pk i =? 1 then Some Acme
       else if issue_pk i =? 2 then Some Globex else None |}.

(** A database with no hours and no tags yet. *)
Definition db0 : DB world :=
  {| User_rows := [alice; bob; carol];
     Project_rows := [Acme; Globex];
     Hours_rows := [];
     HourTag_rows := [];
     Hours_tags_rows := [] |}.

(** The row of the specification's example. *)
Definition row_alice : list string :=
  ["alice"; "Acme"; "2024-03-01"; "09:00"; "17:00"; "8.00"; "dev, urgent"; "repo-x"; "42"; ""].

(** The same entry reported again with a later end. *)
Definition row_alice_later : list string :=
  ["alice"; "Acme"; "2024-03-01"; "09:00"; "18:00"; "8.00"; "dev, urgent"; "repo-x"; "42"; ""].

(** What [_csv_parse] makes of [row_alice]: the coder, the fields and the entry. *)
Definition alice_coder : Coder := {| user := alice; projects := [Acme] |}.

Definition alice_fields : RowFields :=
  {| f_proj := "Acme"; f_date := "2024-03-01"; f_strt := "09:00"; f_end := "17:00";
     f_hrs := "8.00"; f_tags := "dev, urgent"; f_repo := "repo-x"; f_iss := "42";
     f_comment := "" |}.

Definition alice_entry : Hours world :=
  {| pk := None;
     fields := {| coder := alice; project := Acme;
                  date := {| year := 2024; month := 3; day := 1 |};
                  amount := 8000 : Decimal world;
                  start_time := Some {| hour := 9; minute := 0; second := 0 |};
                  end_time := Some {| hour := 17; minute := 0; second := 0 |};
                  issue := Some issue_42; repository := Some repo_x;
                  comment := Some "";
                  input_data_json := Some (json_dumps world row_alice) |};
     _tags_to_be := Some ["dev"; "urgent"] |}.

(** The same entry once stored, and the database that holds it. *)
Definition alice_stored : Hours world :=
  {| pk := Some 1; fields := fields alice_entry; _tags_to_be := None |}.

Definition db_alice : DB world :=
  {| User_rows := [alice; bob; carol];
     Project_rows := [Acme; Globex];
     Hours_rows := [fields alice_entry];
     HourTag_rows := ["dev"; "urgent"];
     Hours_tags_rows := [(1, 1); (1, 2)] |}.

(** The entry as the lookup creates it, from the identity fields alone. *)
Definition alice_row_created : HoursFields world :=
  {| coder := alice; project := Acme;
     date := {| year := 2024; month := 3; day := 1 |};
     amount := 8000 : Decimal world;
     start_time := Some {| hour := 9; minute := 0; second := 0 |};
     end_time := None;
     issue := Some issue_42; repository := Some repo_x;
     comment := Some "";
     input_data_json := None |}.

Definition db_alice_created : DB world :=
  {| User_rows := [alice; bob; carol];
     Project_rows := [Acme; Globex];
     Hours_rows := [alice_row_created];
     HourTag_rows := [];
     Hours_tags_rows := [] |}.

(** The entry after [row_alice_later] was imported over it. *)
Definition alice_later_row : HoursFields world :=
  {| coder := alice; project := Acme;
     date := {| year := 2024; month := 3; day := 1 |};
     amount := 8000 : Decimal world;
     start_time := Some {| hour := 9; minute := 0; second := 0 |};
     end_time := Some {| hour := 18; minute := 0; second := 0 |};
     issue := Some issue_42; repository := Some repo_x;
     comment := Some "";
     input_data_json := Some (json_dumps world row_alice_later) |}.

Definition db_alice_later : DB world :=
  {| User_rows := [alice; bob; carol];
     Project_rows := [Acme; Globex];
     Hours_rows := [alice_later_row];
     HourTag_rows := ["dev"; "urgent"];
     Hours_tags_rows := [(1, 1); (1, 2)] |}.

(** A row of a user nobody knows, with no tags. *)
Definition row_ghost : list string :=
  ["ghost"; "Acme"; "2024-03-01"; "09:00"; "17:00"; "8.00"; ""; "repo-x"; "42"; ""].

(** A row that names a project nobody knows and no issue. *)
Definition row_nope : list string :=
  ["alice"; "Nope"; "2024-03-01"; "09:00"; "17:00"; "8.00"; "dev"; ""; ""; ""].

Definition nope_fields : RowFields :=
  {| f_proj := "Nope"; f_date := "2024-03-01"; f_strt := "09:00"; f_end := "17:00";
     f_hrs := "8.00"; f_tags := "dev"; f_repo := ""; f_iss := ""; f_comment := "" |}.

(** A row whose project name (Globex) and issue (42, of Acme) disagree,
    with no tags. *)
Definition row_disagree : list string :=
  ["alice"; "Globex"; "2024-03-01"; "09:00"; "17:00"; "8.00"; " , "; "repo-x"; "42"; ""].

Definition disagree_fields : RowFields :=
  {| f_proj := "Globex"; f_date := "2024-03-01"; f_strt := "09:00"; f_end := "17:00";
     f_hrs := "8.00"; f_tags := " , "; f_repo := "repo-x"; f_iss := "42";
     f_comment := "" |}.

(** Carol on a project that is not hers, with a date that is none. *)
Definition row_carol : list string :=
  ["carol"; "Acme"; "not-a-date"; "09:00"; "17:00"; "8.00"; "dev"; ""; ""; ""].

Definition carol_coder : Coder := {| user := carol; projects := [Globex] |}.

Definition carol_fields : RowFields :=
  {| f_proj := "Acme"; f_date := "not-a-date"; f_strt := "09:00"; f_end := "17:00";
     f_hrs := "8.00"; f_tags := "dev"; f_repo := ""; f_iss := ""; f_comment := "" |}.

(** The same tag twice in one row. *)
Definition row_dev_dev : list string :=
  ["alice"; "Acme"; "2024-03-01"; "09:00"; "17:00"; "8.00"; "dev, dev"; "repo-x"; "42"; ""].

(** A tag table in which the name urgent stands twice. *)
Definition db_twins : DB world :=
  {| User_rows := [alice; bob; carol];
     Project_rows := [Acme; Globex];
     Hours_rows := [];
     HourTag_rows := ["urgent"; "urgent"];
     Hours_tags_rows := [] |}.

(** [db_twins] after the import of [row_alice] failed on the second tag. *)
Definition db_twins_failed : DB world :=
  {| User_rows := [alice; bob; carol];
     Project_rows := [Acme; Globex];
     Hours_rows := [alice_row_created];
     HourTag_rows := ["urgent"; "urgent"; "dev"];
     Hours_tags_rows := [] |}.

(** The pending entry of [row_dev_dev] and the database after its import. *)
Definition dev_dev_entry : Hours world :=
  {| pk := None;
     fields := {| coder := alice; project := Acme;
                  date := {| year := 2024; month := 3; day := 1 |};
                  amount := 8000 : Decimal world;
                  start_time := Some {| hour := 9; minute := 0; second := 0 |};
                  end_time := Some {| hour := 17; minute := 0; second := 0 |};
                  issue := Some issue_42; repository := Some repo_x;
                  comment := Some "";
                  input_data_json := Some (json_dumps world row_dev_dev) |};
     _tags_to_be := Some ["dev"; "dev"] |}.

Definition db_dev_dev : DB world :=
  {| User_rows := [alice; bob; carol];
     Project_rows := [Acme; Globex];
     Hours_rows := [fields dev_dev_entry];
     HourTag_rows := ["dev"];
     Hours_tags_rows := [(1, 1)] |}.


(** A tag of [db_alice]. *)
Definition tag_dev : HourTag := {| tag_pk := 1; name := "dev" |}.

(** The billing tables beside [db_alice], with no month yet, and the
    stored entry of alice as an instance that has no billing month. *)
Definition ledger_alice : Ledger world :=
  {| tables := db_alice; Month_rows := [];
     coder_billing_month_id := empty; project_billing_month_id := empty |}.

Definition alice_billable : BillableHours world :=
  {| hours := alice_stored; coder_billing_month := None; project_billing_month := None |}.

(** March 2024, and the tables once it is there. *)
Definition march_2024 : Month.t := {| Month.year := 2024%Z; Month.month := 3%Z |}.

Definition ledger_march : Ledger world :=
  {| tables := db_alice; Month_rows := [march_2024];
     coder_billing_month_id := empty; project_billing_month_id := empty |}.

(** An entry whose start time has seconds, the values [csv_dump] writes
    for it, and the second entry that reading them back creates. *)
Definition row_seconds : list string :=
  ["alice"; "Acme"; "2024-03-01"; "09:00:30 AM"; "17:00"; "8.00"; "dev"; "repo-x"; "42"; ""].

Definition seconds_stored : Hours world :=
  {| pk := Some 1;
     fields := {| coder := alice; project := Acme;
                  date := {| year := 2024; month := 3; day := 1 |};
                  amount := 8000 : Decimal world;
                  start_time := Some {| hour := 9; minute := 0; second := 30 |};
                  end_time := Some {| hour := 17; minute := 0; second := 0 |};
                  issue := Some issue_42; repository := Some repo_x;
                  comment := Some "";
                  input_data_json := Some (json_dumps world row_seconds) |};
     _tags_to_be := None |}.

Definition db_seconds : DB world :=
  {| User_rows := [alice; bob; carol];
     Project_rows := [Acme; Globex];
     Hours_rows := [fields seconds_stored];
     HourTag_rows := ["dev"];
     Hours_tags_rows := [(1, 1)] |}.

Definition seconds_dumped : list string :=
  ["alice"; "Acme"; "2024-03-01"; "09:00"; "17:00"; "8.00"; "dev"; "repo-x"; "42"; ""].

Definition seconds_again : Hours world :=
  {| pk := Some 2;
     fields := {| coder := alice; project := Acme;
                  date := {| year := 2024; month := 3; day := 1 |};
                  amount := 8000 : Decimal world;
                  start_time := Some {| hour := 9; minute := 0; second := 0 |};
                  end_time := Some {| hour := 17; minute := 0; second := 0 |};
                  issue := Some issue_42; repository := Some repo_x;
                  comment := Some "";
                  input_data_json := Some (json_dumps world seconds_dumped) |};
     _tags_to_be := None |}.

Definition db_seconds_again : DB world :=
  {| User_rows := [alice; bob; carol];
     Project_rows := [Acme; Globex];
     Hours_rows := [fields seconds_stored; fields seconds_again];
     HourTag_rows := ["dev"];
     Hours_tags_rows := [(1, 1); (2, 1)] |}.

(** The values [csv_dump] writes for [alice_stored]. *)
Definition alice_dumped : list string :=
  ["alice"; "Acme"; "2024-03-01"; "09:00"; "17:00"; "8.00"; "dev,urgent"; "repo-x"; "42"; ""].


(** An entry with an amount of three decimals, which the column rounds
    to 8.00, and the same entry reported again with a later end. *)
Definition row_thousandth : list string :=
  ["alice"; "Acme"; "2024-03-01"; "09:00"; "17:00"; "8.004"; "dev, urgent"; "repo-x"; "42"; ""].


Definition thousandth_fields (end_hour : nat) (row : list string) (a : nat) :
    HoursFields world :=
  {| coder := alice; project := Acme;
     date := {| year := 2024; month := 3; day := 1 |};
     amount := a : Decimal world;
     start_time := Some {| hour := 9; minute := 0; second := 0 |};
     end_time := Some {| hour := end_hour; minute := 0; second := 0 |};
     issue := Some issue_42; repository := Some repo_x;
     comment := Some "";
     input_data_json := Some (json_dumps world row) |}.

Definition thousandth_entry : Hours world :=
  {| pk := None; fields := thousandth_fields 17 row_thousandth 8004;
     _tags_to_be := Some ["dev"; "urgent"] |}.


(** The tables after [row_thousandth] was imported, after it was
    imported once more, and after [row_thousandth_later] was imported
    over the first import. *)
Definition db_thousandth : DB world :=
  {| User_rows := [alice; bob; carol];
     Project_rows := [Acme; Globex];
     Hours_rows := [thousandth_fields 17 row_thousandth 8000];
     HourTag_rows := ["dev"; "urgent"];
     Hours_tags_rows := [(1, 1); (1, 2)] |}.

Definition db_thousandth_twice : DB world :=
  {| User_rows := [alice; bob; carol];
     Project_rows := [Acme; Globex];
     Hours_rows := [thousandth_fields 17 row_thousandth 8000;
                    thousandth_fields 17 row_thousandth 8000];
     HourTag_rows := ["dev"; "urgent"];
     Hours_tags_rows := [(1, 1); (1, 2); (2, 1); (2, 2)] |}.








(** Carol on a project that is not hers, with a good date and a comment
    of one byte that is not UTF-8. *)
Definition row_carol_bytes : list string :=
  ["carol"; "Acme"; "2024-03-01"; "09:00"; "17:00"; "8.00"; "dev"; ""; "";
   String (ascii_of_nat 255) EmptyString].

Definition carol_bytes_fields : RowFields :=
  {| f_proj := "Acme"; f_date := "2024-03-01"; f_strt := "09:00"; f_end := "17:00";
     f_hrs := "8.00"; f_tags := "dev"; f_repo := ""; f_iss := "";
     f_comment := String (ascii_of_nat 255) EmptyString |}.

End Sample.

(* ================================================================== *)
(** * Properties *)

(** ** Reading times *)

Lemma try_format_HH_MM (h m : nat) :
  h < 24 -> m < 60 ->
  try_format (pad2 h +:+ ":" +:+ pad2 m) "%H:%M"
  = Some {| hour := h; minute := m; second := 0 |}.
Proof.
  intros Hh Hm.
  assert (H : forallb (fun h => forallb (fun m =>
                bool_decide (try_format (pad2 h +:+ ":" +:+ pad2 m) "%H:%M"
                             = Some {| hour := h; minute := m; second := 0 |}))
                (seq 0 60)) (seq 0 24) = true) by (vm_compute; reflexivity).
  rewrite forallb_forall in H.
  specialize (H h ltac:(apply in_seq; lia)).
  rewrite forallb_forall in H.
  specialize (H m ltac:(apply in_seq; lia)).
  apply bool_decide_eq_true in H. exact H.
Qed.

Lemma parse_time_unfold (x : string) :
  parse_time x TIME_FORMATS
  = (if truthy x then
       match try_format x "%H:%M" with
       | Some t => Some t
       | None =>
           match try_format x "%I:%M:%S %p" with
           | Some t => Some t
           | None => None
           end
       end
     else None).
Proof. reflexivity. Qed.

Lemma parse_time_HH_MM (h m : nat) :
  h < 24 -> m < 60 ->
  parse_time (pad2 h +:+ ":" +:+ pad2 m) TIME_FORMATS
  = Some {| hour := h; minute := m; second := 0 |}.
Proof.
  intros Hh Hm. rewrite parse_time_unfold.
  rewrite (try_format_HH_MM h m Hh Hm). reflexivity.
Qed.

(** A 12-hour time on the hour or within it, without seconds to spare:
    the first format refuses it and the second reads it. *)
Lemma try_format_hh_mm_00_ampm (h m : nat) (pm : bool) :
  1 <= h <= 12 -> m < 60 ->
  let x := pad2 h +:+ ":" +:+ pad2 m +:+ ":00 " +:+ (if pm then "PM" else "AM") in
  try_format x "%H:%M" = None
  /\ try_format x "%I:%M:%S %p"
     = Some {| hour := hour_of_I h (if pm then "pm" else "am"); minute := m; second := 0 |}.
Proof.
  intros Hh Hm x.
  assert (H : forallb (fun pm : bool => forallb (fun h => forallb (fun m =>
                let x := pad2 h +:+ ":" +:+ pad2 m +:+ ":00 " +:+ (if pm then "PM" else "AM") in
                bool_decide (try_format x "%H:%M" = None)
                && bool_decide (try_format x "%I:%M:%S %p"
                     = Some {| hour := hour_of_I h (if pm then "pm" else "am");
                               minute := m; second := 0 |}))
                (seq 0 60)) (seq 1 12)) [true; false] = true)
    by (vm_compute; reflexivity).
  rewrite forallb_forall in H.
  specialize (H pm ltac:(destruct pm; simpl; tauto)).
  rewrite forallb_forall in H.
  specialize (H h ltac:(apply in_seq; lia)).
  rewrite forallb_forall in H.
  specialize (H m ltac:(apply in_seq; lia)).
  cbv zeta in H. fold x in H.
  apply andb_true_iff in H. destruct H as [H1 H2].
  apply bool_decide_eq_true in H1, H2. split; assumption.
Qed.

(** C7.  [parse_time] on the manager's [TIME_FORMATS]: an empty string
    gives [None]; otherwise the 24-hour format is tried first and the
    12-hour format second, the first that reads a time of day gives the
    result, and a string that neither reads gives [None] (the function has
    no exception to raise: its result is an [option]).  A time written
    HH:MM is read by the first format; one written hh:mm:ss AM/PM is
    refused by the first and read by the second. *)
Theorem parse_time_formats_in_order (x : string) :
  parse_time x TIME_FORMATS
  = (if truthy x then
       match try_format x "%H:%M" with
       | Some t => Some t
       | None =>
           match try_format x "%I:%M:%S %p" with
           | Some t => Some t
           | None => None
           end
       end
     else None)
  /\ parse_time "" TIME_FORMATS = None
  /\ (forall h m, h < 24 -> m < 60 ->
        try_format (pad2 h +:+ ":" +:+ pad2 m) "%H:%M"
        = Some {| hour := h; minute := m; second := 0 |})
  /\ (try_format "05:30:15 PM" "%H:%M" = None
      /\ try_format "05:30:15 PM" "%I:%M:%S %p"
         = Some {| hour := 17; minute := 30; second := 15 |})
  /\ (try_format "half past nine" "%H:%M" = None
      /\ try_format "half past nine" "%I:%M:%S %p" = None
      /\ parse_time "half past nine" TIME_FORMATS = None).
Proof.
  split; [apply parse_time_unfold |].
  split; [reflexivity |].
  split; [exact try_format_HH_MM |].
  split; vm_compute; repeat split.
Qed.

Example parse_time_examples :
  parse_time "09:00" TIME_FORMATS = Some {| hour := 9; minute := 0; second := 0 |}
  /\ parse_time "05:30:15 PM" TIME_FORMATS = Some {| hour := 17; minute := 30; second := 15 |}
  /\ parse_time "12:00:00 am" TIME_FORMATS = Some {| hour := 0; minute := 0; second := 0 |}
  /\ parse_time "24:00" TIME_FORMATS = None
  /\ parse_time "11:59:60 PM" TIME_FORMATS = None.
Proof. vm_compute. repeat split. Qed.

(** ** Dates and times written the way the dump writes them *)

Lemma int_acc_digit acc k s :
  int_acc acc (String (digit_char (k mod 10)) s) = int_acc (10 * acc + k mod 10) s.
Proof.
  pose proof (Nat.mod_upper_bound k 10 ltac:(discriminate)) as Hk.
  cbn [int_acc]. unfold digit_char. rewrite nat_ascii_embedding by lia.
  replace (48 <=? 48 + k mod 10) with true by (symmetry; apply Nat.leb_le; lia).
  replace (48 + k mod 10 <=? 57) with true by (symmetry; apply Nat.leb_le; lia).
  cbn [andb]. f_equal. lia.
Qed.

Lemma int_pad4 y : y <= 9999 -> int (pad4 y) = y.
Proof.
  intros H.
  assert (Hlt : y < 10 * (10 * (10 * 10))).
  { eapply Nat.le_lt_trans; [exact H |]. apply Nat.ltb_lt. vm_compute. reflexivity. }
  clear H. unfold int, pad4, pad2. rewrite !int_acc_digit. cbn [int_acc].
  pose proof (Nat.div_mod_eq y 10) as E0.
  pose proof (Nat.div_mod_eq (y / 10) 10) as E1.
  pose proof (Nat.div_mod_eq (y / 10 / 10) 10) as E2.
  pose proof (Nat.div_mod_eq (y / 10 / 10 / 10) 10) as E3.
  pose proof (Nat.mod_upper_bound y 10 ltac:(discriminate)).
  pose proof (Nat.mod_upper_bound (y / 10) 10 ltac:(discriminate)).
  pose proof (Nat.mod_upper_bound (y / 10 / 10) 10 ltac:(discriminate)).
  pose proof (Nat.mod_upper_bound (y / 10 / 10 / 10) 10 ltac:(discriminate)).
  generalize dependent (y mod 10). generalize dependent ((y / 10) mod 10).
  generalize dependent ((y / 10 / 10) mod 10). generalize dependent ((y / 10 / 10 / 10) mod 10).
  generalize dependent (y / 10 / 10 / 10 / 10).
  generalize dependent (y / 10 / 10 / 10). generalize dependent (y / 10 / 10).
  generalize dependent (y / 10).
  intros. lia.
Qed.

Lemma any_digit_digit_char k : any_digit (digit_char (k mod 10)) = true.
Proof.
  assert (G : forallb (fun k => any_digit (digit_char k)) (seq 0 10) = true) by reflexivity.
  rewrite forallb_forall in G. apply G, in_seq.
  pose proof (Nat.mod_upper_bound k 10). lia.
Qed.

Lemma re_match_year c1 c2 c3 c4 items rest :
  any_digit c1 = true -> any_digit c2 = true -> any_digit c3 = true -> any_digit c4 = true ->
  re_match (ReGroup dir_Y :: items) (String c1 (String c2 (String c3 (String c4 rest))))
  = match re_match items rest with
    | Some (found, r) =>
        Some ((dir_Y, String c1 (String c2 (String c3 (String c4 EmptyString)))) :: found, r)
    | None => None
    end.
Proof.
  intros H1 H2 H3 H4. simpl. rewrite H1, H2, H3, H4. simpl.
  destruct (re_match items rest) as [[found r] |]; reflexivity.
Qed.

Lemma re_match_month_day m d :
  1 <= m <= 12 -> 1 <= d <= 31 ->
  re_match [ReLiteral "-"; ReGroup dir_m; ReLiteral "-"; ReGroup dir_d]
           ("-" +:+ pad2 m +:+ "-" +:+ pad2 d)
  = Some ([(dir_m, pad2 m); (dir_d, pad2 d)], EmptyString)
  /\ int (pad2 m) = m /\ int (pad2 d) = d.
Proof.
  intros Hm Hd.
  assert (G : forallb (fun m => forallb (fun d =>
                bool_decide (re_match [ReLiteral "-"; ReGroup dir_m; ReLiteral "-"; ReGroup dir_d]
                                      ("-" +:+ pad2 m +:+ "-" +:+ pad2 d)
                             = Some ([(dir_m, pad2 m); (dir_d, pad2 d)], EmptyString))
                && (int (pad2 m) =? m) && (int (pad2 d) =? d))
                (seq 1 31)) (seq 1 12) = true) by (vm_compute; reflexivity).
  rewrite forallb_forall in G. specialize (G m ltac:(apply in_seq; lia)).
  rewrite forallb_forall in G. specialize (G d ltac:(apply in_seq; lia)).
  rewrite !andb_true_iff, bool_decide_eq_true, !Nat.eqb_eq in G. tauto.
Qed.

Lemma time_of_found_date ys ms ds :
  time_of_found [(dir_Y, ys); (dir_m, ms); (dir_d, ds)]
  = if valid_date (int ys) (int ms) (int ds)
    then Some {| tm_year := int ys; tm_mon := int ms; tm_mday := int ds;
                 tm_hour := 0; tm_min := 0; tm_sec := 0 |}
    else None.
Proof. reflexivity. Qed.

Lemma pattern_DATE_FORMAT :
  pattern DATE_FORMAT
  = Some [ReGroup dir_Y; ReLiteral "-"; ReGroup dir_m; ReLiteral "-"; ReGroup dir_d].
Proof. reflexivity. Qed.

Lemma valid_date_bounds y m d :
  valid_date y m d = true -> 1 <= y /\ y <= 9999 /\ 1 <= m <= 12 /\ 1 <= d <= 31.
Proof.
  unfold valid_date. rewrite !andb_true_iff, !Nat.leb_le.
  intros (((((H1 & H2) & H3) & H4) & H5) & H6).
  repeat split; try assumption.
  unfold days_in_month in H6.
  destruct m as [| [| [| [| [| [| [| [| [| [| [| [| [| m]]]]]]]]]]]]];
    try destruct (is_leap y); lia.
Qed.

Lemma strptime_Ymd y m d :
  valid_date y m d = true ->
  strptime (pad4 y +:+ "-" +:+ pad2 m +:+ "-" +:+ pad2 d) DATE_FORMAT
  = Some {| tm_year := y; tm_mon := m; tm_mday := d; tm_hour := 0; tm_min := 0; tm_sec := 0 |}.
Proof.
  intros Hv. pose proof (valid_date_bounds y m d Hv) as (Hy1 & Hy2 & Hm & Hd).
  destruct (re_match_month_day m d Hm Hd) as (Hre & Him & Hid).
  unfold strptime. rewrite pattern_DATE_FORMAT.
  unfold pad4 at 1. unfold pad2 at 1.
  change (String ?a (String ?b (String ?c (String ?e EmptyString))) +:+ ?r)
    with (String a (String b (String c (String e r)))).
  rewrite re_match_year by apply any_digit_digit_char.
  change (String "-" (pad2 m +:+ "-" +:+ pad2 d)) with ("-" +:+ pad2 m +:+ "-" +:+ pad2 d).
  rewrite Hre.
  change (String (digit_char (y / 10 / 10 / 10 mod 10))
            (String (digit_char (y / 10 / 10 mod 10))
               (String (digit_char (y / 10 mod 10))
                  (String (digit_char (y mod 10)) EmptyString)))) with (pad4 y).
  rewrite time_of_found_date, (int_pad4 y Hy2), Him, Hid, Hv. reflexivity.
Qed.

Lemma parse_date_Ymd y m d :
  valid_date y m d = true -> 1900 <= y ->
  parse_date (pad4 y +:+ "-" +:+ pad2 m +:+ "-" +:+ pad2 d)
  = Ok {| year := y; month := m; day := d |}
  /\ strftime_Ymd {| year := y; month := m; day := d |}
     = Some (pad4 y +:+ "-" +:+ pad2 m +:+ "-" +:+ pad2 d).
Proof.
  intros Hv Hy. unfold parse_date. rewrite (strptime_Ymd y m d Hv).
  split; [reflexivity |]. unfold strftime_Ymd. cbn [year month day].
  apply Nat.leb_le in Hy. rewrite Hy. reflexivity.
Qed.


(** ** Tags written the way the dump writes them *)

Lemma split_no_sep sep x : contains sep x = false -> split sep x = [x].
Proof.
  induction x as [| c x IH]; simpl; [reflexivity |].
  intros H. apply orb_false_iff in H. destruct H as [H1 H2].
  rewrite H1, (IH H2). reflexivity.
Qed.

Lemma split_app_sep sep x rest :
  contains sep x = false -> split sep (x +:+ String sep rest) = x :: split sep rest.
Proof.
  induction x as [| c x IH]; simpl.
  - intros _. rewrite Ascii.eqb_refl. reflexivity.
  - intros H. apply orb_false_iff in H. destruct H as [H1 H2].
    rewrite H1, (IH H2). reflexivity.
Qed.

Lemma split_join l :
  l <> [] -> Forall (fun x => contains "," x = false) l -> split "," (join "," l) = l.
Proof.
  induction l as [| x l IH]; intros Hne H; [congruence |].
  inversion H as [| ? ? Hx Hl]; subst.
  destruct l as [| y l].
  - simpl. apply split_no_sep, Hx.
  - change (join "," (x :: y :: l)) with (x +:+ String "," (join "," (y :: l))).
    rewrite (split_app_sep _ _ _ Hx), IH; [reflexivity | discriminate | exact Hl].
Qed.

Lemma normalize_tags_join l :
  l <> [] -> Forall tag_name_normal l -> normalize_tags (join "," l) = l.
Proof.
  intros Hne H. unfold normalize_tags. rewrite split_join; [| exact Hne |].
  - clear Hne. induction H as [| t l (Ht & Hl & _) _ IH]; simpl; [reflexivity |].
    rewrite Hl. destruct t; [congruence |]. simpl. f_equal. exact IH.
  - eapply Forall_impl; [exact H |]. intros t (_ & _ & Hc). exact Hc.
Qed.


Section Properties.
Context {W : World}.
Implicit Types (db : DB W).

Lemma reads_only_ret {A} (a : A) : reads_only (W:=W) (ret a).
Proof. exists (fun _ _ => Ok a). reflexivity. Qed.

Lemma reads_only_raise {A} e : reads_only (W:=W) (A:=A) (raise e).
Proof. exists (fun _ _ => Raise e). reflexivity. Qed.

Lemma reads_only_lift {A} (r : Result A) : reads_only (W:=W) (lift r).
Proof. exists (fun _ _ => r). reflexivity. Qed.

Lemma reads_only_assert b site : reads_only (W:=W) (assert b site).
Proof. destruct b; [apply reads_only_ret | apply reads_only_raise]. Qed.

Lemma reads_only_bind {A B} (c : M W A) (k : A -> M W B) :
  reads_only c -> (forall a, reads_only (k a)) -> reads_only (bind c k).
Proof.
  intros [f Hf] Hk.
  exists (fun us ps => match f us ps with
                       | Ok a => fst (k a {| User_rows := us; Project_rows := ps;
                                             Hours_rows := []; HourTag_rows := [];
                                             Hours_tags_rows := [] |})
                       | Raise e => Raise e
                       end).
  intros db. unfold bind. rewrite Hf.
  destruct (f (User_rows db) (Project_rows db)) as [a | e]; [| reflexivity].
  destruct (Hk a) as [g Hg]. rewrite !Hg. reflexivity.
Qed.

Lemma reads_only_users {A} (g : list User -> Result A) :
  reads_only (W:=W) (rows <- query User_rows ;; lift (g rows)).
Proof. exists (fun us _ => g us). reflexivity. Qed.

Lemma reads_only_projects {A} (g : list Project -> Result A) :
  reads_only (W:=W) (rows <- query Project_rows ;; lift (g rows)).
Proof. exists (fun _ ps => g ps). reflexivity. Qed.

Lemma reads_only_db {A} (c : M W A) db : reads_only c -> snd (c db) = db.
Proof. intros [f Hf]. rewrite Hf. reflexivity. Qed.


Lemma reads_only_try_except {A} (c : M W A) h :
  reads_only c -> (forall e m, h e = Some m -> reads_only m) -> reads_only (try_except c h).
Proof.
  intros [f Hf] Hh.
  exists (fun us ps => match f us ps with
                       | Ok a => Ok a
                       | Raise e => match h e with
                                    | Some m => fst (m {| User_rows := us; Project_rows := ps;
                                             Hours_rows := []; HourTag_rows := [];
                                             Hours_tags_rows := [] |})
                                    | None => Raise e
                                    end
                       end).
  intros db. unfold try_except. rewrite Hf.
  destruct (f _ _) as [a | e]; [reflexivity |].
  destruct (h e) as [m |] eqn:E; [| reflexivity].
  destruct (Hh e m E) as [g Hg]. rewrite !Hg. reflexivity.
Qed.

Lemma Coder_get_reads_only criteria : reads_only (W:=W) (Coder_get criteria).
Proof.
  unfold Coder_get. apply reads_only_bind; [apply reads_only_users |].
  intros u. apply reads_only_lift.
Qed.

Lemma Project_get_reads_only proj : reads_only (W:=W) (Project_get proj).
Proof. unfold Project_get. apply reads_only_projects. Qed.

Lemma unpack_row_reads_only row coder : reads_only (W:=W) (unpack_row row coder).
Proof.
  unfold unpack_row.
  destruct coder as [c |].
  - do 10 (destruct row as [| ? row]; try apply reads_only_raise).
    apply reads_only_ret.
  - do 11 (destruct row as [| ? row]; try apply reads_only_raise).
    apply reads_only_bind; [apply Coder_get_reads_only |].
    intros c. apply reads_only_ret.
Qed.

Lemma csv_parse_fields_reads_only row c f : reads_only (W:=W) (_csv_parse_fields row c f).
Proof.
  unfold _csv_parse_fields.
  destruct (normalize_tags (f_tags f)); [apply reads_only_raise |].
  apply reads_only_bind.
  { destruct (truthy (f_proj f)); [| apply reads_only_ret].
    apply reads_only_bind; [apply Project_get_reads_only |].
    intros p. apply reads_only_ret. }
  intros a. apply reads_only_bind.
  { destruct a; [| apply reads_only_ret].
    destruct (match try_to_get_by_name W (f_repo f) with Some _ => _ | None => _ end);
      [| apply reads_only_ret].
    destruct (try_to_get_project W i); [apply reads_only_assert | apply reads_only_ret]. }
  intros _.
  destruct (match a with Some _ => _ | None => _ end); [| apply reads_only_raise].
  apply reads_only_bind; [apply reads_only_lift |]. intros d.
  apply reads_only_bind; [apply reads_only_lift |]. intros amt.
  apply reads_only_bind; [apply reads_only_lift |]. intros raw.
  apply reads_only_bind; [apply reads_only_assert |]. intros _.
  apply reads_only_ret.
Qed.

Lemma csv_parse_reads_only row coder : reads_only (W:=W) (_csv_parse row coder).
Proof.
  unfold _csv_parse. apply reads_only_bind; [apply unpack_row_reads_only |].
  intros [c f]. apply csv_parse_fields_reads_only.
Qed.


Lemma Coder_get_eq criteria db :
  Coder_get criteria db
  = (match objects_get User_model criteria (User_rows db) with
     | Ok u => Coder_init u
     | Raise e => Raise e
     end, db).
Proof.
  unfold Coder_get, bind, query, lift. simpl.
  destruct (objects_get User_model criteria (User_rows db)); reflexivity.
Qed.

Lemma iter_projects_nil u :
  _iter_projects u = [] <-> Forall (fun g => customer_projects g = []) (groups u).
Proof.
  unfold _iter_projects. induction (groups u) as [| g gs IH]; simpl.
  - split; [constructor | reflexivity].
  - split.
    + intros H. apply app_eq_nil in H. destruct H as [H1 H2].
      constructor; [exact H1 | apply IH, H2].
    + intros H. inversion H as [| ? ? H1 H2]; subst. rewrite H1. simpl. apply IH, H2.
Qed.

Lemma Coder_init_raises u e : Coder_init u = Raise e -> e = NoCoderProjects /\ _iter_projects u = [].
Proof.
  unfold Coder_init. destruct (_iter_projects u); intros H; inversion H; auto.
Qed.

Lemma objects_get_raises {A} m (crit : A -> bool) rows e :
  objects_get m crit rows = Raise e -> e = DoesNotExist m \/ e = MultipleObjectsReturned m.
Proof.
  unfold objects_get. destruct (List.filter crit rows) as [| x [| y l]]; intros H; inversion H; auto.
Qed.

Lemma objects_get_ok {A} m (crit : A -> bool) rows x :
  objects_get m crit rows = Ok x <-> List.filter crit rows = [x].
Proof.
  unfold objects_get. destruct (List.filter crit rows) as [| y [| z l]]; split; intros H;
    inversion H; auto.
Qed.

(** C9.  Constructing a [Coder] raises [NoCoderProjects] exactly when
    every group of the user is without projects, that is when the union of
    the groups' projects is empty; otherwise the coder holds the list
    computed at construction.  [Coder.get] raises it exactly when the
    lookup finds one user and that user has no project.
    [Coder.get_or_none] returns [None] exactly in that case, returns the
    coder when there is one, and lets every other exception through, the
    [DoesNotExist] of an unknown user among them. *)
Theorem Coder_needs_projects (criteria : User -> bool) (db : DB W) :
  (forall u, Coder_init u = Raise NoCoderProjects
             <-> Forall (fun g => customer_projects g = []) (groups u))
  /\ (forall u p, In p (_iter_projects u)
                  <-> exists g, In g (groups u) /\ In p (customer_projects g))
  /\ (forall u, _iter_projects u <> [] ->
                Coder_init u = Ok {| user := u; projects := _iter_projects u |})
  /\ (Coder_get criteria db = (Raise NoCoderProjects, db)
      <-> exists u, List.filter criteria (User_rows db) = [u]
                    /\ Forall (fun g => customer_projects g = []) (groups u))
  /\ (Coder_get_or_none criteria db = (Ok None, db)
      <-> Coder_get criteria db = (Raise NoCoderProjects, db))
  /\ (forall c, Coder_get criteria db = (Ok c, db)
                -> Coder_get_or_none criteria db = (Ok (Some c), db))
  /\ (forall e, e <> NoCoderProjects -> Coder_get criteria db = (Raise e, db)
                -> Coder_get_or_none criteria db = (Raise e, db))
  /\ (List.filter criteria (User_rows db) = []
      -> Coder_get_or_none criteria db = (Raise (DoesNotExist User_model), db)).
Proof.
  assert (Hinit : forall u, Coder_init u = Raise NoCoderProjects
             <-> Forall (fun g => customer_projects g = []) (groups u)).
  { intros u. rewrite <- iter_projects_nil. unfold Coder_init.
    destruct (_iter_projects u); split; intros H; try reflexivity; discriminate. }
  assert (Hnone : forall r, Coder_get criteria db = (r, db) ->
            Coder_get_or_none criteria db
            = (match r with
               | Ok c => Ok (Some c)
               | Raise NoCoderProjects => Ok None
               | Raise e => Raise e
               end, db)).
  { intros r Hr. unfold Coder_get_or_none, try_except, bind. rewrite Hr.
    destruct r as [c | e]; [reflexivity |]. destruct e; reflexivity. }
  split; [exact Hinit |].
  split.
  { intros u p. unfold _iter_projects. apply in_flat_map. }
  split.
  { intros u Hne. unfold Coder_init. destruct (_iter_projects u); [congruence | reflexivity]. }
  split.
  { rewrite Coder_get_eq. split.
    - intros H. injection H as H.
      destruct (objects_get User_model criteria (User_rows db)) as [u | e] eqn:E.
      + exists u. split; [apply objects_get_ok in E; exact E | apply Hinit, H].
      + apply objects_get_raises in E. destruct E; subst; discriminate.
    - intros (u & Hu & Hg). apply (objects_get_ok User_model) in Hu. rewrite Hu.
      apply Hinit in Hg. rewrite Hg. reflexivity. }
  split.
  { split.
    - intros H. rewrite Coder_get_eq in *.
      rewrite (Hnone _ eq_refl) in H. injection H as H.
      destruct (match objects_get User_model criteria (User_rows db) with
                | Ok u => Coder_init u | Raise e => Raise e end) as [c | e];
        [discriminate |].
      destruct e; try discriminate. reflexivity.
    - intros H. rewrite (Hnone _ H). reflexivity. }
  split.
  { intros c H. rewrite (Hnone _ H). reflexivity. }
  split.
  { intros e Hne H. rewrite (Hnone _ H). destruct e; try reflexivity. congruence. }
  intros H. rewrite (Hnone (Raise (DoesNotExist User_model))); [reflexivity |].
  rewrite Coder_get_eq. unfold objects_get. rewrite H. reflexivity.
Qed.


(** ** The parser, case by case *)

Lemma csv_parse_eq row coder db :
  _csv_parse row coder db
  = match fst (unpack_row row coder db) with
    | Ok (c, f) => _csv_parse_fields row c f db
    | Raise e => (Raise e, db)
    end.
Proof.
  unfold _csv_parse, bind.
  destruct (unpack_row_reads_only row coder) as [g Hg]. rewrite Hg. simpl.
  destruct (g _ _) as [[c f] | e]; reflexivity.
Qed.

Lemma explicit_project_reads_only f : reads_only (W:=W) (explicit_project f).
Proof.
  unfold explicit_project. destruct (truthy (f_proj f)); [| apply reads_only_ret].
  apply reads_only_bind; [apply Project_get_reads_only |].
  intros p. apply reads_only_ret.
Qed.

Lemma csv_parse_fields_eq row c f db :
  _csv_parse_fields row c f db
  = (match normalize_tags (f_tags f) with
     | [] => Raise AtLeastOneTagRequired
     | _ =>
         match project_outcome f db with
         | Raise e => Raise e
         | Ok p =>
             match parse_date (f_date f) with
             | Raise e => Raise e
             | Ok d =>
                 match parse_amount (f_hrs f) with
                 | Raise e => Raise e
                 | Ok amt =>
                     if forallb (decodes W) row
                     then if existsb (Project_eq p) (projects c)
                          then Ok (pending_entry row c f p d amt)
                          else Raise NotAllowed
                     else Raise UnicodeDecodeError
                 end
             end
         end
     end, db).
Proof.
  unfold _csv_parse_fields, project_outcome, pending_entry, dump_row.
  destruct (normalize_tags (f_tags f)) as [| t ts] eqn:Et; [reflexivity |].
  unfold derived_project, row_issue, row_repository.
  generalize (match try_to_get_by_name W (f_repo f) with
              | Some r => try_to_get_issue W r (f_iss f)
              | None => None
              end) as iss.
  intros iss.
  generalize (match iss with Some i => try_to_get_project W i | None => None end) as b.
  intros b.
  change (if truthy (f_proj f) then p <- Project_get (f_proj f);; ret (Some p) else ret None)
    with (explicit_project (W:=W) f).
  unfold bind at 1.
  destruct (explicit_project_reads_only f) as [g Hg]. rewrite Hg. simpl fst.
  destruct (g _ _) as [a | e]; [| reflexivity].
  unfold bind, lift, assert, ret, raise.
  destruct a as [pa |], b as [pb |]; simpl;
    try destruct (Project_eq pa pb); simpl; try reflexivity;
    destruct (parse_date (f_date f)); simpl; try reflexivity;
    destruct (parse_amount (f_hrs f)); simpl; try reflexivity;
    destruct (forallb (decodes W) row); simpl; try reflexivity;
    destruct (existsb _ _); reflexivity.
Qed.

Lemma unpack_row_eq row coder db :
  unpack_row row coder db = (fst (unpack_row row coder db), db).
Proof.
  destruct (unpack_row_reads_only row coder) as [g Hg]. rewrite Hg. reflexivity.
Qed.

Lemma csv_parse_db row coder db : snd (_csv_parse row coder db) = db.
Proof. apply reads_only_db, csv_parse_reads_only. Qed.

Lemma unpack_row_raises row coder db e :
  fst (unpack_row row coder db) = Raise e -> e <> AtLeastOneTagRequired.
Proof.
  unfold unpack_row. destruct coder as [c |].
  - do 10 (destruct row as [| ? row]; [simpl; intros H; inversion H; discriminate |]).
    destruct row; simpl; intros H; inversion H; discriminate.
  - do 11 (destruct row as [| ? row];
           try (simpl; intros H; inversion H; discriminate)).
    + unfold bind. rewrite Coder_get_eq.
      destruct (objects_get _ _ _) as [u |] eqn:E.
      * destruct (Coder_init u) eqn:E2; simpl; intros H; inversion H; subst.
        apply Coder_init_raises in E2. destruct E2; subst. discriminate.
      * simpl. intros H. inversion H; subst.
        apply objects_get_raises in E. destruct E; subst; discriminate.
Qed.

Lemma explicit_project_raises f db e :
  fst (explicit_project f db) = Raise e ->
  truthy (f_proj f) = true
  /\ (e = DoesNotExist Project_model \/ e = MultipleObjectsReturned Project_model).
Proof.
  unfold explicit_project. destruct (truthy (f_proj f)); [| discriminate].
  unfold Project_get, bind, query, lift, ret. simpl.
  destruct (objects_get _ _ _) eqn:E; simpl; intros H; inversion H; subst.
  split; [reflexivity |]. eapply objects_get_raises, E.
Qed.

Lemma project_outcome_raises f db e :
  project_outcome f db = Raise e ->
  e = DoesNotExist Project_model \/ e = MultipleObjectsReturned Project_model
  \/ e = ProjectMismatch \/ e = ProjectRequired.
Proof.
  unfold project_outcome.
  destruct (fst (explicit_project f db)) as [a | e'] eqn:E.
  - destruct a as [pa |], (derived_project W f) as [pb |];
      try destruct (Project_eq pa pb); intros H; inversion H; auto.
  - intros H. inversion H; subst. apply explicit_project_raises in E. tauto.
Qed.

Lemma parse_date_raises s e : parse_date s = Raise e -> e = ValueError "strptime".
Proof. unfold parse_date. destruct (strptime s DATE_FORMAT); intros H; inversion H; auto. Qed.

Lemma parse_amount_raises s e : parse_amount (W:=W) s = Raise e -> e = InvalidOperation.
Proof. unfold parse_amount. destruct (Decimal_of_string W _); intros H; inversion H; auto. Qed.

Lemma elem_of_split_nonempty sep s : split sep s <> [].
Proof.
  destruct s as [| c s]; simpl; [discriminate |].
  destruct (Ascii.eqb c sep); [discriminate |]. destruct (split sep s); discriminate.
Qed.

Lemma normalize_tags_elem s t :
  In t (normalize_tags s)
  <-> t <> "" /\ exists piece, In piece (split "," s) /\ t = lower (strip piece).
Proof.
  unfold normalize_tags. rewrite filter_In, in_map_iff.
  split.
  - intros [(piece & Hp & Hin) Ht]. split.
    + intros ->. discriminate.
    + exists piece. auto.
  - intros [Hne (piece & Hin & ->)]. split.
    + exists piece. auto.
    + destruct (lower (strip piece)); [congruence | reflexivity].
Qed.

(** C5, as amended.  [_csv_parse] writes nothing to the database.  It
    raises [AtLeastOneTagRequired] exactly when the unpacking of the row
    succeeds (the row has the right number of fields and, when no coder is
    given, the username resolves to a coder with projects) and the tags
    field, split on commas, trimmed, put in lower case and rid of its
    empty pieces, has no name left.  An entry it returns is not saved
    ([pk] is [None]) and holds the normalized names, which are not empty,
    as its pending [_tags_to_be].  The tags field is the seventh of a row
    with a username and the sixth of a row without. *)
Theorem csv_parse_tags (row : list string) (coder : option Coder) (db : DB W) :
  snd (_csv_parse row coder db) = db
  /\ (fst (_csv_parse row coder db) = Raise AtLeastOneTagRequired
      <-> exists c f, fst (unpack_row row coder db) = Ok (c, f)
                      /\ normalize_tags (f_tags f) = [])
  /\ (forall obj, fst (_csv_parse row coder db) = Ok obj ->
        pk obj = None
        /\ exists c f, fst (unpack_row row coder db) = Ok (c, f)
                       /\ normalize_tags (f_tags f) <> []
                       /\ _tags_to_be obj = Some (normalize_tags (f_tags f)))
  /\ (forall c f, fst (unpack_row row coder db) = Ok (c, f) -> f_tags f = row_tags row coder)
  /\ (forall s t, In t (normalize_tags s)
        <-> t <> "" /\ exists piece, In piece (split "," s) /\ t = lower (strip piece))
  /\ normalize_tags "" = [] /\ normalize_tags "  ,	 " = []
  /\ normalize_tags " Dev,urgent ,,DEV" = ["dev"; "urgent"; "dev"].
Proof.
  split; [apply csv_parse_db |].
  rewrite csv_parse_eq.
  split.
  { split.
    - destruct (fst (unpack_row row coder db)) as [[c f] | e] eqn:E.
      + rewrite csv_parse_fields_eq. simpl. intros H. exists c, f. split; [reflexivity |].
        destruct (normalize_tags (f_tags f)); [reflexivity |].
        destruct (project_outcome f db) eqn:E1.
        2:{ apply project_outcome_raises in E1. inversion H; subst.
            destruct E1 as [E1 | [E1 | [E1 | E1]]]; discriminate. }
        destruct (parse_date _) eqn:E2.
        2:{ apply parse_date_raises in E2. inversion H; subst. discriminate. }
        destruct (parse_amount _) eqn:E3.
        2:{ apply parse_amount_raises in E3. inversion H; subst. discriminate. }
        destruct (forallb (decodes W) row); [| discriminate].
        destruct (existsb _ _); discriminate.
      + simpl. intros H. inversion H; subst.
        apply unpack_row_raises in E. congruence.
    - intros (c & f & -> & Ht). rewrite csv_parse_fields_eq, Ht. reflexivity. }
  split.
  { intros obj. destruct (fst (unpack_row row coder db)) as [[c f] | e] eqn:E;
      [| discriminate].
    rewrite csv_parse_fields_eq. simpl.
    destruct (normalize_tags (f_tags f)) eqn:Et; [discriminate |].
    destruct (project_outcome f db); [| discriminate].
    destruct (parse_date _); [| discriminate].
    destruct (parse_amount _); [| discriminate].
    destruct (forallb (decodes W) row); [| discriminate].
    destruct (existsb _ _); [| discriminate].
    intros H. inversion H; subst. simpl. split; [reflexivity |].
    exists c, f. rewrite Et. repeat split; congruence. }
  split.
  { intros c f H. unfold unpack_row, row_tags in *. destruct coder as [c0 |].
    - do 9 (destruct row as [| ? row]; [simpl in H; discriminate H |]).
      destruct row; [| simpl in H; discriminate H].
      simpl in H. inversion H; subst. reflexivity.
    - do 11 (destruct row as [| ? row]; try (simpl in H; discriminate H)).
      unfold bind in H. rewrite Coder_get_eq in H.
      destruct (match objects_get _ _ _ with Ok _ => _ | Raise _ => _ end);
        simpl in H; inversion H; subst. reflexivity. }
  split; [apply normalize_tags_elem |].
  vm_compute. repeat split.
Qed.


(** ** Tables *)

Lemma select_app {A} (p : A -> bool) k l1 l2 :
  select p k (l1 ++ l2) = select p k l1 ++ select p (k + length l1) l2.
Proof.
  revert k. induction l1 as [| x l1 IH]; intros k; simpl.
  - rewrite Nat.add_0_r. reflexivity.
  - rewrite IH, <- app_assoc. replace (S k + length l1) with (k + S (length l1)) by lia.
    reflexivity.
Qed.

Lemma select_In {A} (p : A -> bool) k l j x :
  In (j, x) (select p k l) <-> k <= j /\ l !! (j - k) = Some x /\ p x = true.
Proof.
  revert k. induction l as [| y l IH]; intros k; simpl.
  - split; [tauto | intros (_ & H & _); discriminate].
  - rewrite in_app_iff, IH. split.
    + intros [H | (H1 & H2 & H3)].
      * destruct (p y) eqn:E; simpl in H; [| tauto].
        destruct H as [H | []]. inversion H; subst.
        rewrite Nat.sub_diag. auto.
      * split; [lia |]. replace (j - k) with (S (j - S k)) by lia. auto.
    + intros (H1 & H2 & H3).
      destruct (j - k) as [| i] eqn:E.
      * simpl in H2. inversion H2; subst. left. rewrite H3. left. f_equal. lia.
      * right. simpl in H2. replace (j - S k) with i by lia. split; [lia | auto].
Qed.

Lemma select_nil {A} (p : A -> bool) k l :
  select p k l = [] <-> forall x, In x l -> p x = false.
Proof.
  revert k. induction l as [| y l IH]; intros k; simpl.
  - split; [intros _ x [] | reflexivity].
  - split.
    + intros H. apply app_eq_nil in H. destruct H as [H1 H2].
      intros x [<- | Hx].
      * destruct (p y); [discriminate | reflexivity].
      * eapply IH; eauto.
    + intros H. rewrite (H y (or_introl eq_refl)). simpl. apply IH.
      intros x Hx. apply H. auto.
Qed.

Lemma select_insert {A} (p : A -> bool) k l j x y :
  select p k l = [(j, x)] -> p y = true ->
  select p k (<[j - k := y]> l) = [(j, y)].
Proof.
  revert k. induction l as [| z l IH]; intros k H Hy; simpl in *; [discriminate |].
  destruct (p z) eqn:E; simpl in H.
  - inversion H; subst. rewrite Nat.sub_diag. simpl. rewrite Hy. simpl. congruence.
  - assert (Hj : S k <= j).
    { assert (Hin : In (j, x) (select p (S k) l)) by (rewrite H; left; reflexivity).
      apply select_In in Hin. tauto. }
    replace (j - k) with (S (j - S k)) by lia. simpl. rewrite E. simpl.
    apply IH; assumption.
Qed.

Lemma select_single {A} (p : A -> bool) k l j x :
  select p k l = [(j, x)] -> k <= j /\ l !! (j - k) = Some x /\ p x = true.
Proof.
  intros H. apply select_In. rewrite H. left. reflexivity.
Qed.

Lemma select_fst_lt {A} (p : A -> bool) k l j x :
  In (j, x) (select p k l) -> j < k + length l.
Proof.
  intros H. apply select_In in H. destruct H as (H1 & H2 & _).
  apply lookup_lt_Some in H2. lia.
Qed.

Lemma eqb_name_false n (l : list string) :
  ~ In n l -> forall x, In x l -> String.eqb n x = false.
Proof.
  intros Hn x Hx. apply String.eqb_neq. intros ->. contradiction.
Qed.

Lemma select_name_absent n k (l : list string) :
  ~ In n l -> select (String.eqb n) k l = [].
Proof. intros H. apply select_nil, eqb_name_false, H. Qed.

Lemma select_name_NoDup n k (l : list string) :
  List.NoDup l ->
  select (String.eqb n) k l = [] \/ exists j, select (String.eqb n) k l = [(j, n)].
Proof.
  revert k. induction l as [| x l IH]; intros k Hnd; simpl; [left; reflexivity |].
  inversion Hnd as [| ? ? Hx Hl]; subst.
  destruct (String.eqb n x) eqn:E.
  - apply String.eqb_eq in E. subst x. right. exists k.
    rewrite (select_name_absent n (S k) l Hx). reflexivity.
  - simpl. apply IH, Hl.
Qed.

Lemma set_HourTag_rows_id db : set_HourTag_rows (HourTag_rows db) db = db.
Proof. destruct db; reflexivity. Qed.

Lemma set_HourTag_rows_twice l1 l2 db :
  set_HourTag_rows l2 (set_HourTag_rows l1 db) = set_HourTag_rows l2 db.
Proof. reflexivity. Qed.

(** ** The loop over the tag names *)

Lemma HourTag_get_or_create_eq n db :
  HourTag_get_or_create n db
  = match select (String.eqb n) 1 (HourTag_rows db) with
    | [] => (Ok ({| tag_pk := S (length (HourTag_rows db)); name := n |}, true),
             set_HourTag_rows (HourTag_rows db ++ [n]) db)
    | [(k, x)] => (Ok ({| tag_pk := k; name := x |}, false), db)
    | _ => (Raise (MultipleObjectsReturned HourTag_model), db)
    end.
Proof.
  unfold HourTag_get_or_create, bind, query. simpl.
  destruct (select _ _ _) as [| [k x] [| ? ?]]; reflexivity.
Qed.

Lemma for_tag_names_spec names : forall db r db',
  for_tag_names names db = (r, db') ->
  exists ext,
    db' = set_HourTag_rows (HourTag_rows db ++ ext) db
    /\ (forall n, In n ext -> ~ In n (HourTag_rows db))
    /\ List.NoDup ext
    /\ forall ts, r = Ok ts -> Forall2 (tag_at (HourTag_rows db ++ ext)) names ts.
Proof.
  induction names as [| n ns IH]; intros db r db' H.
  - simpl in H. inversion H; subst. exists []. rewrite app_nil_r, set_HourTag_rows_id.
    split; [reflexivity |]. split; [intros ? [] |]. split; [constructor |].
    intros ts Hts. inversion Hts; subst. constructor.
  - simpl in H. unfold bind at 1 in H. rewrite HourTag_get_or_create_eq in H.
    destruct (select (String.eqb n) 1 (HourTag_rows db)) as [| [k x] [| ? ?]] eqn:Es.
    + (* created *)
      unfold bind at 1 in H.
      destruct (for_tag_names ns _) as [r1 db1] eqn:E1.
      apply IH in E1. destruct E1 as (ext1 & Hdb & Hnew & Hnd & Hts). simpl in *.
      assert (Hn : ~ In n (HourTag_rows db)).
      { intros Hin. rewrite select_nil in Es. specialize (Es n Hin).
        rewrite String.eqb_refl in Es. discriminate. }
      assert (Hn1 : ~ In n ext1).
      { intros Hin. apply (Hnew n Hin). apply in_or_app. right. left. reflexivity. }
      exists (n :: ext1).
      replace (HourTag_rows db ++ n :: ext1) with ((HourTag_rows db ++ [n]) ++ ext1)
        by (rewrite <- app_assoc; reflexivity).
      split.
      { destruct r1; simpl in H; inversion H; subst; reflexivity. }
      split.
      { intros m [<- | Hm]; [exact Hn |].
        intros Hin. apply (Hnew m Hm). apply in_or_app. left. exact Hin. }
      split; [constructor; assumption |].
      intros ts ->. destruct r1 as [ts1 |]; simpl in H; inversion H; subst.
      constructor; [| apply Hts; reflexivity].
      split; [reflexivity |]. simpl.
      rewrite !select_app, Es. simpl. rewrite String.eqb_refl. simpl.
      rewrite select_name_absent by exact Hn1. reflexivity.
    + (* found *)
      unfold bind at 1 in H.
      destruct (for_tag_names ns db) as [r1 db1] eqn:E1.
      apply IH in E1. destruct E1 as (ext1 & Hdb & Hnew & Hnd & Hts).
      pose proof (select_single _ _ _ _ _ Es) as (Hk & Hx & Heq).
      apply String.eqb_eq in Heq. subst x.
      assert (Hin : In n (HourTag_rows db)).
      { apply list_elem_of_In. eapply list_elem_of_lookup_2. exact Hx. }
      exists ext1.
      split.
      { destruct r1; simpl in H; inversion H; subst; reflexivity. }
      split; [exact Hnew |]. split; [exact Hnd |].
      intros ts ->. destruct r1 as [ts1 |]; simpl in H; inversion H; subst.
      constructor; [| apply Hts; reflexivity].
      split; [reflexivity |]. simpl.
      rewrite select_app, Es. rewrite select_name_absent; [reflexivity |].
      intros Hin1. apply (Hnew n Hin1). exact Hin.
    + inversion H; subst. exists []. rewrite app_nil_r, set_HourTag_rows_id.
      split; [reflexivity |]. split; [intros ? [] |]. split; [constructor |].
      intros ts Hts. discriminate.
Qed.

Lemma for_tag_names_found names : forall db ts,
  Forall2 (tag_at (HourTag_rows db)) names ts ->
  for_tag_names names db = (Ok ts, db).
Proof.
  induction names as [| n ns IH]; intros db ts H; inversion H as [| ? t ? ts' [Hn Hs] Hrest]; subst.
  - reflexivity.
  - simpl. unfold bind at 1. rewrite HourTag_get_or_create_eq, Hs.
    unfold bind at 1. rewrite (IH db ts' Hrest). simpl. destruct t; reflexivity.
Qed.

Lemma for_tag_names_NoDup names : forall db,
  List.NoDup (HourTag_rows db) ->
  exists ts db', for_tag_names names db = (Ok ts, db').
Proof.
  induction names as [| n ns IH]; intros db Hnd.
  - exists [], db. reflexivity.
  - simpl. unfold bind at 1. rewrite HourTag_get_or_create_eq.
    destruct (select_name_NoDup n 1 (HourTag_rows db) Hnd) as [Es | [j Es]]; rewrite Es.
    + destruct (IH (set_HourTag_rows (HourTag_rows db ++ [n]) db)) as (ts & db' & E).
      { simpl. apply List.NoDup_app; [exact Hnd | repeat constructor; intros [] |].
        intros x Hx [Heq | []]. subst x.
        rewrite select_nil in Es. specialize (Es n Hx).
        rewrite String.eqb_refl in Es. discriminate. }
      unfold bind. rewrite E. eauto.
    + destruct (IH db Hnd) as (ts & db' & E). unfold bind. rewrite E. eauto.
Qed.


(** ** The import, step by step *)

Lemma set_amount_id (r : HoursFields W) : set_amount (amount r) r = r.
Proof. destruct r; reflexivity. Qed.

Lemma column_row_Some (r : HoursFields W) a :
  Decimal_column W (amount r) = Some a -> column_row r = set_amount a r.
Proof. intros H. unfold column_row, Hours_row. rewrite H. reflexivity. Qed.

Lemma column_row_keeps (r : HoursFields W) : column_keeps (amount r) -> column_row r = r.
Proof. intros H. rewrite (column_row_Some r _ H). apply set_amount_id. Qed.

Lemma column_row_set_extra x (o : Hours W) :
  column_row (fields (set_extra x o))
  = fields (set_extra x {| pk := pk o; fields := column_row (fields o);
                           _tags_to_be := _tags_to_be o |}).
Proof.
  unfold column_row, Hours_row. cbn [set_extra fields amount].
  destruct (Decimal_column W (amount o)); reflexivity.
Qed.

Lemma Hours_get_or_create_eq q db :
  Hours_get_or_create q db
  = match select (lookup_matches q) 1 (Hours_rows db) with
    | [] =>
        match Decimal_column W (q_amount W q) with
        | Some a =>
            (Ok ({| pk := Some (S (length (Hours_rows db)));
                    fields := Hours_of_kwargs q; _tags_to_be := None |}, true),
             set_Hours_rows (Hours_rows db ++ [set_amount a (Hours_of_kwargs q)]) db)
        | None => (Raise InvalidOperation, db)
        end
    | [(k, r)] => (Ok ({| pk := Some k; fields := r; _tags_to_be := None |}, false), db)
    | _ => (Raise (MultipleObjectsReturned Hours_model), db)
    end.
Proof.
  unfold Hours_get_or_create, bind, query, lift, Hours_row. simpl.
  destruct (select _ _ _) as [| [k x] [| ? ?]]; try reflexivity.
  destruct (Decimal_column W (q_amount W q)); reflexivity.
Qed.

Lemma save_eq (obj : Hours W) db :
  save obj db
  = match Decimal_column W (amount obj) with
    | Some a =>
        (Ok tt,
         set_Hours_rows
           (match pk obj with
            | Some (S i) =>
                if i <? length (Hours_rows db)
                then <[i := set_amount a (fields obj)]> (Hours_rows db)
                else if i =? length (Hours_rows db)
                     then Hours_rows db ++ [set_amount a (fields obj)]
                     else Hours_rows db
            | _ => Hours_rows db ++ [set_amount a (fields obj)]
            end) db)
    | None => (Raise InvalidOperation, db)
    end.
Proof.
  unfold save, bind, query, lift, update, Hours_row, ret.
  destruct (Decimal_column W (amount obj)); [| reflexivity].
  destruct (pk obj) as [[| i] |]; try reflexivity.
  cbn [fst snd]. destruct (i <? length (Hours_rows db)); [reflexivity |].
  destruct (i =? length (Hours_rows db)); [reflexivity |].
  destruct db; reflexivity.
Qed.

Lemma save_raises (obj : Hours W) db e db' :
  save obj db = (Raise e, db') ->
  e = InvalidOperation /\ db' = db /\ Decimal_column W (amount obj) = None.
Proof.
  rewrite save_eq. destruct (Decimal_column W (amount obj)); [discriminate |].
  intros [= <- <-]. auto.
Qed.

Lemma get_or_create_parsed_eq parsed db :
  get_or_create_parsed parsed db
  = match _tags_to_be parsed with
    | None => (Raise (AttributeError "_tags_to_be"), db)
    | Some [] => (Raise (AssertionError assert_tags_to_be), db)
    | Some tags =>
        match Hours_get_or_create (HOURS_IDENTITY_FIELDS parsed) db with
        | (Raise e, db1) => (Raise e, db1)
        | (Ok r, db1) =>
            let obj := set_extra (HOURS_EXTRA_FIELDS parsed) (fst r) in
            match for_tag_names tags db1 with
            | (Raise e, db2) => (Raise e, db2)
            | (Ok ts, db2) =>
                match set_tags obj ts db2 with
                | (Raise e, db3) => (Raise e, db3)
                | (Ok _, db3) =>
                    match save obj db3 with
                    | (Raise e, db4) => (Raise e, db4)
                    | (Ok _, db4) => (Ok (obj, snd r), db4)
                    end
                end
            end
        end
    end.
Proof.
  unfold get_or_create_parsed, getattr_tags_to_be.
  destruct (_tags_to_be parsed) as [[| t tags] |]; reflexivity.
Qed.

Lemma csv_get_or_create_eq row coder db :
  csv_get_or_create row coder db
  = match fst (_csv_parse row coder db) with
    | Ok parsed => get_or_create_parsed parsed db
    | Raise e => (Raise e, db)
    end.
Proof.
  unfold csv_get_or_create, bind.
  destruct (csv_parse_reads_only row coder) as [g Hg]. rewrite Hg. simpl.
  destruct (g _ _); reflexivity.
Qed.

Lemma insert_last {A} (l : list A) x y : <[length l := y]> (l ++ [x]) = l ++ [y].
Proof. induction l as [| z l IH]; simpl; [reflexivity | f_equal; exact IH]. Qed.

Lemma same_identity_matches (r parsed : HoursFields W) :
  lookup_matches (HOURS_IDENTITY_FIELDS parsed) r = true <-> same_identity r parsed.
Proof.
  unfold lookup_matches, same_identity, HOURS_IDENTITY_FIELDS. simpl.
  rewrite !andb_true_iff, !Nat.eqb_eq, !bool_decide_eq_true. tauto.
Qed.

Lemma lookup_matches_kwargs (q : Identity W) : lookup_matches q (Hours_of_kwargs q) = true.
Proof.
  unfold lookup_matches, Hours_of_kwargs. simpl.
  rewrite !Nat.eqb_refl, !bool_decide_eq_true_2 by reflexivity. reflexivity.
Qed.

Lemma select_two {A} (p : A -> bool) k l a b rest :
  select p k l = a :: b :: rest -> fst a < fst b.
Proof.
  revert k. induction l as [| x l IH]; intros k H; simpl in H; [discriminate |].
  destruct (p x); simpl in H.
  - inversion H as [[Ha Hb]]. subst a. simpl.
    assert (Hin : In b (select p (S k) l)) by (rewrite Hb; left; reflexivity).
    destruct b as [j y]. apply select_In in Hin. simpl. lia.
  - eapply IH, H.
Qed.

Lemma get_or_create_parsed_ok parsed db obj created db' :
  get_or_create_parsed parsed db = (Ok (obj, created), db') ->
  exists tags k r0 ts ext,
    _tags_to_be parsed = Some tags /\ tags <> []
    /\ obj = set_extra (HOURS_EXTRA_FIELDS parsed)
                       {| pk := Some (S k); fields := r0; _tags_to_be := None |}
    /\ (if created
        then select (lookup_matches (HOURS_IDENTITY_FIELDS parsed)) 1 (Hours_rows db) = []
             /\ k = length (Hours_rows db)
             /\ r0 = Hours_of_kwargs (HOURS_IDENTITY_FIELDS parsed)
        else select (lookup_matches (HOURS_IDENTITY_FIELDS parsed)) 1 (Hours_rows db)
             = [(S k, r0)])
    /\ Forall2 (tag_at (HourTag_rows db ++ ext)) tags ts
    /\ (forall n, In n ext -> ~ In n (HourTag_rows db))
    /\ List.NoDup ext
    /\ db' = imported_db db created k (written obj) ext ts.
Proof.
  rewrite get_or_create_parsed_eq.
  destruct (_tags_to_be parsed) as [[| t tags] |] eqn:Et; try discriminate.
  rewrite Hours_get_or_create_eq.
  destruct (select _ 1 (Hours_rows db)) as [| [j r0] [| ? ?]] eqn:Es; try discriminate.
  - (* created *)
    change (q_amount W (HOURS_IDENTITY_FIELDS parsed)) with (amount parsed).
    destruct (Decimal_column W (amount parsed)) as [a |] eqn:Ea; [| discriminate].
    cbv zeta. simpl fst. simpl snd.
    destruct (for_tag_names _ _) as [[ts | e] db2] eqn:Ef; [| discriminate].
    apply for_tag_names_spec in Ef. destruct Ef as (ext & Hdb2 & Hnew & Hnd & Hts).
    simpl in Hdb2, Hnew, Hts. specialize (Hts ts eq_refl).
    unfold set_tags. cbn [set_extra pk]. unfold update. rewrite save_eq.
    change (amount (fields (set_extra ?x ?o))) with (amount (fields o)).
    cbn [fields Hours_of_kwargs amount HOURS_IDENTITY_FIELDS q_amount]. rewrite Ea.
    intros H. inversion H; subst.
    exists (t :: tags), (length (Hours_rows db)), (Hours_of_kwargs (HOURS_IDENTITY_FIELDS parsed)), ts, ext.
    split; [reflexivity |]. split; [discriminate |]. split; [reflexivity |].
    split; [auto |]. split; [exact Hts |]. split; [exact Hnew |]. split; [exact Hnd |].
    unfold imported_db, set_Hours_rows, set_Hours_tags_rows, set_HourTag_rows.
    cbn [User_rows Project_rows Hours_rows HourTag_rows Hours_tags_rows set_extra pk fields].
    rewrite length_app. cbn [length]. 
    replace (length (Hours_rows db) <? length (Hours_rows db) + 1) with true
      by (symmetry; apply Nat.ltb_lt; lia).
    rewrite insert_last. unfold written. cbn [fields].
    rewrite (column_row_Some _ a); [reflexivity | exact Ea].
  - (* found *)
    cbv zeta. simpl fst. simpl snd.
    pose proof (select_single _ _ _ _ _ Es) as (Hj & Hl & Hm).
    destruct j as [| k]; [lia |].
    destruct (for_tag_names _ _) as [[ts | e] db2] eqn:Ef; [| discriminate].
    apply for_tag_names_spec in Ef. destruct Ef as (ext & Hdb2 & Hnew & Hnd & Hts).
    specialize (Hts ts eq_refl).
    unfold set_tags. cbn [set_extra pk]. unfold update. rewrite save_eq.
    change (amount (fields (set_extra ?x ?o))) with (amount (fields o)).
    cbn [fields]. destruct (Decimal_column W (amount r0)) as [a |] eqn:Ea; [| discriminate].
    intros H. inversion H; subst.
    exists (t :: tags), k, r0, ts, ext.
    split; [reflexivity |]. split; [discriminate |]. split; [reflexivity |].
    split; [reflexivity |]. split; [exact Hts |]. split; [exact Hnew |].
    split; [exact Hnd |].
    unfold imported_db, set_Hours_rows, set_Hours_tags_rows, set_HourTag_rows.
    cbn [User_rows Project_rows Hours_rows HourTag_rows Hours_tags_rows set_extra pk fields].
    cbn in Hl. rewrite Nat.sub_0_r in Hl.
    replace (k <? length (Hours_rows db)) with true
      by (symmetry; apply Nat.ltb_lt; eapply lookup_lt_Some, Hl).
    unfold written. cbn [fields].
    rewrite (column_row_Some _ a); [reflexivity | exact Ea].
Qed.

(** An import that succeeds wrote an amount that the column takes: the
    amount of the parsed entry, which is the amount of the entry found. *)
Lemma get_or_create_parsed_amount parsed db obj created db' :
  get_or_create_parsed parsed db = (Ok (obj, created), db') ->
  amount obj = amount parsed
  /\ exists a, Decimal_column W (amount parsed) = Some a.
Proof.
  rewrite get_or_create_parsed_eq.
  destruct (_tags_to_be parsed) as [[| t tags] |] eqn:Et; try discriminate.
  rewrite Hours_get_or_create_eq.
  destruct (select _ 1 (Hours_rows db)) as [| [j r0] [| ? ?]] eqn:Es; try discriminate.
  - change (q_amount W (HOURS_IDENTITY_FIELDS parsed)) with (amount parsed).
    destruct (Decimal_column W (amount parsed)) as [a |] eqn:Ea; [| discriminate].
    cbv zeta. simpl fst. simpl snd.
    destruct (for_tag_names _ _) as [[ts | e] db2]; [| discriminate].
    unfold set_tags. cbn [set_extra pk]. unfold update. rewrite save_eq.
    change (amount (fields (set_extra ?x ?o))) with (amount (fields o)).
    cbn [fields Hours_of_kwargs amount HOURS_IDENTITY_FIELDS q_amount]. rewrite Ea.
    intros H. inversion H; subst. split; [reflexivity | eauto].
  - cbv zeta. simpl fst. simpl snd.
    pose proof (select_single _ _ _ _ _ Es) as (Hj & Hl & Hm).
    destruct j as [| k]; [lia |].
    destruct (for_tag_names _ _) as [[ts | e] db2]; [| discriminate].
    unfold set_tags. cbn [set_extra pk]. unfold update. rewrite save_eq.
    change (amount (fields (set_extra ?x ?o))) with (amount (fields o)).
    cbn [fields]. destruct (Decimal_column W (amount r0)) as [a |] eqn:Ea; [| discriminate].
    intros H. inversion H; subst.
    unfold lookup_matches in Hm. rewrite !andb_true_iff, !bool_decide_eq_true in Hm.
    destruct Hm as (((((_ & Hamt) & _) & _) & _) & _).
    cbn [HOURS_IDENTITY_FIELDS q_amount] in Hamt.
    cbn [set_extra fields amount]. split; [exact Hamt |]. rewrite <- Hamt. eauto.
Qed.


Lemma lookup_matches_set_extra (q : Identity W) x (o : Hours W) :
  lookup_matches q (fields (set_extra x o)) = lookup_matches q (fields o).
Proof. reflexivity. Qed.

Lemma set_extra_fields x (o : Hours W) k :
  set_extra x {| pk := k; fields := fields (set_extra x o); _tags_to_be := None |}
  = set_extra x {| pk := k; fields := fields o; _tags_to_be := None |}.
Proof. reflexivity. Qed.

Lemma imported_select (q : Identity W) rows (created : bool) k r0 fobj :
  (if created then select (lookup_matches q) 1 rows = [] /\ k = length rows
   else select (lookup_matches q) 1 rows = [(S k, r0)]) ->
  lookup_matches q fobj = true ->
  select (lookup_matches q) 1 (if created then rows ++ [fobj] else <[k := fobj]> rows)
  = [(S k, fobj)].
Proof.
  intros H Hm. destruct created.
  - destruct H as [H ->]. rewrite select_app, H. simpl. rewrite Hm. reflexivity.
  - pose proof (select_insert _ _ _ _ _ fobj H Hm) as H'.
    simpl in H'. rewrite Nat.sub_0_r in H'. exact H'.
Qed.

Lemma imported_stored (rows : list (HoursFields W)) (q : Identity W) (created : bool) k r0 fobj :
  (if created then select (lookup_matches q) 1 rows = [] /\ k = length rows
   else select (lookup_matches q) 1 rows = [(S k, r0)]) ->
  (if created then rows ++ [fobj] else <[k := fobj]> rows) !! k = Some fobj.
Proof.
  intros H. destruct created.
  - destruct H as [_ ->]. rewrite lookup_app_r by lia. rewrite Nat.sub_diag. reflexivity.
  - apply select_single in H. destruct H as (_ & H & _). simpl in H.
    rewrite Nat.sub_0_r in H. apply list_lookup_insert_eq.
    eapply lookup_lt_Some, H.
Qed.


Lemma select_amount (parsed : Hours W) rows j r0 :
  select (lookup_matches (HOURS_IDENTITY_FIELDS parsed)) 1 rows = [(j, r0)] ->
  amount r0 = amount parsed.
Proof.
  intros Es. apply select_single in Es. destruct Es as (_ & _ & Hm).
  unfold lookup_matches in Hm. rewrite !andb_true_iff, !bool_decide_eq_true in Hm.
  destruct Hm as (((((_ & Hamt) & _) & _) & _) & _). exact Hamt.
Qed.

Lemma get_or_create_parsed_on parsed tags db k r0 ts ext a :
  _tags_to_be parsed = Some tags -> tags <> [] ->
  select (lookup_matches (HOURS_IDENTITY_FIELDS parsed)) 1 (Hours_rows db) = [(S k, r0)] ->
  for_tag_names tags db = (Ok ts, set_HourTag_rows (HourTag_rows db ++ ext) db) ->
  Decimal_column W (amount parsed) = Some a ->
  let obj := set_extra (HOURS_EXTRA_FIELDS parsed)
                       {| pk := Some (S k); fields := r0; _tags_to_be := None |} in
  get_or_create_parsed parsed db
  = (Ok (obj, false), imported_db db false k (written obj) ext ts).
Proof.
  intros Et Hne Es Ef Ha obj.
  rewrite get_or_create_parsed_eq, Et.
  destruct tags as [| t tags]; [congruence |].
  rewrite Hours_get_or_create_eq, Es. cbv zeta. simpl fst. simpl snd.
  rewrite Ef. unfold set_tags. cbn [set_extra pk]. unfold update. rewrite save_eq.
  change (amount (fields (set_extra ?x ?o))) with (amount (fields o)).
  cbn [fields]. rewrite (select_amount _ _ _ _ Es), Ha.
  f_equal.
  unfold imported_db, set_Hours_rows, set_Hours_tags_rows, set_HourTag_rows.
  cbn [User_rows Project_rows Hours_rows HourTag_rows Hours_tags_rows set_extra pk fields].
  pose proof (select_single _ _ _ _ _ Es) as (_ & Hl & _).
  cbn in Hl. rewrite Nat.sub_0_r in Hl.
  replace (k <? length (Hours_rows db)) with true
    by (symmetry; apply Nat.ltb_lt; eapply lookup_lt_Some, Hl).
  unfold obj, written. cbn [fields]. rewrite (column_row_Some _ a); [reflexivity |].
  cbn [set_extra fields amount]. rewrite (select_amount _ _ _ _ Es). exact Ha.
Qed.

Lemma get_or_create_parsed_new parsed tags db ts ext a :
  _tags_to_be parsed = Some tags -> tags <> [] ->
  select (lookup_matches (HOURS_IDENTITY_FIELDS parsed)) 1 (Hours_rows db) = [] ->
  for_tag_names tags db = (Ok ts, set_HourTag_rows (HourTag_rows db ++ ext) db) ->
  Decimal_column W (amount parsed) = Some a ->
  let k := length (Hours_rows db) in
  let obj := set_extra (HOURS_EXTRA_FIELDS parsed)
               {| pk := Some (S k);
                  fields := Hours_of_kwargs (HOURS_IDENTITY_FIELDS parsed);
                  _tags_to_be := None |} in
  get_or_create_parsed parsed db
  = (Ok (obj, true), imported_db db true k (written obj) ext ts).
Proof.
  intros Et Hne Es Ef Ha k obj.
  rewrite get_or_create_parsed_eq, Et.
  destruct tags as [| t tags]; [congruence |].
  rewrite Hours_get_or_create_eq, Es.
  change (q_amount W (HOURS_IDENTITY_FIELDS parsed)) with (amount parsed). rewrite Ha.
  cbv zeta. simpl fst. simpl snd.
  set (row := set_amount a (Hours_of_kwargs (HOURS_IDENTITY_FIELDS parsed))).
  assert (Ef' : for_tag_names (t :: tags)
                  (set_Hours_rows (Hours_rows db ++ [row]) db)
                = (Ok ts, set_Hours_rows (Hours_rows db ++ [row])
                            (set_HourTag_rows (HourTag_rows db ++ ext) db))).
  { destruct (for_tag_names (t :: tags) (set_Hours_rows _ db)) as [r d] eqn:E.
    pose proof (for_tag_names_spec _ _ _ _ E) as (ext' & Hd & Hnew & Hnd & Hts).
    pose proof (for_tag_names_spec _ _ _ _ Ef) as (ext0 & Hd0 & Hnew0 & Hnd0 & Hts0).
    assert (Hext : ext0 = ext).
    { apply (f_equal HourTag_rows) in Hd0. simpl in Hd0.
      apply app_inv_head in Hd0. congruence. }
    subst ext0.
    simpl in Hts, Hd.
    specialize (Hts0 ts eq_refl).
    (* run the loop on the other database: it reads and writes the tags only *)
    assert (G : forall names (d1 d2 : DB W), HourTag_rows d1 = HourTag_rows d2 ->
              fst (for_tag_names names d1) = fst (for_tag_names names d2)
              /\ HourTag_rows (snd (for_tag_names names d1))
                 = HourTag_rows (snd (for_tag_names names d2))).
    { clear. induction names as [| n ns IH]; intros d1 d2 Hd; simpl; [auto |].
      unfold bind at 1. unfold bind at 2. unfold bind at 3. unfold bind at 4.
      rewrite !HourTag_get_or_create_eq, Hd.
      destruct (select _ 1 (HourTag_rows d2)) as [| [j x] [| ? ?]]; simpl; auto.
      - specialize (IH (set_HourTag_rows (HourTag_rows d2 ++ [n]) d1)
                       (set_HourTag_rows (HourTag_rows d2 ++ [n]) d2) eq_refl).
        unfold bind.
        destruct (for_tag_names ns (set_HourTag_rows _ d1)) as [[? | ?] ?],
                 (for_tag_names ns (set_HourTag_rows _ d2)) as [[? | ?] ?];
          simpl in *; destruct IH as [I1 I2]; inversion I1; subst; auto.
        - specialize (IH d1 d2 Hd). unfold bind.
        destruct (for_tag_names ns d1) as [[? | ?] ?],
                 (for_tag_names ns d2) as [[? | ?] ?];
          simpl in *; destruct IH as [I1 I2]; inversion I1; subst; auto. }
    specialize (G (t :: tags) (set_Hours_rows (Hours_rows db ++ [row]) db) db eq_refl).
    rewrite E, Ef in G. simpl in G. destruct G as [G1 G2]. subst r.
    f_equal. rewrite Hd. unfold set_HourTag_rows, set_Hours_rows. simpl.
    rewrite Hd in G2. simpl in G2. rewrite G2. reflexivity. }
  rewrite Ef'. unfold set_tags. cbn [set_extra pk]. unfold update. rewrite save_eq.
  change (amount (fields (set_extra ?x ?o))) with (amount (fields o)).
  cbn [fields Hours_of_kwargs amount HOURS_IDENTITY_FIELDS q_amount]. rewrite Ha.
  f_equal.
  unfold imported_db, set_Hours_rows, set_Hours_tags_rows, set_HourTag_rows.
  cbn [User_rows Project_rows Hours_rows HourTag_rows Hours_tags_rows set_extra pk fields].
  rewrite length_app. cbn [length].
  replace (length (Hours_rows db) <? length (Hours_rows db) + 1) with true
    by (symmetry; apply Nat.ltb_lt; lia).
  unfold row. rewrite insert_last.
  unfold obj, k, written. cbn [fields].
  rewrite (column_row_Some _ a); [reflexivity | exact Ha].
Qed.


Lemma same_identity_sym (r1 r2 : HoursFields W) : same_identity r1 r2 -> same_identity r2 r1.
Proof. unfold same_identity. intuition congruence. Qed.

Lemma same_identity_trans (r1 r2 r3 : HoursFields W) :
  same_identity r1 r2 -> same_identity r2 r3 -> same_identity r1 r3.
Proof. unfold same_identity. intuition congruence. Qed.

Lemma select_stored (db : DB W) p j r :
  In (j, r) (select p 1 (Hours_rows db)) <-> stored db j = Some r /\ p r = true.
Proof.
  rewrite select_In. unfold stored. destruct j as [| i]; simpl.
  - split; [lia | intros [H _]; discriminate].
  - rewrite Nat.sub_0_r. split; [tauto | intros [H1 H2]; split; [lia | tauto]].
Qed.

Lemma select_identity_unique db (parsed : HoursFields W) :
  identity_unique db ->
  select (lookup_matches (HOURS_IDENTITY_FIELDS parsed)) 1 (Hours_rows db) = []
  \/ exists k r0,
       select (lookup_matches (HOURS_IDENTITY_FIELDS parsed)) 1 (Hours_rows db) = [(S k, r0)].
Proof.
  intros Hu.
  destruct (select _ 1 (Hours_rows db)) as [| [j r0] [| [j2 r2] rest]] eqn:Es.
  - left. reflexivity.
  - right. pose proof (select_single _ _ _ _ _ Es) as (Hj & _).
    destruct j as [| k]; [lia |]. eauto.
  - exfalso. pose proof (select_two _ _ _ _ _ _ Es) as Hlt. simpl in Hlt.
    assert (H1 : In (j, r0) (select (lookup_matches (HOURS_IDENTITY_FIELDS parsed)) 1 (Hours_rows db)))
      by (rewrite Es; left; reflexivity).
    assert (H2 : In (j2, r2) (select (lookup_matches (HOURS_IDENTITY_FIELDS parsed)) 1 (Hours_rows db)))
      by (rewrite Es; right; left; reflexivity).
    apply select_stored in H1, H2. destruct H1 as [S1 M1], H2 as [S2 M2].
    apply same_identity_matches in M1, M2.
    assert (j = j2); [| lia].
    eapply Hu; eauto. eapply same_identity_trans; [exact M1 |].
    apply same_identity_sym, M2.
Qed.

Lemma for_tag_names_total names db :
  List.NoDup (HourTag_rows db) ->
  exists ts ext,
    for_tag_names names db = (Ok ts, set_HourTag_rows (HourTag_rows db ++ ext) db)
    /\ Forall2 (tag_at (HourTag_rows db ++ ext)) names ts
    /\ List.NoDup (HourTag_rows db ++ ext).
Proof.
  intros Hnd. destruct (for_tag_names_NoDup names db Hnd) as (ts & db' & E).
  pose proof (for_tag_names_spec _ _ _ _ E) as (ext & Hd & Hnew & Hnd' & Hts).
  exists ts, ext. subst db'. split; [exact E |]. split; [apply Hts; reflexivity |].
  apply List.NoDup_app; [exact Hnd | exact Hnd' |].
  intros a Ha Ha'. apply (Hnew a Ha' Ha).
Qed.

Lemma set_extra_spec x (o : Hours W) :
  pk (set_extra x o) = pk o
  /\ end_time (set_extra x o) = x_end_time x
  /\ input_data_json (set_extra x o) = x_input_data_json x
  /\ same_identity (set_extra x o) o.
Proof. unfold same_identity. simpl. repeat split. Qed.


Lemma csv_parse_ok row coder db obj :
  fst (_csv_parse row coder db) = Ok obj ->
  exists c f p d amt,
    fst (unpack_row row coder db) = Ok (c, f)
    /\ normalize_tags (f_tags f) <> []
    /\ project_outcome f db = Ok p
    /\ parse_date (f_date f) = Ok d
    /\ parse_amount (f_hrs f) = Ok amt
    /\ existsb (Project_eq p) (projects c) = true
    /\ obj = pending_entry row c f p d amt.
Proof.
  rewrite csv_parse_eq.
  destruct (fst (unpack_row row coder db)) as [[c f] | e] eqn:E; [| discriminate].
  rewrite csv_parse_fields_eq. simpl.
  destruct (normalize_tags (f_tags f)) eqn:Et; [discriminate |].
  destruct (project_outcome f db) as [p |] eqn:Ep; [| discriminate].
  destruct (parse_date _) as [d |] eqn:Ed; [| discriminate].
  destruct (parse_amount _) as [amt |] eqn:Ea; [| discriminate].
  destruct (forallb (decodes W) row); [| discriminate].
  destruct (existsb _ _) eqn:Ex; [| discriminate].
  intros H. inversion H; subst.
  exists c, f, p, d, amt. rewrite Et. repeat split; try assumption; try reflexivity.
  discriminate.
Qed.


Lemma csv_parse_tags_to_be row coder db parsed :
  fst (_csv_parse row coder db) = Ok parsed ->
  exists tags, _tags_to_be parsed = Some tags /\ tags <> [].
Proof.
  intros H. apply csv_parse_ok in H.
  destruct H as (c & f & p & d & amt & _ & Hne & _ & _ & _ & _ & ->).
  simpl. eauto.
Qed.


Lemma matches_of_found (parsed : Hours W) rows (created : bool) k r0 :
  (if created
   then select (lookup_matches (HOURS_IDENTITY_FIELDS parsed)) 1 rows = []
        /\ k = length rows
        /\ r0 = Hours_of_kwargs (HOURS_IDENTITY_FIELDS parsed)
   else select (lookup_matches (HOURS_IDENTITY_FIELDS parsed)) 1 rows = [(S k, r0)]) ->
  lookup_matches (HOURS_IDENTITY_FIELDS parsed) r0 = true.
Proof.
  destruct created.
  - intros (_ & _ & ->). apply lookup_matches_kwargs.
  - intros H. apply select_single in H. tauto.
Qed.


Lemma written_keeps (obj : Hours W) : column_keeps (amount obj) -> written obj = obj.
Proof.
  intros H. unfold written. rewrite (column_row_keeps _ H). destruct obj; reflexivity.
Qed.



Lemma lookup_matches_other_amount (q : Identity W) (r : HoursFields W) a :
  a <> q_amount W q -> lookup_matches q (set_amount a r) = false.
Proof.
  intros Hne. unfold lookup_matches. cbn [set_amount amount].
  rewrite (bool_decide_eq_false_2 (a = q_amount W q) Hne).
  rewrite !andb_false_r. reflexivity.
Qed.


Lemma explicit_project_eq f db :
  fst (explicit_project f db)
  = if truthy (f_proj f)
    then match objects_get Project_model
                 (fun p => String.eqb (project_name p) (f_proj f)) (Project_rows db) with
         | Ok p => Ok (Some p)
         | Raise e => Raise e
         end
    else Ok None.
Proof.
  unfold explicit_project. destruct (truthy (f_proj f)); [| reflexivity].
  unfold Project_get, bind, query, lift, ret. simpl.
  destruct (objects_get _ _ _); reflexivity.
Qed.

Lemma csv_parse_run row coder db c f :
  fst (unpack_row row coder db) = Ok (c, f) ->
  normalize_tags (f_tags f) <> [] ->
  fst (_csv_parse row coder db)
  = match project_outcome f db with
    | Raise e => Raise e
    | Ok p =>
        match parse_date (f_date f) with
        | Raise e => Raise e
        | Ok d =>
            match parse_amount (f_hrs f) with
            | Raise e => Raise e
            | Ok amt =>
                if forallb (decodes W) row
                then if existsb (Project_eq p) (projects c)
                     then Ok (pending_entry row c f p d amt)
                     else Raise NotAllowed
                else Raise UnicodeDecodeError
            end
        end
    end.
Proof.
  intros Hu Hne. rewrite csv_parse_eq, Hu, csv_parse_fields_eq. simpl.
  destruct (normalize_tags (f_tags f)); [congruence | reflexivity].
Qed.

(** C6, as amended.  For a row that unpacks and has a tag: the explicit
    candidate is absent for an empty project name and otherwise is the
    one project of that name; a name that no project bears makes the
    parser fail with the [DoesNotExist] of the lookup, as does any failure
    of the lookup.  When both candidates are there and their keys differ
    the parser fails with [ProjectMismatch]; when no name is given and the
    issue gives no project it fails with [ProjectRequired].  An entry that
    is returned has the project the two candidates settle on: the explicit
    one when there is one, else the derived one, and the derived one has
    the same key whenever it exists. *)
Theorem csv_parse_project (row : list string) (coder : option Coder) (db : DB W)
    (c : Coder) (f : RowFields) :
  fst (unpack_row row coder db) = Ok (c, f) ->
  normalize_tags (f_tags f) <> [] ->
  (f_proj f = "" -> fst (explicit_project f db) = Ok None)
  /\ (forall p, fst (explicit_project f db) = Ok (Some p)
        <-> f_proj f <> ""
            /\ List.filter (fun p => String.eqb (project_name p) (f_proj f)) (Project_rows db)
               = [p])
  /\ (f_proj f <> "" ->
      List.filter (fun p => String.eqb (project_name p) (f_proj f)) (Project_rows db) = [] ->
      fst (_csv_parse row coder db) = Raise (DoesNotExist Project_model))
  /\ (forall e, fst (explicit_project f db) = Raise e ->
        fst (_csv_parse row coder db) = Raise e)
  /\ (forall pa pb,
        fst (explicit_project f db) = Ok (Some pa) -> derived_project W f = Some pb ->
        project_pk pa <> project_pk pb ->
        fst (_csv_parse row coder db) = Raise ProjectMismatch)
  /\ (fst (explicit_project f db) = Ok None -> derived_project W f = None ->
        fst (_csv_parse row coder db) = Raise ProjectRequired)
  /\ (forall obj, fst (_csv_parse row coder db) = Ok obj ->
        project_outcome f db = Ok (project obj)
        /\ (forall pa, fst (explicit_project f db) = Ok (Some pa) -> project obj = pa)
        /\ (fst (explicit_project f db) = Ok None -> derived_project W f = Some (project obj))
        /\ (forall pb, derived_project W f = Some pb ->
              project_pk pb = project_pk (project obj))).
Proof.
  intros Hu Hne.
  pose proof (csv_parse_run row coder db c f Hu Hne) as Hrun.
  assert (Htr : forall s, s = "" <-> truthy s = false).
  { intros s. destruct s; simpl; split; intros H; congruence. }
  split.
  { intros H. rewrite explicit_project_eq. apply Htr in H. rewrite H. reflexivity. }
  split.
  { intros p. rewrite explicit_project_eq.
    destruct (truthy (f_proj f)) eqn:Et.
    - destruct (objects_get _ _ _) as [p' |] eqn:Eo.
      + apply objects_get_ok in Eo. split.
        * intros H. inversion H; subst. split; [| exact Eo].
          intros Hn. apply Htr in Hn. congruence.
        * intros [_ H]. congruence.
      + split; [discriminate |]. intros [_ H].
        apply (objects_get_ok Project_model) in H. congruence.
    - split; [discriminate |]. intros [H _]. exfalso. apply H, Htr, Et. }
  split.
  { intros Hn Hf. rewrite Hrun. unfold project_outcome. rewrite explicit_project_eq.
    destruct (truthy (f_proj f)) eqn:Et; [| exfalso; apply Hn, Htr, Et].
    unfold objects_get. rewrite Hf. reflexivity. }
  split.
  { intros e He. rewrite Hrun. unfold project_outcome. rewrite He. reflexivity. }
  split.
  { intros pa pb Ha Hb Hne'. rewrite Hrun. unfold project_outcome. rewrite Ha, Hb.
    unfold Project_eq. apply Nat.eqb_neq in Hne'. rewrite Hne'. reflexivity. }
  split.
  { intros Ha Hb. rewrite Hrun. unfold project_outcome. rewrite Ha, Hb. reflexivity. }
  intros obj Hobj. apply csv_parse_ok in Hobj.
  destruct Hobj as (c' & f' & p & d & amt & Hu' & _ & Hp & _ & _ & _ & ->).
  rewrite Hu in Hu'. inversion Hu'; subst c' f'. simpl.
  split; [exact Hp |].
  unfold project_outcome in Hp.
  destruct (fst (explicit_project f db)) as [[pa |] |]; [| | discriminate].
  - destruct (derived_project W f) as [pb |].
    + destruct (Project_eq pa pb) eqn:E; inversion Hp; subst.
      split; [intros ? H; congruence |]. split; [discriminate |].
      intros pb' H. inversion H; subst. unfold Project_eq in E.
      apply Nat.eqb_eq in E. congruence.
    + inversion Hp; subst. split; [intros ? H; congruence |].
      split; discriminate.
  - destruct (derived_project W f) as [pb |]; inversion Hp; subst.
    split; [discriminate |]. split; [reflexivity |]. intros ? H. congruence.
Qed.

(** [NotAllowed] is raised exactly when every earlier step passes, the
    dump of the row included, and the project is not among the coder's. *)
Lemma csv_parse_not_allowed row coder db :
  fst (_csv_parse row coder db) = Raise NotAllowed
  <-> exists c f p d (amt : Decimal W),
        fst (unpack_row row coder db) = Ok (c, f)
        /\ normalize_tags (f_tags f) <> []
        /\ project_outcome f db = Ok p
        /\ parse_date (f_date f) = Ok d
        /\ parse_amount (f_hrs f) = Ok amt
        /\ forallb (decodes W) row = true
        /\ existsb (Project_eq p) (projects c) = false.
Proof.
  split.
  - rewrite csv_parse_eq.
    destruct (fst (unpack_row row coder db)) as [[c f] | e] eqn:E.
    + rewrite csv_parse_fields_eq. simpl.
      destruct (normalize_tags (f_tags f)) eqn:Et; [discriminate |].
      destruct (project_outcome f db) as [p |] eqn:Ep.
      2:{ intros H. inversion H; subst. apply project_outcome_raises in Ep.
          destruct Ep as [Ep | [Ep | [Ep | Ep]]]; discriminate. }
      destruct (parse_date _) as [d |] eqn:Ed.
      2:{ intros H. inversion H; subst. apply parse_date_raises in Ed. discriminate. }
      destruct (parse_amount _) as [amt |] eqn:Ea.
      2:{ intros H. inversion H; subst. apply parse_amount_raises in Ea. discriminate. }
      destruct (forallb (decodes W) row) eqn:Ej; [| discriminate].
      destruct (existsb _ _) eqn:Ex; [discriminate |].
      intros _. exists c, f, p, d, amt. rewrite Et. repeat split; try assumption.
      discriminate.
    + simpl. intros H. inversion H; subst. exfalso.
      revert E. clear. unfold unpack_row. destruct coder as [c |].
      * do 10 (destruct row as [| ? row]; try (simpl; discriminate)).
      * do 11 (destruct row as [| ? row]; try (simpl; discriminate)).
        unfold bind. rewrite Coder_get_eq.
        destruct (objects_get _ _ _) as [u |] eqn:E.
        -- destruct (Coder_init u) eqn:E2; simpl; [discriminate |].
           apply Coder_init_raises in E2. destruct E2; subst. discriminate.
        -- simpl. apply objects_get_raises in E. destruct E; subst; discriminate.
  - intros (c & f & p & d & amt & Hu & Hne & Hp & Hd & Ha & Hj & Hx).
    rewrite (csv_parse_run row coder db c f Hu Hne), Hp, Hd, Ha, Hj, Hx. reflexivity.
Qed.


Lemma bind_assoc {A B C} (c : M W A) (k : A -> M W B) (h : B -> M W C) db :
  bind (bind c k) h db = bind c (fun a => bind (k a) h) db.
Proof. unfold bind. destruct (c db) as [[a | e] d]; reflexivity. Qed.

Lemma bind_ret {A B} (a : A) (k : A -> M W B) db : bind (ret a) k db = k a db.
Proof. reflexivity. Qed.

Lemma bind_ext {A B} (c : M W A) (k1 k2 : A -> M W B) db :
  (forall a d, k1 a d = k2 a d) -> bind c k1 db = bind c k2 db.
Proof. intros H. unfold bind. destruct (c db) as [[a | e] d]; [apply H | reflexivity]. Qed.

Lemma existsb_Project_eq p1 p2 l :
  project_pk p1 = project_pk p2 ->
  existsb (Project_eq p1) l = existsb (Project_eq p2) l.
Proof.
  intros H. induction l as [| x l IH]; simpl; [reflexivity |].
  unfold Project_eq at 1 3. rewrite H, IH. reflexivity.
Qed.

Lemma existsb_Project_eq_In p l :
  existsb (Project_eq p) l = true <-> exists p', In p' l /\ project_pk p' = project_pk p.
Proof.
  rewrite existsb_exists. unfold Project_eq. split.
  - intros (x & Hin & He). apply Nat.eqb_eq in He. eauto.
  - intros (x & Hin & He). exists x. split; [exact Hin |]. apply Nat.eqb_eq. congruence.
Qed.

(** C8, as amended.  An entry that [_csv_parse] returns belongs to the
    coder of the row and its project is one of that coder's projects.  A
    row that unpacks, has a tag and whose project resolves to one that is
    not the coder's never gives an entry: the parser fails, with
    [NotAllowed] exactly when the date and the amount of the row can be
    read and every field of the row decodes for the JSON dump of the row,
    which the constructor call evaluates before the check; with the
    error of the date or of the amount when one of them cannot be read;
    and with [UnicodeDecodeError] when they can and a field does not
    decode.  [NotAllowed] is raised only for a resolved project outside
    the coder's, on a row whose fields all decode.  An entry that the
    import returns is stored under its key with the amount the column
    holds for it and its other fields as returned, with the coder's user
    and a project of the coder's. *)
Theorem csv_parse_authorized (row : list string) (given : option Coder) (db : DB W) :
  (forall obj, fst (_csv_parse row given db) = Ok obj ->
     exists c f,
       fst (unpack_row row given db) = Ok (c, f)
       /\ coder obj = user c
       /\ existsb (Project_eq (project obj)) (projects c) = true
       /\ exists p, In p (projects c) /\ project_pk p = project_pk (project obj))
  /\ (forall c f p,
        fst (unpack_row row given db) = Ok (c, f) ->
        normalize_tags (f_tags f) <> [] ->
        project_outcome f db = Ok p ->
        existsb (Project_eq p) (projects c) = false ->
        (exists e, fst (_csv_parse row given db) = Raise e)
        /\ (fst (_csv_parse row given db) = Raise NotAllowed
            <-> (exists d, parse_date (f_date f) = Ok d)
                /\ (exists amt : Decimal W, parse_amount (f_hrs f) = Ok amt)
                /\ forallb (decodes W) row = true)
        /\ (forall e, parse_date (f_date f) = Raise e ->
              fst (_csv_parse row given db) = Raise e)
        /\ (forall d e, parse_date (f_date f) = Ok d ->
              @parse_amount W (f_hrs f) = Raise e ->
              fst (_csv_parse row given db) = Raise e)
        /\ (forall d (amt : Decimal W), parse_date (f_date f) = Ok d ->
              parse_amount (f_hrs f) = Ok amt ->
              forallb (decodes W) row = false ->
              fst (_csv_parse row given db) = Raise UnicodeDecodeError))
  /\ (fst (_csv_parse row given db) = Raise NotAllowed ->
        exists c f p,
          fst (unpack_row row given db) = Ok (c, f)
          /\ project_outcome f db = Ok p
          /\ forallb (decodes W) row = true
          /\ existsb (Project_eq p) (projects c) = false)
  /\ (forall obj created db',
        csv_get_or_create row given db = (Ok (obj, created), db') ->
        exists c f k a,
          fst (unpack_row row given db) = Ok (c, f)
          /\ pk obj = Some k
          /\ Decimal_column W (amount obj) = Some a
          /\ stored db' k = Some (set_amount a (fields obj))
          /\ user_pk (coder obj) = user_pk (user c)
          /\ existsb (Project_eq (project obj)) (projects c) = true).
Proof.
  split.
  { intros obj H. apply csv_parse_ok in H.
    destruct H as (c & f & p & d & amt & Hu & _ & _ & _ & _ & Hx & ->).
    exists c, f. simpl. split; [exact Hu |]. split; [reflexivity |].
    split; [exact Hx |]. apply existsb_Project_eq_In, Hx. }
  split.
  { intros c f p Hu Hne Hp Hx.
    rewrite (csv_parse_run row given db c f Hu Hne), Hp.
    destruct (parse_date (f_date f)) as [d | e1] eqn:Ed.
    - destruct (parse_amount (f_hrs f)) as [amt | e2] eqn:Ea.
      + destruct (forallb (decodes W) row) eqn:Ej.
        * rewrite Hx. split; [eauto |]. split; [split; eauto |].
          split; [discriminate |]. split; [discriminate |]. discriminate.
        * split; [eauto |]. split.
          { split; [discriminate |]. intros (_ & _ & H). discriminate. }
          split; [discriminate |]. split; [discriminate |]. reflexivity.
      + split; [eauto |]. split.
        { split.
          - intros H. inversion H; subst. apply parse_amount_raises in Ea. discriminate.
          - intros (_ & [amt H] & _). discriminate. }
        split; [discriminate |]. split; [| discriminate].
        intros d' e' _ H. congruence.
    - split; [eauto |]. split.
      { split.
        - intros H. inversion H; subst. apply parse_date_raises in Ed. discriminate.
        - intros ([d H] & _). discriminate. }
      split; [intros e' H; congruence |]. split; discriminate. }
  split.
  { intros H. apply csv_parse_not_allowed in H.
    destruct H as (c & f & p & d & amt & Hu & _ & Hp & _ & _ & Hj & Hx).
    exists c, f, p. auto. }
  intros obj created db' H. rewrite csv_get_or_create_eq in H.
  destruct (fst (_csv_parse row given db)) as [parsed | e] eqn:Ep; [| discriminate].
  apply csv_parse_ok in Ep.
  destruct Ep as (c & f & p & d & amt & Hu & _ & _ & _ & _ & Hx & Hparsed).
  destruct (get_or_create_parsed_amount _ _ _ _ _ H) as (Hamt & a & Ha).
  apply get_or_create_parsed_ok in H.
  destruct H as (tags & k & r0 & ts & ext & Et & Hne & Hobj & Hsel & Hts & Hnew & Hnd & ->).
  pose proof (matches_of_found parsed _ _ _ _ Hsel) as Hm.
  apply same_identity_matches in Hm. destruct Hm as (Hc & Hpr & _).
  exists c, f, (S k), a. split; [exact Hu |]. split; [subst obj; reflexivity |].
  split; [rewrite Hamt; exact Ha |].
  split.
  { assert (Hsel' : if created
                  then select (lookup_matches (HOURS_IDENTITY_FIELDS parsed)) 1 (Hours_rows db) = []
                       /\ k = length (Hours_rows db)
                  else select (lookup_matches (HOURS_IDENTITY_FIELDS parsed)) 1 (Hours_rows db)
                       = [(S k, r0)]).
    { destruct created; tauto. }
    rewrite <- (column_row_Some (fields obj) a) by (rewrite Hamt; exact Ha).
    exact (imported_stored _ _ _ _ _ (fields (written obj)) Hsel'). }
  subst obj parsed. simpl in *. split; [exact Hc |].
  rewrite (existsb_Project_eq _ p _ Hpr). exact Hx.
Qed.

Lemma for_tag_names_raises names : forall db e db',
  for_tag_names names db = (Raise e, db') -> e = MultipleObjectsReturned HourTag_model.
Proof.
  induction names as [| n ns IH]; intros db e db' H; simpl in H; [discriminate |].
  unfold bind at 1 in H. rewrite HourTag_get_or_create_eq in H.
  destruct (select _ 1 (HourTag_rows db)) as [| [j x] [| ? ?]].
  - unfold bind in H. destruct (for_tag_names ns _) as [[ts | e'] d] eqn:E;
      simpl in H; inversion H; subst. eapply IH, E.
  - unfold bind in H. destruct (for_tag_names ns _) as [[ts | e'] d] eqn:E;
      simpl in H; inversion H; subst. eapply IH, E.
  - inversion H. reflexivity.
Qed.

Lemma get_or_create_parsed_raises parsed db e db' :
  get_or_create_parsed parsed db = (Raise e, db') ->
  (e = MultipleObjectsReturned HourTag_model /\ ~ List.NoDup (HourTag_rows db))
  \/ (e = InvalidOperation
      /\ exists k r, stored db k = Some r /\ same_identity r parsed
                     /\ Decimal_column W (amount r) = None)
  \/ db' = db.
Proof.
  rewrite get_or_create_parsed_eq.
  destruct (_tags_to_be parsed) as [[| t tags] |];
    try (intros H; inversion H; right; right; reflexivity).
  rewrite Hours_get_or_create_eq.
  destruct (select _ 1 (Hours_rows db)) as [| [j r0] [| ? ?]] eqn:Es;
    try (intros H; inversion H; right; right; reflexivity).
  - change (q_amount W (HOURS_IDENTITY_FIELDS parsed)) with (amount parsed).
    destruct (Decimal_column W (amount parsed)) as [a |] eqn:Ea;
      [| intros H; inversion H; right; right; reflexivity].
    cbv zeta. simpl fst. simpl snd.
    destruct (for_tag_names _ _) as [[ts | e'] d] eqn:E.
    + unfold set_tags. cbn [set_extra pk]. unfold update. rewrite save_eq.
      change (amount (fields (set_extra ?x ?o))) with (amount (fields o)).
      cbn [fields Hours_of_kwargs amount HOURS_IDENTITY_FIELDS q_amount]. rewrite Ea.
      discriminate.
    + intros H. inversion H; subst. left.
      split; [eapply for_tag_names_raises, E |].
      intros Hnd.
      destruct (for_tag_names_NoDup (t :: tags)
                  (set_Hours_rows
                     (Hours_rows db
                      ++ [set_amount a (Hours_of_kwargs (HOURS_IDENTITY_FIELDS parsed))]) db)
                  Hnd) as (ts & d' & E').
      congruence.
  - cbv zeta. simpl fst. simpl snd.
    destruct (for_tag_names _ _) as [[ts | e'] d] eqn:E.
    + unfold set_tags. cbn [set_extra pk]. unfold update. rewrite save_eq.
      change (amount (fields (set_extra ?x ?o))) with (amount (fields o)).
      cbn [fields]. destruct (Decimal_column W (amount r0)) as [a |] eqn:Ea; [discriminate |].
      intros H. inversion H; subst. right. left. split; [reflexivity |].
      exists j, r0.
      assert (Hin : In (j, r0) (select (lookup_matches (HOURS_IDENTITY_FIELDS parsed)) 1
                                       (Hours_rows db))) by (rewrite Es; left; reflexivity).
      apply select_stored in Hin. destruct Hin as [Hs Hm].
      split; [exact Hs |]. split; [apply same_identity_matches, Hm | exact Ea].
    + intros H. inversion H; subst. left.
      split; [eapply for_tag_names_raises, E |].
      intros Hnd. destruct (for_tag_names_NoDup (t :: tags) db Hnd) as (ts & d' & E').
      congruence.
Qed.

(** C4, as amended.  When the parser fails the import fails with the same
    exception and the database is untouched.  A failed import leaves the
    database as it was unless it failed with the
    [MultipleObjectsReturned] of a tag name, or with the
    [InvalidOperation] of the final save on an entry that it found
    stored with an amount that the column refuses, which a table filled
    through the column does not hold; so with unique tag names every
    failed import leaves the database as it was, a failure on such a
    stored amount apart.  The import is its
    lookup stage followed by the writes of the extra fields and the tags;
    when the lookup stage creates the entry, the hours table already
    holds it from then on, with the identity fields of the parsed entry,
    the amount as the column holds it, no end time and no raw input,
    while the tag tables are still as they were. *)
Theorem csv_get_or_create_failure (row : list string) (coder : option Coder) (db : DB W) :
  (forall e, fst (_csv_parse row coder db) = Raise e ->
     csv_get_or_create row coder db = (Raise e, db))
  /\ (forall e db', csv_get_or_create row coder db = (Raise e, db') ->
        e = MultipleObjectsReturned HourTag_model
        \/ (e = InvalidOperation
            /\ exists k r, stored db k = Some r /\ Decimal_column W (amount r) = None)
        \/ db' = db)
  /\ (forall e db', csv_get_or_create row coder db = (Raise e, db') ->
        List.NoDup (HourTag_rows db) ->
        (e = InvalidOperation
         /\ exists k r, stored db k = Some r /\ Decimal_column W (amount r) = None)
        \/ db' = db)
  /\ (forall e db', csv_get_or_create row coder db = (Raise e, db') ->
        List.NoDup (HourTag_rows db) -> amounts_in_column db -> db' = db)
  /\ csv_get_or_create row coder db
     = (x <- csv_get_or_create_lookup row coder ;;
        let parsed := fst x in
        let obj := set_extra (HOURS_EXTRA_FIELDS parsed) (fst (snd x)) in
        tags <- for_tag_names (default [] (_tags_to_be parsed)) ;;
        set_tags obj tags ;;;
        save obj ;;;
        ret (obj, snd (snd x))) db
  /\ (forall parsed obj db1,
        csv_get_or_create_lookup row coder db = (Ok (parsed, (obj, true)), db1) ->
        fst (_csv_parse row coder db) = Ok parsed
        /\ pk obj = Some (S (length (Hours_rows db)))
        /\ (exists a, Decimal_column W (amount parsed) = Some a
                      /\ Hours_rows db1 = Hours_rows db ++ [set_amount a (fields obj)])
        /\ same_identity obj parsed
        /\ end_time obj = None
        /\ input_data_json obj = None
        /\ HourTag_rows db1 = HourTag_rows db
        /\ Hours_tags_rows db1 = Hours_tags_rows db).
Proof.
  split.
  { intros e H. rewrite csv_get_or_create_eq, H. reflexivity. }
  assert (Hfail : forall e db', csv_get_or_create row coder db = (Raise e, db') ->
            (e = MultipleObjectsReturned HourTag_model /\ ~ List.NoDup (HourTag_rows db))
            \/ (e = InvalidOperation
                /\ exists k r, stored db k = Some r /\ Decimal_column W (amount r) = None)
            \/ db' = db).
  { intros e db' H. rewrite csv_get_or_create_eq in H.
    destruct (fst (_csv_parse row coder db)) as [parsed | e0]; [| inversion H; auto].
    apply get_or_create_parsed_raises in H.
    destruct H as [H | [(He & k & r & Hs & _ & Hc) | H]]; eauto 8. }
  split.
  { intros e db' H. destruct (Hfail e db' H) as [[H1 _] | [H1 | H1]]; auto. }
  split.
  { intros e db' H Hnd. destruct (Hfail e db' H) as [[_ H1] | [H1 | H1]]; auto.
    contradiction. }
  split.
  { intros e db' H Hnd Hcol. destruct (Hfail e db' H) as [[_ H1] | [H1 | H1]]; auto.
    - contradiction.
    - destruct H1 as (_ & k & r & Hs & Hc). apply Hcol in Hs. unfold column_keeps in Hs.
      congruence. }
  split.
  { unfold csv_get_or_create, csv_get_or_create_lookup, get_or_create_parsed.
    rewrite bind_assoc. apply bind_ext. intros parsed d.
    unfold getattr_tags_to_be.
    destruct (_tags_to_be parsed) as [tags |] eqn:Et; [| reflexivity].
    rewrite bind_assoc, !bind_ret.
    rewrite bind_assoc. apply bind_ext. intros [] d1.
    rewrite bind_assoc. apply bind_ext. intros r d2.
    rewrite bind_ret. simpl. rewrite Et. reflexivity. }
  intros parsed obj db1 H.
  unfold csv_get_or_create_lookup, bind in H.
  pose proof (csv_parse_db row coder db) as Hdb.
  destruct (_csv_parse row coder db) as [[parsed' | e] d] eqn:Ep; [| discriminate].
  simpl in Hdb. subst d.
  unfold getattr_tags_to_be in H.
  destruct (_tags_to_be parsed') as [[| t tags] |]; simpl in H; try discriminate.
  rewrite Hours_get_or_create_eq in H.
  destruct (select _ 1 (Hours_rows db)) as [| [j r0] [| ? ?]]; simpl in H; try discriminate.
  destruct (Decimal_column W (amount parsed')) as [a |] eqn:Ea; [| discriminate].
  inversion H; subst. simpl. repeat split; try reflexivity.
  exists a. split; [exact Ea | reflexivity].
Qed.


(** ** The tags of a stored entry *)

Lemma omap_other_pairs {B} K (g : nat -> option B) (rel : list (nat * nat)) :
  omap (fun p : nat * nat => if fst p =? K then g (snd p) else None)
       (List.filter (fun p : nat * nat => negb (fst p =? K)) rel) = [].
Proof.
  induction rel as [| p rel IH]; simpl; [reflexivity |].
  destruct (fst p =? K) eqn:E; simpl; [exact IH |]. rewrite E. exact IH.
Qed.

Lemma omap_own_pairs {B} K (g : nat -> option B) (js : list nat) :
  omap (fun p : nat * nat => if fst p =? K then g (snd p) else None)
       (List.map (pair K) js) = omap g js.
Proof.
  induction js as [| j js IH]; simpl; [reflexivity |].
  rewrite Nat.eqb_refl. destruct (g j); [f_equal |]; exact IH.
Qed.

Lemma stored_tag_names_imported db created k obj ext ts :
  stored_tag_names (imported_db db created k obj ext ts) (S k)
  = List.map name (omap (HourTag_by_pk (HourTag_rows db ++ ext))
                        (nodup Nat.eq_dec (List.map tag_pk ts))).
Proof.
  unfold stored_tag_names, tags_all, bind, query, ret. simpl.
  rewrite omap_app.
  rewrite (omap_other_pairs (S k) (HourTag_by_pk (HourTag_rows db ++ ext))).
  rewrite (omap_own_pairs (S k) (HourTag_by_pk (HourTag_rows db ++ ext))).
  reflexivity.
Qed.

Lemma tag_at_by_pk rows n t : tag_at rows n t -> HourTag_by_pk rows (tag_pk t) = Some t.
Proof.
  intros [Hn Hs]. apply select_single in Hs. destruct Hs as (Hk & Hl & _).
  unfold HourTag_by_pk. destruct (tag_pk t) as [| i] eqn:E; [lia |].
  simpl in Hl. rewrite Nat.sub_0_r in Hl. rewrite Hl. simpl.
  destruct t; simpl in *. subst. reflexivity.
Qed.

Lemma Forall2_tag_at rows tags ts :
  Forall2 (tag_at rows) tags ts ->
  List.map name ts = tags
  /\ (forall t, In t ts -> HourTag_by_pk rows (tag_pk t) = Some t)
  /\ (forall t1 t2, In t1 ts -> In t2 ts -> name t1 = name t2 -> tag_pk t1 = tag_pk t2).
Proof.
  intros H.
  assert (Hnames : List.map name ts = tags).
  { induction H as [| n t tags ts [Hn _] _ IH]; simpl; [reflexivity |]. congruence. }
  assert (Hall : forall t, In t ts -> exists n, tag_at rows n t).
  { clear Hnames. induction H as [| n t tags ts Ht _ IH]; intros t' [].
    - subst. eauto.
    - apply IH. assumption. }
  split; [exact Hnames |].
  split.
  { intros t Ht. destruct (Hall t Ht) as [n Hn]. eapply tag_at_by_pk, Hn. }
  intros t1 t2 H1 H2 He.
  destruct (Hall t1 H1) as [n1 [Hn1 Hs1]], (Hall t2 H2) as [n2 [Hn2 Hs2]].
  assert (E : n1 = n2) by congruence.
  rewrite <- E in Hs2. rewrite Hs1 in Hs2. congruence.
Qed.

Lemma names_by_pk rows ts (js : list nat) :
  (forall t, In t ts -> HourTag_by_pk rows (tag_pk t) = Some t) ->
  (forall t1 t2, In t1 ts -> In t2 ts -> name t1 = name t2 -> tag_pk t1 = tag_pk t2) ->
  List.NoDup js ->
  (forall j, In j js -> exists t, In t ts /\ tag_pk t = j) ->
  List.NoDup (List.map name (omap (HourTag_by_pk rows) js))
  /\ forall n, In n (List.map name (omap (HourTag_by_pk rows) js))
               <-> exists t, In t ts /\ In (tag_pk t) js /\ name t = n.
Proof.
  intros Hby Hinj. induction js as [| j js IH]; intros Hnd Hjs.
  - simpl. split; [constructor |]. intros n. split; [intros [] | intros (t & _ & [] & _)].
  - inversion Hnd as [| ? ? Hj Hnd']; subst.
    destruct IH as [IH1 IH2]; [exact Hnd' | intros; apply Hjs; right; assumption |].
    destruct (Hjs j (or_introl eq_refl)) as (t & Ht & Htj). subst j.
    simpl. rewrite (Hby t Ht). simpl. split.
    + constructor; [| exact IH1]. intros Hin. apply IH2 in Hin.
      destruct Hin as (t' & Ht' & Hin' & Hn').
      apply Hj. rewrite <- (Hinj t' t Ht' Ht Hn'). exact Hin'.
    + intros n. split.
      * intros [Hn | Hin].
        -- exists t. auto.
        -- apply IH2 in Hin. destruct Hin as (t' & H1 & H2 & H3). exists t'. auto.
      * intros (t' & Ht' & [He | Hin] & Hn).
        -- left. rewrite <- Hn. symmetry.
           assert (Some t' = Some t) as E; [| congruence].
           rewrite <- (Hby t' Ht'), <- (Hby t Ht). congruence.
        -- right. apply IH2. exists t'. auto.
Qed.

Lemma stored_tag_names_spec db created k obj ext ts tags :
  Forall2 (tag_at (HourTag_rows db ++ ext)) tags ts ->
  List.NoDup (stored_tag_names (imported_db db created k obj ext ts) (S k))
  /\ forall n, In n (stored_tag_names (imported_db db created k obj ext ts) (S k))
               <-> In n tags.
Proof.
  intros H. rewrite stored_tag_names_imported.
  destruct (Forall2_tag_at _ _ _ H) as (Hnames & Hby & Hinj).
  destruct (names_by_pk (HourTag_rows db ++ ext) ts
              (nodup Nat.eq_dec (List.map tag_pk ts)) Hby Hinj) as [H1 H2].
  { apply NoDup_nodup. }
  { intros j Hj. apply nodup_In, in_map_iff in Hj. destruct Hj as (t & He & Ht). eauto. }
  split; [exact H1 |].
  intros n. rewrite H2, <- Hnames, in_map_iff. split.
  - intros (t & Ht & _ & Hn). eauto.
  - intros (t & Hn & Ht). exists t. split; [exact Ht |]. split; [| exact Hn].
    apply nodup_In, in_map. exact Ht.
Qed.

Lemma unpack_row_tags row coder db c f :
  fst (unpack_row row coder db) = Ok (c, f) -> f_tags f = row_tags row coder.
Proof.
  intros H. unfold unpack_row, row_tags in *. destruct coder as [c0 |].
  - do 9 (destruct row as [| ? row]; [simpl in H; discriminate H |]).
    destruct row; [| simpl in H; discriminate H].
    simpl in H. inversion H; subst. reflexivity.
  - do 11 (destruct row as [| ? row]; try (simpl in H; discriminate H)).
    unfold bind in H. rewrite Coder_get_eq in H.
    destruct (match objects_get _ _ _ with Ok _ => _ | Raise _ => _ end);
      simpl in H; inversion H; subst. reflexivity.
Qed.

Lemma Coder_init_ok u c : Coder_init u = Ok c -> user c = u /\ projects c = _iter_projects u.
Proof.
  unfold Coder_init. destruct (_iter_projects u) eqn:E; intros H; inversion H; subst.
  simpl. auto.
Qed.

Lemma unpack_row_shape row coder db c f :
  fst (unpack_row row coder db) = Ok (c, f) ->
  row = (match coder with None => [username (user c)] | Some _ => [] end)
        ++ [f_proj f; f_date f; f_strt f; f_end f; f_hrs f; f_tags f; f_repo f; f_iss f;
            f_comment f]
  /\ (forall c0, coder = Some c0 -> c = c0).
Proof.
  intros H. unfold unpack_row in H. destruct coder as [c0 |].
  - do 9 (destruct row as [| ? row]; [simpl in H; discriminate H |]).
    destruct row; [| simpl in H; discriminate H].
    simpl in H. inversion H; subst. simpl. split; [reflexivity |]. congruence.
  - do 11 (destruct row as [| ? row]; try (simpl in H; discriminate H)).
    unfold bind in H. rewrite Coder_get_eq in H.
    destruct (objects_get _ _ _) as [u |] eqn:Eu; [| simpl in H; discriminate H].
    destruct (Coder_init u) as [c' |] eqn:Ec; simpl in H; [| discriminate H].
    inversion H; subst. simpl. split; [| discriminate].
    apply Coder_init_ok in Ec. destruct Ec as [-> _].
    apply objects_get_ok in Eu.
    assert (Hin : In u (List.filter (fun u => String.eqb (username u) s) (User_rows db)))
      by (rewrite Eu; left; reflexivity).
    apply filter_In in Hin. destruct Hin as [_ Hin]. apply String.eqb_eq in Hin.
    rewrite Hin. reflexivity.
Qed.





Lemma explicit_project_name f db p :
  fst (explicit_project f db) = Ok (Some p) -> project_name p = f_proj f.
Proof.
  unfold explicit_project. destruct (truthy (f_proj f)); [| discriminate].
  unfold Project_get, bind, query, lift, ret. simpl.
  destruct (objects_get _ _ _) as [p' |] eqn:E; simpl; [| discriminate].
  intros H. inversion H; subst. apply objects_get_ok in E.
  assert (Hin : In p (List.filter (fun p => String.eqb (project_name p) (f_proj f))
                                  (Project_rows db))) by (rewrite E; left; reflexivity).
  apply filter_In in Hin. destruct Hin as [_ Hin]. apply String.eqb_eq, Hin.
Qed.

Lemma project_outcome_name f db p :
  project_outcome f db = Ok p -> f_proj f <> "" -> project_name p = f_proj f.
Proof.
  unfold project_outcome. intros H Hne.
  destruct (fst (explicit_project f db)) as [[pa |] |] eqn:E; [| | discriminate].
  - apply explicit_project_name in E.
    destruct (derived_project W f); [destruct (Project_eq pa p0) |]; inversion H; subst;
      exact E.
  - exfalso. unfold explicit_project in E.
    destruct (truthy (f_proj f)) eqn:Et.
    + unfold Project_get, bind, query, lift, ret in E. simpl in E.
      destruct (objects_get _ _ _); discriminate.
    + destruct (f_proj f); [congruence | discriminate].
Qed.



End Properties.

(* ================================================================== *)
(** * The properties on the sample installation *)

Lemma sample_parse_alice :
  _csv_parse Sample.row_alice None Sample.db0 = (Ok Sample.alice_entry, Sample.db0).
Proof. reflexivity. Qed.

Lemma sample_parse_alice_fst :
  fst (_csv_parse Sample.row_alice None Sample.db0) = Ok Sample.alice_entry.
Proof. reflexivity. Qed.


Lemma sample_none_stored k (r : HoursFields Sample.world) :
  stored Sample.db0 k = Some r -> ~ same_identity r Sample.alice_entry.
Proof. intros H. destruct k; simpl in H; discriminate H. Qed.




Lemma sample_column_keeps : column_keeps (W:=Sample.world) (8000 : Decimal Sample.world).
Proof. reflexivity. Qed.








(** The example of the specification: a first import creates the entry
    with its two tags; the same row with a later end finds it again, and
    the one stored entry ends at 18:00. *)
Example sample_import_twice :
  csv_get_or_create Sample.row_alice None Sample.db0
  = (Ok (Sample.alice_stored, true), Sample.db_alice)
  /\ csv_get_or_create Sample.row_alice None Sample.db_alice
     = (Ok (Sample.alice_stored, false), Sample.db_alice)
  /\ csv_get_or_create Sample.row_alice_later None Sample.db_alice
     = (Ok ({| pk := Some 1; fields := Sample.alice_later_row; _tags_to_be := None |}, false),
        Sample.db_alice_later)
  /\ stored_tag_names Sample.db_alice 1 = ["dev"; "urgent"].
Proof. repeat split. Qed.



(** A time of midnight is read, and dumped as the empty string. *)
Example midnight_is_dumped_empty :
  parse_time "00:00" TIME_FORMATS = Some {| hour := 0; minute := 0; second := 0 |}
  /\ frmt_time (parse_time "00:00" TIME_FORMATS) = "".
Proof. vm_compute. split; reflexivity. Qed.

(** C4 fails on the example row.  After the lookup of a first import the
    hours table already holds the entry, without its end time, its raw
    input and its tags, before any tag is resolved; and on a tag table
    that holds a name twice the import fails and leaves that entry. *)
Lemma csv_get_or_create_failure_counterexample :
  (csv_get_or_create_lookup Sample.row_alice None Sample.db0
   = (Ok (Sample.alice_entry,
          ({| pk := Some 1; fields := Sample.alice_row_created; _tags_to_be := None |}, true)),
      Sample.db_alice_created)
   /\ Hours_rows Sample.db0 = []
   /\ Hours_rows Sample.db_alice_created = [Sample.alice_row_created]
   /\ end_time Sample.alice_entry = Some {| hour := 17; minute := 0; second := 0 |}
   /\ end_time Sample.alice_row_created = None
   /\ input_data_json Sample.alice_row_created = None
   /\ _tags_to_be Sample.alice_entry = Some ["dev"; "urgent"]
   /\ stored_tag_names Sample.db_alice_created 1 = [])
  /\ (csv_get_or_create Sample.row_alice None Sample.db_twins
      = (Raise (MultipleObjectsReturned HourTag_model), Sample.db_twins_failed)
      /\ Hours_rows Sample.db_twins = []
      /\ Hours_rows Sample.db_twins_failed = [Sample.alice_row_created]
      /\ stored_tag_names Sample.db_twins_failed 1 = []
      /\ Sample.db_twins_failed <> Sample.db_twins).
Proof.
  split.
  - repeat split.
  - split; [reflexivity |]. split; [reflexivity |]. split; [reflexivity |].
    split; [reflexivity |]. intros H. discriminate H.
Qed.

(** C5 fails on a row with no tags whose user is unknown: the parser
    fails on the user. *)
Lemma csv_parse_tags_counterexample :
  row_tags Sample.row_ghost None = ""
  /\ normalize_tags (row_tags Sample.row_ghost None) = []
  /\ _csv_parse Sample.row_ghost None Sample.db0
     = (Raise (DoesNotExist User_model), Sample.db0)
  /\ fst (_csv_parse Sample.row_ghost None Sample.db0) <> Raise AtLeastOneTagRequired.
Proof.
  assert (E : _csv_parse Sample.row_ghost None Sample.db0
              = (Raise (DoesNotExist User_model), Sample.db0)) by reflexivity.
  split; [reflexivity |]. split; [reflexivity |]. split; [exact E |].
  rewrite E. intros H. discriminate H.
Qed.

(** C6, as amended, on the example row. *)
Lemma csv_parse_project_witness :
  fst (explicit_project Sample.alice_fields Sample.db0) = Ok (Some Sample.Acme)
  /\ forall obj, fst (_csv_parse Sample.row_alice None Sample.db0) = Ok obj ->
                 project obj = Sample.Acme.
Proof.
  destruct (csv_parse_project Sample.row_alice None Sample.db0
              Sample.alice_coder Sample.alice_fields
              ltac:(reflexivity)
              ltac:(intros H; discriminate H))
    as (_ & H2 & _ & _ & _ & _ & H7).
  assert (Ha : fst (explicit_project Sample.alice_fields Sample.db0) = Ok (Some Sample.Acme)).
  { apply H2. split; [intros H; discriminate H | reflexivity]. }
  split; [exact Ha |].
  intros obj Hobj. destruct (H7 obj Hobj) as (_ & H & _). apply H, Ha.
Defined.

(** C6 fails twice.  Neither candidate resolves for a project name nobody
    knows, and the parser fails on the lookup, not with [ProjectRequired];
    and a row whose candidates disagree fails on its tags when it has
    none, not with [ProjectMismatch]. *)
Lemma csv_parse_project_counterexample :
  (fst (unpack_row Sample.row_nope None Sample.db0) = Ok (Sample.alice_coder, Sample.nope_fields)
   /\ List.filter (fun p => String.eqb (project_name p) "Nope") (Project_rows Sample.db0) = []
   /\ derived_project Sample.world Sample.nope_fields = None
   /\ fst (_csv_parse Sample.row_nope None Sample.db0) = Raise (DoesNotExist Project_model)
   /\ fst (_csv_parse Sample.row_nope None Sample.db0) <> Raise ProjectRequired)
  /\ (fst (unpack_row Sample.row_disagree None Sample.db0)
      = Ok (Sample.alice_coder, Sample.disagree_fields)
      /\ fst (explicit_project Sample.disagree_fields Sample.db0) = Ok (Some Sample.Globex)
      /\ derived_project Sample.world Sample.disagree_fields = Some Sample.Acme
      /\ fst (_csv_parse Sample.row_disagree None Sample.db0) = Raise AtLeastOneTagRequired
      /\ fst (_csv_parse Sample.row_disagree None Sample.db0) <> Raise ProjectMismatch).
Proof.
  assert (E1 : fst (_csv_parse Sample.row_nope None Sample.db0)
               = Raise (DoesNotExist Project_model)) by reflexivity.
  assert (E2 : fst (_csv_parse Sample.row_disagree None Sample.db0)
               = Raise AtLeastOneTagRequired) by reflexivity.
  split.
  - split; [reflexivity |]. split; [reflexivity |]. split; [reflexivity |].
    split; [exact E1 |]. rewrite E1. intros H. discriminate H.
  - split; [reflexivity |]. split; [reflexivity |]. split; [reflexivity |].
    split; [exact E2 |]. rewrite E2. intros H. discriminate H.
Qed.

(** C8 fails on a row whose project resolves and is not the coder's when
    its date is malformed: the parser fails on the date.  It fails as
    well when the date and the amount are good and a field of the row is
    not UTF-8: the parser fails on the dump of the row. *)
Lemma csv_parse_authorized_counterexample :
  (fst (unpack_row Sample.row_carol None Sample.db0)
   = Ok (Sample.carol_coder, Sample.carol_fields)
   /\ project_outcome Sample.carol_fields Sample.db0 = Ok Sample.Acme
   /\ existsb (Project_eq Sample.Acme) (projects Sample.carol_coder) = false
   /\ fst (_csv_parse Sample.row_carol None Sample.db0) = Raise (ValueError "strptime")
   /\ fst (_csv_parse Sample.row_carol None Sample.db0) <> Raise NotAllowed)
  /\ (fst (unpack_row Sample.row_carol_bytes None Sample.db0)
      = Ok (Sample.carol_coder, Sample.carol_bytes_fields)
      /\ project_outcome Sample.carol_bytes_fields Sample.db0 = Ok Sample.Acme
      /\ parse_date (f_date Sample.carol_bytes_fields)
         = Ok {| year := 2024; month := 3; day := 1 |}
      /\ parse_amount (W:=Sample.world) (f_hrs Sample.carol_bytes_fields) = Ok 8000
      /\ forallb (decodes Sample.world) Sample.row_carol_bytes = false
      /\ fst (_csv_parse Sample.row_carol_bytes None Sample.db0) = Raise UnicodeDecodeError
      /\ fst (_csv_parse Sample.row_carol_bytes None Sample.db0) <> Raise NotAllowed).
Proof.
  assert (E : fst (_csv_parse Sample.row_carol None Sample.db0)
              = Raise (ValueError "strptime")) by reflexivity.
  assert (E' : fst (_csv_parse Sample.row_carol_bytes None Sample.db0)
               = Raise UnicodeDecodeError) by reflexivity.
  split.
  - split; [reflexivity |]. split; [reflexivity |]. split; [reflexivity |].
    split; [exact E |]. rewrite E. intros H. discriminate H.
  - split; [reflexivity |]. split; [reflexivity |]. split; [reflexivity |].
    split; [reflexivity |]. split; [reflexivity |].
    split; [exact E' |]. rewrite E'. intros H. discriminate H.
Qed.

(** The tag dev twice in a row: twice on the pending entry and in its
    dump, once on the stored entry. *)
Example sample_dev_dev :
  _csv_parse Sample.row_dev_dev None Sample.db0 = (Ok Sample.dev_dev_entry, Sample.db0)
  /\ _tags_to_be Sample.dev_dev_entry = Some ["dev"; "dev"]
  /\ fst (csv_dump_values Sample.dev_dev_entry false Sample.db0)
     = Ok ["alice"; "Acme"; "2024-03-01"; "09:00"; "17:00"; "8.00"; "dev,dev";
           "repo-x"; "42"; ""]
  /\ csv_get_or_create Sample.row_dev_dev None Sample.db0
     = (Ok ({| pk := Some 1; fields := fields Sample.dev_dev_entry; _tags_to_be := None |},
            true), Sample.db_dev_dev)
  /\ stored_tag_names Sample.db_dev_dev 1 = ["dev"].
Proof. repeat split. Qed.




(* ================================================================== *)
(** * Further properties of the module *)

(** ** Tags, times and dates as the codec reads and writes them *)

Lemma lower_ascii_idem c : lower_ascii (lower_ascii c) = lower_ascii c.
Proof. destruct c as [[] [] [] [] [] [] [] []]; reflexivity. Qed.

Lemma is_space_lower_ascii c : is_space (lower_ascii c) = is_space c.
Proof. destruct c as [[] [] [] [] [] [] [] []]; reflexivity. Qed.

Lemma lower_ascii_comma c : Ascii.eqb (lower_ascii c) "," = Ascii.eqb c ",".
Proof. destruct c as [[] [] [] [] [] [] [] []]; reflexivity. Qed.

Lemma lower_idem s : lower (lower s) = lower s.
Proof. induction s as [| c s IH]; simpl; [reflexivity |]. rewrite lower_ascii_idem, IH. reflexivity. Qed.

Lemma lstrip_lower s : lstrip (lower s) = lower (lstrip s).
Proof.
  induction s as [| c s IH]; simpl; [reflexivity |].
  rewrite is_space_lower_ascii. destruct (is_space c); [exact IH | reflexivity].
Qed.

Lemma rstrip_lower s : rstrip (lower s) = lower (rstrip s).
Proof.
  induction s as [| c s IH]; simpl; [reflexivity |].
  rewrite IH, is_space_lower_ascii.
  destruct (rstrip s); simpl; [destruct (is_space c) |]; reflexivity.
Qed.

Lemma strip_lower s : strip (lower s) = lower (strip s).
Proof. unfold strip. rewrite lstrip_lower, rstrip_lower. reflexivity. Qed.

Lemma rstrip_idem s : rstrip (rstrip s) = rstrip s.
Proof.
  induction s as [| c s IH]; simpl; [reflexivity |].
  destruct (rstrip s) as [| d r] eqn:E.
  - destruct (is_space c) eqn:Ec; simpl; [reflexivity |]. rewrite Ec. reflexivity.
  - change (rstrip (String c (String d r))) with
      (match rstrip (String d r) with
       | EmptyString => if is_space c then EmptyString else String c EmptyString
       | r0 => String c r0 end).
    rewrite IH. reflexivity.
Qed.

Lemma lstrip_head s :
  lstrip s = "" \/ exists c r, lstrip s = String c r /\ is_space c = false.
Proof.
  induction s as [| c s IH]; simpl; [left; reflexivity |].
  destruct (is_space c) eqn:E; [exact IH |]. right. eauto.
Qed.

Lemma lstrip_rstrip_head c r :
  is_space c = false -> lstrip (rstrip (String c r)) = rstrip (String c r).
Proof.
  intros E. simpl. destruct (rstrip r); [rewrite E |]; simpl; rewrite E; reflexivity.
Qed.

Lemma strip_idem s : strip (strip s) = strip s.
Proof.
  unfold strip. destruct (lstrip_head s) as [E | (c & r & E & Ec)]; rewrite E.
  - reflexivity.
  - rewrite (lstrip_rstrip_head c r Ec). apply rstrip_idem.
Qed.

Lemma contains_lower s : contains "," (lower s) = contains "," s.
Proof.
  induction s as [| c s IH]; simpl; [reflexivity |].
  rewrite lower_ascii_comma, IH. reflexivity.
Qed.

Lemma contains_lstrip a s : contains a s = false -> contains a (lstrip s) = false.
Proof.
  induction s as [| c s IH]; simpl; [reflexivity |].
  intros H. apply orb_false_iff in H. destruct H as [H1 H2].
  destruct (is_space c); [exact (IH H2) |]. simpl. rewrite H1, H2. reflexivity.
Qed.

Lemma contains_rstrip a s : contains a s = false -> contains a (rstrip s) = false.
Proof.
  induction s as [| c s IH]; simpl; [reflexivity |].
  intros H. apply orb_false_iff in H. destruct H as [H1 H2].
  specialize (IH H2).
  destruct (rstrip s) as [| d r].
  - destruct (is_space c); simpl; [reflexivity |]. rewrite H1. reflexivity.
  - simpl in *. rewrite H1, IH. reflexivity.
Qed.

Lemma split_pieces sep s : Forall (fun x => contains sep x = false) (split sep s).
Proof.
  induction s as [| c s IH]; simpl.
  - repeat constructor.
  - destruct (Ascii.eqb c sep) eqn:E.
    + constructor; [reflexivity | exact IH].
    + destruct (split sep s) as [| w ws]; [repeat constructor; simpl; rewrite E; reflexivity |].
      inversion IH; subst. constructor; [| assumption]. simpl. rewrite E. assumption.
Qed.

(** The names [normalize_tags] returns are as the parser leaves them. *)
Lemma normalize_tags_normal s : Forall tag_name_normal (normalize_tags s).
Proof.
  unfold normalize_tags.
  pose proof (split_pieces "," s) as H.
  induction H as [| x l Hx _ IH]; simpl; [constructor |].
  destruct (truthy (lower (strip x))) eqn:E; [| exact IH].
  constructor; [| exact IH]. repeat split.
  - intros Hn. rewrite Hn in E. discriminate E.
  - rewrite strip_lower, lower_idem, strip_idem. reflexivity.
  - rewrite contains_lower. unfold strip. apply contains_rstrip, contains_lstrip, Hx.
Qed.

Lemma normalize_tags_cons x s :
  contains "," x = false ->
  normalize_tags (x +:+ String "," s)
  = (if truthy (lower (strip x)) then [lower (strip x)] else []) ++ normalize_tags s.
Proof.
  intros H. unfold normalize_tags. rewrite (split_app_sep "," x s H). simpl.
  destruct (truthy (lower (strip x))); reflexivity.
Qed.

Lemma normalize_tags_lstrip s : normalize_tags (" " +:+ s) = normalize_tags s.
Proof.
  unfold normalize_tags. change (" " +:+ s) with (String " " s). cbn [split].
  change (Ascii.eqb " " ",") with false. cbv iota.
  destruct (split "," s) as [| w ws] eqn:E; [exfalso; exact (elem_of_split_nonempty _ _ E) |].
  reflexivity.
Qed.

Lemma normalize_tags_join_space l :
  Forall tag_name_normal l -> normalize_tags (join ", " l) = l.
Proof.
  induction 1 as [| t l Ht Hl IH]; [reflexivity |].
  destruct l as [| y l].
  - simpl. apply (normalize_tags_join [t]); [discriminate | constructor; [exact Ht | constructor]].
  - change (join ", " (t :: y :: l)) with (t +:+ String "," (" " +:+ join ", " (y :: l))).
    destruct Ht as (Hne & Hlo & Hc).
    rewrite (normalize_tags_cons _ _ Hc), Hlo, normalize_tags_lstrip, IH.
    destruct t; [congruence | reflexivity].
Qed.

Lemma normalize_tags_join_all l :
  Forall tag_name_normal l -> normalize_tags (join "," l) = l.
Proof.
  intros H. destruct l as [| x l]; [reflexivity |].
  apply normalize_tags_join; [discriminate | exact H].
Qed.

(** X1.  The tag names [_csv_parse] reads from a tags field are each not
    empty, trimmed, in lower case and free of commas; and the field that
    [csv_dump] writes for them (joined by a comma) and the text that
    [tags_string] gives (joined by a comma and a blank) are read back as
    the same names, in the same order. *)
Theorem normalize_tags_idempotent (s : string) :
  Forall tag_name_normal (normalize_tags s)
  /\ normalize_tags (join "," (normalize_tags s)) = normalize_tags s
  /\ normalize_tags (join ", " (normalize_tags s)) = normalize_tags s.
Proof.
  pose proof (normalize_tags_normal s) as H.
  split; [exact H |]. split.
  - apply normalize_tags_join_all. exact H.
  - apply normalize_tags_join_space. exact H.
Qed.

Lemma datetime_time_valid h m s t :
  datetime_time h m s = Some t ->
  t = {| hour := h; minute := m; second := s |} /\ h < 24 /\ m < 60 /\ s < 60.
Proof.
  unfold datetime_time. destruct ((h <? 24) && (m <? 60) && (s <? 60)) eqn:E; [| discriminate].
  intros [= <-]. rewrite !andb_true_iff, !Nat.ltb_lt in E. tauto.
Qed.

Lemma try_format_valid x frmt t :
  try_format x frmt = Some t -> hour t < 24 /\ minute t < 60 /\ second t < 60.
Proof.
  unfold try_format. destruct (strptime x frmt) as [st |]; [| discriminate].
  intros H. apply datetime_time_valid in H. destruct H as (-> & H). exact H.
Qed.

Lemma parse_time_valid x fmts t :
  parse_time x fmts = Some t -> hour t < 24 /\ minute t < 60 /\ second t < 60.
Proof.
  unfold parse_time. destruct (truthy x); [| discriminate].
  induction fmts as [| f fmts IH]; cbn [parse_time_loop]; [discriminate |].
  destruct (try_format x f) as [t' |] eqn:E; [| exact IH].
  intros [= <-]. exact (try_format_valid _ _ _ E).
Qed.

Lemma parse_frmt_time t :
  hour t < 24 -> minute t < 60 ->
  parse_time (frmt_time (Some t)) TIME_FORMATS
  = if time_truthy t then Some {| hour := hour t; minute := minute t; second := 0 |} else None.
Proof.
  intros Hh Hm. unfold frmt_time. cbv iota beta. destruct (time_truthy t); [| reflexivity].
  unfold strftime_HM. exact (parse_time_HH_MM (hour t) (minute t) Hh Hm).
Qed.

(** X2.  Whatever [parse_time] reads, from any list of formats, is a time
    of day within the day.  Written by [csv_dump] and read again, it keeps
    its hour and minute and loses its seconds, and midnight, which is
    written as the empty string, comes back as [None]: the time comes back
    as it was exactly when it has no seconds and is not midnight. *)
Theorem parse_time_of_dumped (x : string) (fmts : list string) :
  match parse_time x fmts with
  | None => parse_time (frmt_time None) TIME_FORMATS = None
  | Some t =>
      (hour t < 24 /\ minute t < 60 /\ second t < 60)
      /\ parse_time (frmt_time (Some t)) TIME_FORMATS
         = (if time_truthy t
            then Some {| hour := hour t; minute := minute t; second := 0 |}
            else None)
      /\ (parse_time (frmt_time (Some t)) TIME_FORMATS = Some t
          <-> second t = 0 /\ (hour t, minute t) <> (0, 0))
  end.
Proof.
  destruct (parse_time x fmts) as [t |] eqn:E; [| reflexivity].
  pose proof (parse_time_valid _ _ _ E) as (Hh & Hm & Hs).
  split; [auto |]. rewrite (parse_frmt_time t Hh Hm). split; [reflexivity |].
  destruct t as [h m s]. unfold time_truthy. cbn [hour minute second].
  destruct h as [| h], m as [| m], s as [| s]; cbn; split;
    try (intros [= ]; fail); try (intros [? ?]; congruence);
    try (intros _; split; [reflexivity | congruence]); try reflexivity.
Qed.

Lemma re_match_head it items s g r tl found r' :
  candidates it s = (g, r) :: tl ->
  re_match items r = Some (found, r') ->
  re_match (it :: items) s
  = Some (match g with Some c => c :: found | None => found end, r').
Proof.
  intros Hc Hr. cbn [re_match]. rewrite Hc. cbn [first_success fst snd]. rewrite Hr. reflexivity.
Qed.

Lemma int_pad2 n : n < 100 -> int (pad2 n) = n.
Proof.
  intros H. unfold int, pad2. rewrite !int_acc_digit. cbn [int_acc].
  pose proof (Nat.div_mod_eq n 10) as E0.
  pose proof (Nat.div_mod_eq (n / 10) 10) as E1.
  pose proof (Nat.mod_upper_bound n 10 ltac:(discriminate)).
  pose proof (Nat.mod_upper_bound (n / 10) 10 ltac:(discriminate)).
  generalize dependent (n mod 10). generalize dependent ((n / 10) mod 10).
  generalize dependent (n / 10 / 10). generalize dependent (n / 10).
  intros. lia.
Qed.

Lemma candidates_I h rest :
  1 <= h <= 12 ->
  exists tl, candidates (ReGroup dir_I) (pad2 h +:+ rest) = (Some (dir_I, pad2 h), rest) :: tl.
Proof.
  intros [H1 H2].
  do 13 (destruct h as [| h]; [try lia; eexists; reflexivity |]). lia.
Qed.

Lemma candidates_M m rest :
  m < 60 ->
  exists tl, candidates (ReGroup dir_M) (pad2 m +:+ rest) = (Some (dir_M, pad2 m), rest) :: tl.
Proof.
  intros H.
  do 60 (destruct m as [| m]; [eexists; reflexivity |]). lia.
Qed.

Lemma candidates_S s rest :
  s < 60 ->
  exists tl, candidates (ReGroup dir_S) (pad2 s +:+ rest) = (Some (dir_S, pad2 s), rest) :: tl.
Proof.
  intros H.
  do 60 (destruct s as [| s]; [eexists; reflexivity |]). lia.
Qed.

Lemma candidates_H h rest :
  h < 24 ->
  exists tl, candidates (ReGroup dir_H) (pad2 h +:+ rest) = (Some (dir_H, pad2 h), rest) :: tl.
Proof.
  intros H.
  do 24 (destruct h as [| h]; [eexists; reflexivity |]). lia.
Qed.

Lemma pattern_12h :
  pattern "%I:%M:%S %p"
  = Some [ReGroup dir_I; ReLiteral ":"; ReGroup dir_M; ReLiteral ":"; ReGroup dir_S;
          ReBlanks; ReGroup dir_p].
Proof. reflexivity. Qed.

Lemma pattern_24h :
  pattern "%H:%M" = Some [ReGroup dir_H; ReLiteral ":"; ReGroup dir_M].
Proof. reflexivity. Qed.

Lemma re_match_12h h m s pm upper :
  1 <= h <= 12 -> m < 60 -> s < 60 ->
  re_match [ReGroup dir_I; ReLiteral ":"; ReGroup dir_M; ReLiteral ":"; ReGroup dir_S;
            ReBlanks; ReGroup dir_p]
           (pad2 h +:+ ":" +:+ pad2 m +:+ ":" +:+ pad2 s +:+ " " +:+ ampm_text pm upper)
  = Some ([(dir_I, pad2 h); (dir_M, pad2 m); (dir_S, pad2 s); (dir_p, ampm_text pm upper)],
          EmptyString).
Proof.
  intros Hh Hm Hs.
  destruct (candidates_I h (":" +:+ pad2 m +:+ ":" +:+ pad2 s +:+ " " +:+ ampm_text pm upper) Hh)
    as [t1 E1].
  destruct (candidates_M m (":" +:+ pad2 s +:+ " " +:+ ampm_text pm upper) Hm) as [t2 E2].
  destruct (candidates_S s (" " +:+ ampm_text pm upper) Hs) as [t3 E3].
  assert (Etail : re_match [ReBlanks; ReGroup dir_p] (" " +:+ ampm_text pm upper)
                  = Some ([(dir_p, ampm_text pm upper)], EmptyString))
    by (destruct pm, upper; reflexivity).
  pose proof (re_match_head _ _ _ _ _ _ _ _ E3 Etail) as R5.
  assert (C4 : candidates (ReLiteral ":") (":" +:+ pad2 s +:+ " " +:+ ampm_text pm upper)
               = [(None, pad2 s +:+ " " +:+ ampm_text pm upper)]) by reflexivity.
  pose proof (re_match_head _ _ _ _ _ _ _ _ C4 R5) as R4.
  pose proof (re_match_head _ _ _ _ _ _ _ _ E2 R4) as R3.
  assert (C2 : candidates (ReLiteral ":")
                 (":" +:+ pad2 m +:+ ":" +:+ pad2 s +:+ " " +:+ ampm_text pm upper)
               = [(None, pad2 m +:+ ":" +:+ pad2 s +:+ " " +:+ ampm_text pm upper)])
    by reflexivity.
  pose proof (re_match_head _ _ _ _ _ _ _ _ C2 R3) as R2.
  exact (re_match_head _ _ _ _ _ _ _ _ E1 R2).
Qed.

Lemma time_of_found_12h a b c p :
  time_of_found [(dir_I, a); (dir_M, b); (dir_S, c); (dir_p, p)]
  = Some {| tm_year := 1900; tm_mon := 1; tm_mday := 1;
            tm_hour := hour_of_I (int a) (lower p); tm_min := int b; tm_sec := int c |}.
Proof. reflexivity. Qed.

Lemma hour_of_I_lt h ampm : 1 <= h <= 12 -> hour_of_I h ampm < 24.
Proof.
  intros H. unfold hour_of_I.
  destruct (String.eqb ampm "pm"); destruct (h =? 12) eqn:E; try lia.
  apply Nat.eqb_neq in E. lia.
Qed.

Lemma lower_ampm_text pm upper : lower (ampm_text pm upper) = if pm then "pm" else "am".
Proof. destruct pm, upper; reflexivity. Qed.

Lemma try_format_12h h m s pm upper :
  1 <= h <= 12 -> m < 60 -> s < 60 ->
  let x := pad2 h +:+ ":" +:+ pad2 m +:+ ":" +:+ pad2 s +:+ " " +:+ ampm_text pm upper in
  try_format x "%H:%M" = None
  /\ try_format x "%I:%M:%S %p"
     = Some {| hour := hour_of_I h (if pm then "pm" else "am"); minute := m; second := s |}.
Proof.
  intros Hh Hm Hs x. split.
  - unfold try_format, strptime. rewrite pattern_24h.
    destruct (candidates_H h (":" +:+ pad2 m +:+ ":" +:+ pad2 s +:+ " " +:+ ampm_text pm upper)
                ltac:(lia)) as [t1 E1].
    destruct (candidates_M m (":" +:+ pad2 s +:+ " " +:+ ampm_text pm upper) Hm) as [t2 E2].
    assert (R3 : re_match [] (":" +:+ pad2 s +:+ " " +:+ ampm_text pm upper)
                 = Some ([], ":" +:+ pad2 s +:+ " " +:+ ampm_text pm upper)) by reflexivity.
    pose proof (re_match_head _ _ _ _ _ _ _ _ E2 R3) as R2.
    assert (C1 : candidates (ReLiteral ":")
                   (":" +:+ pad2 m +:+ ":" +:+ pad2 s +:+ " " +:+ ampm_text pm upper)
                 = [(None, pad2 m +:+ ":" +:+ pad2 s +:+ " " +:+ ampm_text pm upper)])
      by reflexivity.
    pose proof (re_match_head _ _ _ _ _ _ _ _ C1 R2) as R1.
    pose proof (re_match_head _ _ _ _ _ _ _ _ E1 R1) as R0.
    unfold x. rewrite R0. reflexivity.
  - unfold try_format, strptime. rewrite pattern_12h. unfold x.
    rewrite (re_match_12h h m s pm upper Hh Hm Hs), time_of_found_12h.
    cbn [tm_hour tm_min tm_sec].
    rewrite !int_pad2 by lia. rewrite lower_ampm_text.
    unfold datetime_time.
    pose proof (hour_of_I_lt h (if pm then "pm" else "am") Hh) as Hlt.
    apply Nat.ltb_lt in Hlt, Hm, Hs. rewrite Hlt, Hm, Hs. reflexivity.
Qed.

(** X3.  A time written hh:mm:ss AM or hh:mm:ss PM, in upper or in lower
    case, with the hour from 01 to 12, is read by [parse_time] on the
    manager's formats: 12 AM is hour 0, 12 PM is hour 12, any other hour
    stands as it is before noon and twelve later after noon; minute and
    second are kept. *)
Theorem parse_time_12_hour (h m s : nat) (pm upper : bool) :
  1 <= h <= 12 -> m < 60 -> s < 60 ->
  parse_time (pad2 h +:+ ":" +:+ pad2 m +:+ ":" +:+ pad2 s +:+ " " +:+ ampm_text pm upper)
             TIME_FORMATS
  = Some {| hour := (if pm then (if h =? 12 then 12 else h + 12)
                     else (if h =? 12 then 0 else h));
            minute := m; second := s |}.
Proof.
  intros Hh Hm Hs.
  destruct (try_format_12h h m s pm upper Hh Hm Hs) as [E1 E2].
  rewrite parse_time_unfold, E1, E2.
  unfold hour_of_I. destruct pm; reflexivity.
Qed.

Lemma time_of_found_valid found t :
  time_of_found found = Some t -> valid_date (tm_year t) (tm_mon t) (tm_mday t) = true.
Proof.
  unfold time_of_found. cbv zeta.
  match goal with
  | |- context [if valid_date ?a ?b ?c then _ else _] => destruct (valid_date a b c) eqn:E
  end; [| discriminate].
  intros [= <-]. exact E.
Qed.

Lemma strptime_valid x frmt t :
  strptime x frmt = Some t -> valid_date (tm_year t) (tm_mon t) (tm_mday t) = true.
Proof.
  unfold strptime. destruct (pattern frmt) as [items |]; [| discriminate].
  destruct (re_match items x) as [[found [| c r]] |]; try discriminate.
  apply time_of_found_valid.
Qed.

Lemma parse_date_valid s d :
  parse_date s = Ok d -> valid_date (year d) (month d) (day d) = true.
Proof.
  unfold parse_date. destruct (strptime s DATE_FORMAT) as [t |] eqn:E; [| discriminate].
  intros [= <-]. exact (strptime_valid _ _ _ E).
Qed.

(** ** The lines csv.writer writes *)

Lemma string_app_assoc (a b c : string) : (a +:+ b) +:+ c = a +:+ (b +:+ c).
Proof.
  induction a as [| x a IH]; [reflexivity |].
  change (String x ((a +:+ b) +:+ c) = String x (a +:+ (b +:+ c))). rewrite IH. reflexivity.
Qed.

Lemma c_string_nul_free v : nul_free v -> c_string v = v.
Proof.
  unfold nul_free. induction v as [| c v IH]; [reflexivity |].
  cbn [contains c_string]. intros H. apply orb_false_iff in H. destruct H as [Hc Hv].
  destruct (nat_of_ascii c =? 0) eqn:E.
  - apply Nat.eqb_eq in E.
    assert (c = ascii_of_nat 0) by (rewrite <- E, ascii_nat_embedding; reflexivity).
    subst c. discriminate Hc.
  - rewrite (IH Hv). reflexivity.
Qed.

Lemma map_c_string_nul_free vs : Forall nul_free vs -> List.map c_string vs = vs.
Proof.
  induction 1 as [| v vs Hv _ IH]; [reflexivity |].
  cbn [List.map]. rewrite (c_string_nul_free v Hv), IH. reflexivity.
Qed.

Lemma writerow_cons u v vs :
  writerow (u :: v :: vs) = csv_field (c_string u) +:+ ";" +:+ writerow (v :: vs).
Proof.
  unfold writerow. cbn [List.map].
  change (join ";" (?a :: ?b :: ?l)) with (a +:+ ";" +:+ join ";" (b :: l)).
  unfold csv_field. rewrite !string_app_assoc. reflexivity.
Qed.

Lemma needs_quotes_cons c s : needs_quotes (String c s) = special c || needs_quotes s.
Proof. reflexivity. Qed.

Lemma read_plain_app v r c r0 :
  needs_quotes v = false -> r = String c r0 -> special c = true ->
  read_plain (v +:+ r) = (v, r).
Proof.
  intros Hv -> Hc. induction v as [| x v IH].
  - change ("" +:+ String c r0) with (String c r0). cbn [read_plain]. rewrite Hc. reflexivity.
  - rewrite needs_quotes_cons in Hv. apply orb_false_iff in Hv. destruct Hv as [Hx Hv].
    change (String x v +:+ String c r0) with (String x (v +:+ String c r0)).
    cbn [read_plain]. rewrite Hx, (IH Hv). reflexivity.
Qed.

Lemma read_quoted_app v r c r0 :
  r = String c r0 -> Ascii.eqb c quotechar = false ->
  read_quoted (double_quotes v +:+ String quotechar r) = Some (v, r).
Proof.
  intros -> Hc. induction v as [| x v IH].
  - cbn [double_quotes]. change ("" +:+ ?s) with s. cbn [read_quoted].
    rewrite Ascii.eqb_refl, Hc. reflexivity.
  - cbn [double_quotes]. destruct (Ascii.eqb x quotechar) eqn:Ex.
    + apply Ascii.eqb_eq in Ex. subst x.
      change (String quotechar (String quotechar (double_quotes v)) +:+ ?s)
        with (String quotechar (String quotechar (double_quotes v +:+ s))).
      cbn [read_quoted]. rewrite Ascii.eqb_refl, IH. reflexivity.
    + change (String x (double_quotes v) +:+ ?s) with (String x (double_quotes v +:+ s)).
      cbn [read_quoted]. rewrite Ex, IH. reflexivity.
Qed.

Lemma special_not_quote c :
  Ascii.eqb c ";" = true \/ nat_of_ascii c = 13 -> Ascii.eqb c quotechar = false /\ special c = true.
Proof.
  intros [H | H].
  - apply Ascii.eqb_eq in H. subst c. split; reflexivity.
  - assert (c = ascii_of_nat 13) by (rewrite <- H, ascii_nat_embedding; reflexivity).
    subst c. split; reflexivity.
Qed.

Lemma read_field_app v r c r0 :
  r = String c r0 -> (Ascii.eqb c ";" = true \/ nat_of_ascii c = 13) ->
  read_field (csv_field v +:+ r) = Some (v, r).
Proof.
  intros Hr Hc. destruct (special_not_quote c Hc) as [Hq Hs].
  unfold csv_field. destruct (needs_quotes v) eqn:Hv.
  - change (String quotechar ?a +:+ ?b) with (String quotechar (a +:+ b)).
    cbn [read_field]. rewrite Ascii.eqb_refl, string_app_assoc.
    change (String quotechar "" +:+ r) with (String quotechar r).
    apply (read_quoted_app v r c r0 Hr Hq).
  - destruct v as [| x v].
    + subst r. change ("" +:+ ?s) with s. cbn [read_field]. rewrite Hq.
      cbn [read_plain]. rewrite Hs. reflexivity.
    + change (String x v +:+ r) with (String x (v +:+ r)). cbn [read_field].
      rewrite needs_quotes_cons in Hv. apply orb_false_iff in Hv. destruct Hv as [Hx Hv].
      assert (Exq : Ascii.eqb x quotechar = false).
      { unfold special in Hx. repeat (apply orb_false_iff in Hx; destruct Hx as [Hx ?]).
        assumption. }
      rewrite Exq. f_equal.
      change (String x (v +:+ r)) with (String x v +:+ r).
      apply (read_plain_app (String x v) r c r0); [| exact Hr | exact Hs].
      rewrite needs_quotes_cons, Hx, Hv. reflexivity.
Qed.

Lemma writerow_single v : writerow [v] = csv_field (c_string v) +:+ CRLF.
Proof. reflexivity. Qed.

Lemma writerow_read v vs :
  read_field (writerow (v :: vs))
  = Some (c_string v, match vs with
             | [] => CRLF
             | _ => ";" +:+ writerow vs
             end).
Proof.
  destruct vs as [| w ws].
  - rewrite writerow_single.
    apply (read_field_app (c_string v) CRLF (ascii_of_nat 13) _ eq_refl).
    right. reflexivity.
  - rewrite writerow_cons. apply (read_field_app (c_string v) _ ";" _ eq_refl).
    left. reflexivity.
Qed.

Lemma writerow_injective (vs vs' : list string) :
  vs <> [] -> vs' <> [] -> writerow vs = writerow vs' ->
  List.map c_string vs = List.map c_string vs'.
Proof.
  revert vs'. induction vs as [| v vs IH]; intros vs' Hne Hne' H; [congruence |].
  destruct vs' as [| v' vs']; [congruence |].
  pose proof (writerow_read v vs) as R. rewrite H, writerow_read in R.
  inversion R as [[Ev Er]]. cbn [List.map]. rewrite Ev. f_equal.
  destruct vs as [| w ws], vs' as [| w' ws']; try reflexivity; try discriminate Er.
  apply IH; [discriminate | discriminate |].
  inversion Er as [E]. symmetry. exact E.
Qed.

Lemma format_int_nat y : format_int (Z.of_nat y) = str_nat y.
Proof.
  unfold format_int. destruct (Z.ltb_spec (Z.of_nat y) 0) as [H | H]; [lia |].
  rewrite Nat2Z.id. reflexivity.
Qed.

Lemma format_02d_nat m :
  format_02d (Z.of_nat m) = if m <? 10 then "0" +:+ str_nat m else str_nat m.
Proof.
  unfold format_02d. destruct (Z.ltb_spec (Z.of_nat m) 0) as [H | H]; [lia |].
  rewrite Nat2Z.id.
  destruct (Z.ltb_spec (Z.of_nat m) 10) as [H1 | H1], (Nat.ltb_spec m 10) as [H2 | H2];
    try reflexivity; lia.
Qed.

Lemma decimal_four fuel n :
  (n <? 10) = false -> (n / 10 <? 10) = false -> (n / 10 / 10 <? 10) = false ->
  (n / 10 / 10 / 10 <? 10) = true ->
  decimal_digits (S (S (S (S fuel)))) n = pad4 n.
Proof.
  intros H0 H1 H2 H3. cbn [decimal_digits]. rewrite H0, H1, H2, H3. reflexivity.
Qed.

Lemma str_nat_pad4 y : 1000 <= y <= 9999 -> str_nat y = pad4 y.
Proof.
  intros [H1 H2].
  assert (Ha : 100 <= y / 10 <= 999).
  { split.
    - change 100 with (1000 / 10). apply Nat.Div0.div_le_mono. exact H1.
    - replace 999 with (9999 / 10) by (vm_compute; reflexivity).
      apply Nat.Div0.div_le_mono. exact H2. }
  assert (Hb : 10 <= y / 10 / 10 <= 99).
  { split.
    - change 10 with (100 / 10). apply Nat.Div0.div_le_mono. apply Ha.
    - change 99 with (999 / 10). apply Nat.Div0.div_le_mono. apply Ha. }
  assert (Hc : 1 <= y / 10 / 10 / 10 <= 9).
  { split.
    - change 1 with (10 / 10). apply Nat.Div0.div_le_mono. apply Hb.
    - change 9 with (99 / 10). apply Nat.Div0.div_le_mono. apply Hb. }
  assert (H3 : 3 <= y).
  { eapply Nat.le_trans; [| exact H1]. apply Nat.leb_le. reflexivity. }
  assert (H10 : 10 <= y).
  { eapply Nat.le_trans; [| exact H1]. apply Nat.leb_le. reflexivity. }
  assert (H100 : 10 <= y / 10).
  { eapply Nat.le_trans; [| apply Ha]. apply Nat.leb_le. reflexivity. }
  clear H1 H2 Ha.
  unfold str_nat. replace (S y) with (S (S (S (S (y - 3))))) by lia.
  apply decimal_four.
  - apply Nat.ltb_ge. exact H10.
  - apply Nat.ltb_ge. exact H100.
  - apply Nat.ltb_ge. apply Hb.
  - apply Nat.ltb_lt. lia.
Qed.

Lemma format_02d_pad2 m : m < 100 -> format_02d (Z.of_nat m) = pad2 m.
Proof.
  intros H. rewrite format_02d_nat.
  assert (G : forallb (fun m => String.eqb (if m <? 10 then "0" +:+ str_nat m else str_nat m)
                                           (pad2 m)) (seq 0 100) = true)
    by (vm_compute; reflexivity).
  rewrite forallb_forall in G. apply String.eqb_eq, G, in_seq. lia.
Qed.

Lemma select_filter {A} (p : A -> bool) k rows :
  List.map snd (select p k rows) = List.filter p rows.
Proof.
  revert k. induction rows as [| x rows IH]; intros k; simpl; [reflexivity |].
  destruct (p x); simpl; rewrite IH; reflexivity.
Qed.

Lemma reparse_date s d ds :
  parse_date s = Ok d -> strftime_Ymd d = Some ds -> parse_date ds = Ok d.
Proof.
  intros Hp Hs. pose proof (parse_date_valid _ _ Hp) as Hv.
  unfold strftime_Ymd in Hs. destruct (1900 <=? year d) eqn:E; [| discriminate Hs].
  injection Hs as <-. apply Nat.leb_le in E.
  destruct (parse_date_Ymd _ _ _ Hv E) as [H _]. rewrite H. destruct d; reflexivity.
Qed.

Lemma reparse_time (st : option time_of_day) :
  (forall t, st = Some t -> hour t < 24 /\ minute t < 60) ->
  (forall t, st = Some t -> second t = 0 /\ (hour t <> 0 \/ minute t <> 0)) ->
  parse_time (frmt_time st) TIME_FORMATS = st.
Proof.
  intros Hv Hc. destruct st as [t |]; [| reflexivity].
  destruct (Hv t eq_refl) as [Hh Hm]. destruct (Hc t eq_refl) as [Hs Hne].
  rewrite (parse_frmt_time t Hh Hm).
  destruct t as [h m s]. unfold time_truthy. cbn [hour minute second] in *. subst s.
  destruct h as [| h]; [destruct m as [| m]; [lia |] |]; reflexivity.
Qed.

Lemma Forall2_choice {A B} (R : A -> B -> Prop) (l : list A) :
  (forall x, In x l -> exists y, R x y) -> exists l', Forall2 R l l'.
Proof.
  induction l as [| x l IH]; intros H.
  - exists []. constructor.
  - destruct (H x (or_introl eq_refl)) as [y Hy].
    destruct IH as [l' Hl']; [intros z Hz; apply H; right; exact Hz |].
    exists (y :: l'). constructor; assumption.
Qed.

Lemma Forall2_In_l {A B} (R : A -> B -> Prop) l l' x :
  Forall2 R l l' -> In x l -> exists y, R x y.
Proof.
  induction 1 as [| a b l l' Hab _ IH]; intros []; subst; eauto.
Qed.

Section FurtherProperties.
Context {W : World}.
Implicit Types (db : DB W).

(** ** The rows _csv_parse accepts *)

Lemma unpack_row_arity row given db :
  fst (unpack_row row given db) = Raise (ValueError "unpack")
  <-> length row <> (match given with None => 10 | Some _ => 9 end).
Proof.
  unfold unpack_row. destruct given as [c |].
  - do 9 (destruct row as [| ? row]; [cbn; split; [intros _; lia | reflexivity] |]).
    destruct row as [| ? row]; cbn.
    + split; [discriminate | lia].
    + split; [intros _; lia | reflexivity].
  - do 10 (destruct row as [| ? row]; [cbn; split; [intros _; lia | reflexivity] |]).
    destruct row as [| ? row].
    + unfold bind. rewrite Coder_get_eq. cbn [length].
      destruct (objects_get _ _ _) as [u |] eqn:E.
      * destruct (Coder_init u) eqn:E2; cbn; split; try discriminate; try lia.
        apply Coder_init_raises in E2. destruct E2 as [-> _]. discriminate.
      * cbn. apply objects_get_raises in E.
        split; [| lia]. destruct E as [-> | ->]; discriminate.
    + cbn. split; [intros _; lia | reflexivity].
Qed.

(** X4.  [_csv_parse] fails on the unpacking of the row, with
    [ValueError], exactly when the row has not ten fields and no coder is
    given, or not nine and a coder is given (an empty row among them).
    With a coder given the user table is not read: the outcome depends on
    the project table alone, and the entry is logged on that coder's
    user; without one the entry's user bears the name in the first
    field. *)
Theorem csv_parse_row_shape (row : list string) (given : option Coder) (db : DB W) :
  (fst (_csv_parse row given db) = Raise (ValueError "unpack")
   <-> length row <> (match given with None => 10 | Some _ => 9 end))
  /\ (forall c db2, given = Some c -> Project_rows db2 = Project_rows db ->
        fst (_csv_parse row given db2) = fst (_csv_parse row given db))
  /\ (forall c obj, given = Some c -> fst (_csv_parse row given db) = Ok obj ->
        coder obj = user c)
  /\ (forall obj, given = None -> fst (_csv_parse row given db) = Ok obj ->
        username (coder obj) = nth 0 row "").
Proof.
  split; [| split; [| split]].
  - rewrite <- (unpack_row_arity row given db). rewrite csv_parse_eq.
    destruct (fst (unpack_row row given db)) as [[c f] | e0] eqn:Eu.
    + split; [| intros H; discriminate H]. rewrite csv_parse_fields_eq. cbn [fst].
      destruct (normalize_tags (f_tags f)); [intros H; discriminate H |].
      destruct (project_outcome f db) as [p | e1] eqn:Ep.
      * destruct (parse_date (f_date f)) as [d | e2] eqn:Ed.
        -- destruct (parse_amount (f_hrs f)) as [amt | e3] eqn:Ea.
           ++ destruct (forallb (decodes W) row); [| intros H; discriminate H].
              destruct (existsb _ _); intros H; discriminate H.
           ++ apply parse_amount_raises in Ea. subst e3. intros H; discriminate H.
        -- apply parse_date_raises in Ed. subst e2. intros H; discriminate H.
      * apply project_outcome_raises in Ep.
        destruct Ep as [-> | [-> | [-> | ->]]]; intros H; discriminate H.
    + cbn [fst]. split; intros [= ->]; reflexivity.
  - intros c db2 -> Hp. rewrite !csv_parse_eq.
    assert (Eu : forall d : DB W, fst (unpack_row row (Some c) d) = fst (unpack_row row (Some c) db)).
    { intros d. unfold unpack_row.
      do 10 (destruct row as [| ? row]; [reflexivity |]). destruct row; reflexivity. }
    rewrite Eu. destruct (fst (unpack_row row (Some c) db)) as [[c' f] | e0]; [| reflexivity].
    rewrite !csv_parse_fields_eq. cbn [fst].
    assert (Epo : project_outcome f db2 = project_outcome f db).
    { unfold project_outcome. rewrite !explicit_project_eq, Hp. reflexivity. }
    rewrite Epo. reflexivity.
  - intros c obj -> H. apply csv_parse_ok in H.
    destruct H as (c' & f & p & d & amt & Hu & _ & _ & _ & _ & _ & ->).
    apply unpack_row_shape in Hu. destruct Hu as [_ Hc]. rewrite (Hc c eq_refl). reflexivity.
  - intros obj -> H. apply csv_parse_ok in H.
    destruct H as (c' & f & p & d & amt & Hu & _ & _ & _ & _ & _ & ->).
    apply unpack_row_shape in Hu. destruct Hu as [-> _]. reflexivity.
Qed.

(** X5.  An entry [_csv_parse] returns is well formed: its date is a day
    of the calendar, its start and end times, when read, are within the
    day, its pending tag names are there, not empty, and each normalized,
    its comment is a string (never null) and its raw input is the dump of
    the row. *)
Theorem csv_parse_entry_wellformed (row : list string) (coder : option Coder) (db : DB W)
    (obj : Hours W) :
  fst (_csv_parse row coder db) = Ok obj ->
  valid_date (year (date obj)) (month (date obj)) (day (date obj)) = true
  /\ (forall t, start_time obj = Some t -> hour t < 24 /\ minute t < 60 /\ second t < 60)
  /\ (forall t, end_time obj = Some t -> hour t < 24 /\ minute t < 60 /\ second t < 60)
  /\ (exists tags, _tags_to_be obj = Some tags /\ tags <> [] /\ Forall tag_name_normal tags)
  /\ (exists c, comment obj = Some c)
  /\ input_data_json obj = Some (json_dumps W row).
Proof.
  intros H. apply csv_parse_ok in H.
  destruct H as (c & f & p & d & amt & Hu & Ht & Hp & Hd & Ha & He & ->).
  unfold pending_entry. cbn.
  split; [exact (parse_date_valid _ _ Hd) |].
  split; [intros t; apply parse_time_valid |].
  split; [intros t; apply parse_time_valid |].
  split; [exists (normalize_tags (f_tags f)); repeat split;
          [exact Ht | apply normalize_tags_normal] |].
  split; [eexists; reflexivity | reflexivity].
Qed.

Lemma unpack_row_errors row coder db e :
  fst (unpack_row row coder db) = Raise e ->
  e = ValueError "unpack"
  \/ (coder = None
      /\ (e = DoesNotExist User_model \/ e = MultipleObjectsReturned User_model
          \/ e = NoCoderProjects)).
Proof.
  unfold unpack_row. destruct coder as [c |].
  - do 10 (destruct row as [| ? row]; [simpl; intros H; inversion H; auto |]).
    destruct row; simpl; intros H; inversion H; auto.
  - do 11 (destruct row as [| ? row];
           try (simpl; intros H; inversion H; auto; fail)).
    unfold bind. rewrite Coder_get_eq.
    destruct (objects_get _ _ _) as [u |] eqn:E.
    + destruct (Coder_init u) eqn:E2; simpl; intros H; inversion H; subst.
      apply Coder_init_raises in E2. destruct E2; subst. auto.
    + simpl. intros H. inversion H; subst.
      apply objects_get_raises in E. destruct E; subst; auto.
Qed.

Lemma csv_parse_errors row coder db e :
  fst (_csv_parse row coder db) = Raise e ->
  In e parse_errors
  /\ (coder <> None -> e <> DoesNotExist User_model /\ e <> MultipleObjectsReturned User_model
                       /\ e <> NoCoderProjects).
Proof.
  rewrite csv_parse_eq.
  destruct (fst (unpack_row row coder db)) as [[c f] | e0] eqn:Eu.
  - rewrite csv_parse_fields_eq. cbn [fst].
    destruct (normalize_tags (f_tags f)) as [| t ts].
    { intros [= <-]. split; [unfold parse_errors; simpl; tauto |].
      intros _. repeat split; discriminate. }
    destruct (project_outcome f db) as [p | e1] eqn:Ep.
    + destruct (parse_date (f_date f)) as [d | e2] eqn:Ed.
      * destruct (parse_amount (f_hrs f)) as [amt | e3] eqn:Ea.
        -- destruct (forallb (decodes W) row).
           2:{ intros [= <-]. split; [unfold parse_errors; simpl; tauto |].
               intros _. repeat split; discriminate. }
           destruct (existsb _ _); [discriminate |]. intros [= <-].
           split; [unfold parse_errors, NotAllowed; simpl; tauto |].
           intros _. repeat split; discriminate.
        -- intros [= <-]. apply parse_amount_raises in Ea. subst e3.
           split; [unfold parse_errors; simpl; tauto |].
           intros _. repeat split; discriminate.
      * intros [= <-]. apply parse_date_raises in Ed. subst e2.
        split; [unfold parse_errors; simpl; tauto |].
        intros _. repeat split; discriminate.
    + intros [= <-]. apply project_outcome_raises in Ep.
      destruct Ep as [-> | [-> | [-> | ->]]];
        (split; [unfold parse_errors; simpl; tauto | intros _; repeat split; discriminate]).
  - cbn [fst]. intros [= <-]. apply unpack_row_errors in Eu.
    destruct Eu as [-> | (-> & [-> | [-> | ->]])];
      (split; [unfold parse_errors; simpl; tauto |]);
      try (intros _; repeat split; discriminate); intros Hc; congruence.
Qed.

Lemma get_or_create_parsed_errors parsed tags db e db' :
  _tags_to_be parsed = Some tags -> tags <> [] ->
  get_or_create_parsed parsed db = (Raise e, db') ->
  (e = MultipleObjectsReturned Hours_model
   /\ exists x y rest,
        select (lookup_matches (HOURS_IDENTITY_FIELDS parsed)) 1 (Hours_rows db)
        = x :: y :: rest)
  \/ (e = MultipleObjectsReturned HourTag_model /\ ~ List.NoDup (HourTag_rows db))
  \/ (e = InvalidOperation /\ Decimal_column W (amount parsed) = None).
Proof.
  intros Et Hne. rewrite get_or_create_parsed_eq, Et.
  destruct tags as [| t tags]; [congruence |].
  rewrite Hours_get_or_create_eq.
  destruct (select _ 1 (Hours_rows db)) as [| [j r0] [| ? ?]] eqn:Es.
  - change (q_amount W (HOURS_IDENTITY_FIELDS parsed)) with (amount parsed).
    destruct (Decimal_column W (amount parsed)) as [a |] eqn:Ea;
      [| intros [= <- <-]; right; right; split; reflexivity].
    cbv zeta. cbn [fst snd].
    destruct (for_tag_names _ _) as [[ts | e1] db2] eqn:Ef.
    + unfold set_tags. cbn [set_extra pk]. unfold update. rewrite save_eq.
      change (amount (fields (set_extra ?x ?o))) with (amount (fields o)).
      cbn [fields Hours_of_kwargs amount HOURS_IDENTITY_FIELDS q_amount]. rewrite Ea.
      discriminate.
    + intros [= <- <-]. right. left.
      split; [eapply for_tag_names_raises, Ef |].
      intros Hnd.
      destruct (for_tag_names_NoDup (t :: tags)
                  (set_Hours_rows
                     (Hours_rows db
                      ++ [set_amount a (Hours_of_kwargs (HOURS_IDENTITY_FIELDS parsed))]) db)
                  Hnd) as (ts & d' & E').
      congruence.
  - cbv zeta. cbn [fst snd].
    destruct (for_tag_names _ _) as [[ts | e1] db2] eqn:Ef.
    + unfold set_tags. cbn [set_extra pk]. unfold update. rewrite save_eq.
      change (amount (fields (set_extra ?x ?o))) with (amount (fields o)).
      cbn [fields]. rewrite (select_amount parsed _ _ _ Es).
      destruct (Decimal_column W (amount parsed)) as [a |] eqn:Ea; [discriminate |].
      intros [= <- <-]. right. right. split; reflexivity.
    + intros [= <- <-]. right. left.
      split; [eapply for_tag_names_raises, Ef |].
      intros Hnd. destruct (for_tag_names_NoDup (t :: tags) db Hnd) as (ts & d' & E').
      congruence.
  - intros [= <- <-]. left. split; [reflexivity | eauto].
Qed.

Lemma get_or_create_parsed_refused parsed tags db :
  _tags_to_be parsed = Some tags -> tags <> [] ->
  List.NoDup (HourTag_rows db) -> identity_unique db ->
  Decimal_column W (amount parsed) = None ->
  fst (get_or_create_parsed parsed db) = Raise InvalidOperation.
Proof.
  intros Et Hne Hnd Hu Hnone. rewrite get_or_create_parsed_eq, Et.
  destruct tags as [| t tags]; [congruence |].
  rewrite Hours_get_or_create_eq.
  destruct (select_identity_unique db parsed Hu) as [Es | (k & r0 & Es)]; rewrite Es.
  - change (q_amount W (HOURS_IDENTITY_FIELDS parsed)) with (amount parsed).
    rewrite Hnone. reflexivity.
  - cbv zeta. cbn [fst snd].
    destruct (for_tag_names_total (t :: tags) db Hnd) as (ts & ext & Ef & _).
    rewrite Ef. unfold set_tags. cbn [set_extra pk]. unfold update. rewrite save_eq.
    change (amount (fields (set_extra ?x ?o))) with (amount (fields o)).
    cbn [fields]. rewrite (select_amount parsed _ _ _ Es), Hnone. reflexivity.
Qed.

(** X6.  The exceptions of the import.  [_csv_parse] raises one of
    thirteen exceptions, the [UnicodeDecodeError] of the dump of a row
    with a field that is not UTF-8 among them, and none of the three of
    the user lookup when a coder is given.  [csv_get_or_create] fails
    with the exception of its parse; or with [MultipleObjectsReturned] of
    the hours lookup, which takes two stored entries of one identity, or
    of a tag lookup, which takes a tag name stored twice; or with
    [InvalidOperation] for a row that parses to an amount that the column
    refuses, and on a database with unique tag names and identities every
    such row fails so.  Its own [assert(parsed._tags_to_be)] never fails,
    and the attribute is never missing. *)
Theorem csv_get_or_create_errors (row : list string) (coder : option Coder) (db : DB W) :
  (forall e, fst (_csv_parse row coder db) = Raise e ->
     In e [ ValueError "unpack"; DoesNotExist User_model; MultipleObjectsReturned User_model;
            NoCoderProjects; AtLeastOneTagRequired;
            DoesNotExist Project_model; MultipleObjectsReturned Project_model;
            ProjectMismatch; ProjectRequired;
            ValueError "strptime"; InvalidOperation; UnicodeDecodeError; NotAllowed ]
     /\ (coder <> None -> e <> DoesNotExist User_model
                          /\ e <> MultipleObjectsReturned User_model
                          /\ e <> NoCoderProjects))
  /\ (forall e, fst (csv_get_or_create row coder db) = Raise e ->
        fst (_csv_parse row coder db) = Raise e
        \/ (e = MultipleObjectsReturned Hours_model /\ ~ identity_unique db)
        \/ (e = MultipleObjectsReturned HourTag_model /\ ~ List.NoDup (HourTag_rows db))
        \/ (e = InvalidOperation
            /\ exists parsed, fst (_csv_parse row coder db) = Ok parsed
                              /\ Decimal_column W (amount parsed) = None))
  /\ (forall parsed, fst (_csv_parse row coder db) = Ok parsed ->
        Decimal_column W (amount parsed) = None ->
        List.NoDup (HourTag_rows db) -> identity_unique db ->
        fst (csv_get_or_create row coder db) = Raise InvalidOperation)
  /\ (fst (_csv_parse row coder db) = Raise UnicodeDecodeError
      <-> exists c f p d (amt : Decimal W),
            fst (unpack_row row coder db) = Ok (c, f)
            /\ normalize_tags (f_tags f) <> []
            /\ project_outcome f db = Ok p
            /\ parse_date (f_date f) = Ok d
            /\ parse_amount (f_hrs f) = Ok amt
            /\ forallb (decodes W) row = false)
  /\ fst (csv_get_or_create row coder db) <> Raise (AssertionError assert_tags_to_be)
  /\ (forall attr, fst (csv_get_or_create row coder db) <> Raise (AttributeError attr)).
Proof.
  assert (Hallcases : forall e, fst (csv_get_or_create row coder db) = Raise e ->
        fst (_csv_parse row coder db) = Raise e
        \/ (e = MultipleObjectsReturned Hours_model /\ ~ identity_unique db)
        \/ (e = MultipleObjectsReturned HourTag_model /\ ~ List.NoDup (HourTag_rows db))
        \/ (e = InvalidOperation
            /\ exists parsed, fst (_csv_parse row coder db) = Ok parsed
                              /\ Decimal_column W (amount parsed) = None)).
  { intros e. rewrite csv_get_or_create_eq.
    destruct (fst (_csv_parse row coder db)) as [parsed | e0] eqn:Ep;
      [| cbn [fst]; intros [= <-]; left; reflexivity].
    destruct (csv_parse_tags_to_be _ _ _ _ Ep) as (tags & Et & Hne).
    destruct (get_or_create_parsed parsed db) as [r db'] eqn:Eg. cbn [fst]. intros ->.
    right.
    destruct (get_or_create_parsed_errors _ _ _ _ _ Et Hne Eg)
      as [[-> (x & y & rest & Es)] | [[-> Hn] | [-> Hc]]].
    - left. split; [reflexivity |]. intros Hu.
      destruct (select_identity_unique db parsed Hu) as [Es' | (k & r0 & Es')];
        rewrite Es' in Es; discriminate Es.
    - right. left. split; [reflexivity | exact Hn].
    - right. right. split; [reflexivity |]. exists parsed. split; [reflexivity | exact Hc]. }
  split; [intros e; apply csv_parse_errors |].
  split; [exact Hallcases |].
  split.
  { intros parsed Hp Hnone Hnd Hu. rewrite csv_get_or_create_eq, Hp.
    destruct (csv_parse_tags_to_be _ _ _ _ Hp) as (tags & Et & Hne).
    exact (get_or_create_parsed_refused parsed tags db Et Hne Hnd Hu Hnone). }
  split.
  { split.
    - rewrite csv_parse_eq.
      destruct (fst (unpack_row row coder db)) as [[c f] | e0] eqn:Eu.
      + rewrite csv_parse_fields_eq. cbn [fst].
        destruct (normalize_tags (f_tags f)) as [| t ts] eqn:Et; [discriminate |].
        destruct (project_outcome f db) as [p | e1] eqn:Ep.
        2:{ intros [= ->]. apply project_outcome_raises in Ep.
            destruct Ep as [Ep | [Ep | [Ep | Ep]]]; discriminate Ep. }
        destruct (parse_date (f_date f)) as [d | e2] eqn:Ed.
        2:{ intros [= ->]. apply parse_date_raises in Ed. discriminate Ed. }
        destruct (parse_amount (f_hrs f)) as [amt | e3] eqn:Ea.
        2:{ intros [= ->]. apply parse_amount_raises in Ea. discriminate Ea. }
        destruct (forallb (decodes W) row) eqn:Ej.
        { destruct (existsb _ _); discriminate. }
        intros _. exists c, f, p, d, amt. rewrite Et.
        repeat split; try assumption; discriminate.
      + cbn [fst]. intros [= ->]. apply unpack_row_errors in Eu.
        destruct Eu as [Eu | (_ & [Eu | [Eu | Eu]])]; discriminate Eu.
    - intros (c & f & p & d & amt & Hu & Hne & Hp & Hd & Ha & Hj).
      rewrite (csv_parse_run row coder db c f Hu Hne), Hp, Hd, Ha, Hj. reflexivity. }
  assert (Hno : forall e, ~ In e parse_errors -> e <> MultipleObjectsReturned Hours_model ->
                          e <> MultipleObjectsReturned HourTag_model ->
                          e <> InvalidOperation ->
                          fst (csv_get_or_create row coder db) <> Raise e).
  { intros e Hn H1 H2 H3 H.
    destruct (Hallcases e H) as [Hp | [[-> _] | [[-> _] | [-> _]]]]; try congruence.
    apply csv_parse_errors in Hp. tauto. }
  split.
  - apply Hno; try discriminate. unfold parse_errors. simpl.
    intros H; repeat (destruct H as [H | H]; [discriminate H |]). exact H.
  - intros attr. apply Hno; try discriminate. unfold parse_errors. simpl.
    intros H; repeat (destruct H as [H | H]; [discriminate H |]). exact H.
Qed.

(** ** csv_dump and its two callers *)

Lemma tags_all_eq k db :
  tags_all k db
  = (Ok (omap (fun p : nat * nat =>
                 if fst p =? k then HourTag_by_pk (HourTag_rows db) (snd p) else None)
              (Hours_tags_rows db)), db).
Proof. reflexivity. Qed.

Lemma csv_dump_values_eq (obj : Hours W) omit db :
  csv_dump_values obj omit db
  = (match dump_tags obj db with
     | Raise e => Raise e
     | Ok tags =>
         match strftime_Ymd (date obj) with
         | None => Raise (ValueError "strftime")
         | Some d =>
             if dump_decodes obj
             then
               Ok ((if omit then [] else [username (coder obj)])
                   ++ [ project_name (project obj); d;
                        frmt_time (start_time obj); frmt_time (end_time obj);
                        unicode_Decimal W (amount obj); join "," tags;
                        match repository obj with Some r => distinct_name r | None => "" end;
                        match issue obj with Some i => issue_number i | None => "" end;
                        match comment obj with Some c => c | None => "" end ])
             else Raise UnicodeDecodeError
         end
     end, db).
Proof.
  unfold csv_dump_values, dump_tags, dump_decodes, stored_tag_names, join_tags, utf8_safe.
  destruct (pk obj) as [[| k] |].
  - destruct (_tags_to_be obj) as [tags |]; [| reflexivity].
    unfold bind, ret, lift. destruct (strftime_Ymd (date obj)); [| reflexivity].
    cbn [fst snd orb]. destruct (forallb is_ascii tags); [| reflexivity].
    cbn [fst snd andb]. destruct (decodes W _); reflexivity.
  - rewrite tags_all_eq. unfold bind at 1. unfold bind at 1. rewrite tags_all_eq.
    unfold ret at 1. unfold bind, ret, lift.
    destruct (strftime_Ymd (date obj)); [| reflexivity].
    cbn [fst snd orb andb]. destruct (decodes W _); reflexivity.
  - destruct (_tags_to_be obj) as [tags |]; [| reflexivity].
    unfold bind, ret, lift. destruct (strftime_Ymd (date obj)); [| reflexivity].
    cbn [fst snd orb]. destruct (forallb is_ascii tags); [| reflexivity].
    cbn [fst snd andb]. destruct (decodes W _); reflexivity.
Qed.

Lemma csv_dump_eq (obj : Hours W) omit db :
  csv_dump obj omit db
  = (match fst (csv_dump_values obj omit db) with
     | Ok vs => Ok (writerow vs)
     | Raise e => Raise e
     end, db).
Proof.
  unfold csv_dump, bind. rewrite csv_dump_values_eq. cbn [fst].
  destruct (dump_tags obj db); [| reflexivity].
  destruct (strftime_Ymd (date obj)); [| reflexivity].
  destruct (dump_decodes obj); reflexivity.
Qed.

Lemma strftime_Ymd_None d : strftime_Ymd d = None <-> year d < 1900.
Proof.
  unfold strftime_Ymd. destruct (1900 <=? year d) eqn:E.
  - apply Nat.leb_le in E. split; [discriminate | lia].
  - apply Nat.leb_gt in E. split; [intros _; exact E | reflexivity].
Qed.

(** X7.  What [csv_dump] does with any entry: it leaves the database as
    it is; it raises [AttributeError] exactly for an entry that has no
    key and no pending tags (one that [_csv_parse] did not make); it
    raises the [ValueError] of [strftime] exactly for an entry that has
    its tags and a date before 1900; it raises [UnicodeDecodeError]
    exactly for an entry that has its tags and a date from 1900 on, and
    either no key and a pending tag name that is not ASCII, or a comment
    that is not UTF-8; otherwise it writes a line of nine
    values when the coder is left out and of ten when not.  It raises
    nothing else. *)
Theorem csv_dump_outcome (obj : Hours W) (omit_coder : bool) (db : DB W) :
  snd (csv_dump obj omit_coder db) = db
  /\ (fst (csv_dump obj omit_coder db) = Raise (AttributeError "_tags_to_be")
      <-> (forall k, pk obj <> Some (S k)) /\ _tags_to_be obj = None)
  /\ (fst (csv_dump obj omit_coder db) = Raise (ValueError "strftime")
      <-> ((exists k, pk obj = Some (S k)) \/ exists tags, _tags_to_be obj = Some tags)
          /\ year (date obj) < 1900)
  /\ (fst (csv_dump obj omit_coder db) = Raise UnicodeDecodeError
      <-> ((exists k, pk obj = Some (S k)) \/ exists tags, _tags_to_be obj = Some tags)
          /\ 1900 <= year (date obj)
          /\ (((forall k, pk obj <> Some (S k))
               /\ exists tags, _tags_to_be obj = Some tags /\ forallb is_ascii tags = false)
              \/ decodes W (match comment obj with Some c => c | None => "" end) = false))
  /\ ((exists vs line, fst (csv_dump_values obj omit_coder db) = Ok vs
                       /\ length vs = (if omit_coder then 9 else 10)
                       /\ fst (csv_dump obj omit_coder db) = Ok line)
      <-> ((exists k, pk obj = Some (S k)) \/ exists tags, _tags_to_be obj = Some tags)
          /\ 1900 <= year (date obj)
          /\ dump_decodes obj = true)
  /\ (forall e, fst (csv_dump obj omit_coder db) = Raise e ->
        e = AttributeError "_tags_to_be" \/ e = ValueError "strftime"
        \/ e = UnicodeDecodeError).
Proof.
  rewrite csv_dump_eq, csv_dump_values_eq. cbn [fst snd].
  pose proof (strftime_Ymd_None (date obj)) as HN.
  assert (HT : (exists tags, dump_tags obj db = Ok tags
                 /\ ((exists k, pk obj = Some (S k)) \/ exists tags, _tags_to_be obj = Some tags))
               \/ (dump_tags obj db = Raise (AttributeError "_tags_to_be")
                   /\ (forall k, pk obj <> Some (S k)) /\ _tags_to_be obj = None)).
  { unfold dump_tags. destruct (pk obj) as [[| k] |].
    - destruct (_tags_to_be obj) as [tags |];
        [left; eauto | right; repeat split; congruence].
    - left. eauto.
    - destruct (_tags_to_be obj) as [tags |];
        [left; eauto | right; repeat split; congruence]. }
  assert (HD : dump_decodes obj = false
               <-> (((forall k, pk obj <> Some (S k))
                     /\ exists tags, _tags_to_be obj = Some tags
                                     /\ forallb is_ascii tags = false)
                    \/ decodes W (match comment obj with Some c => c | None => "" end)
                       = false)).
  { unfold dump_decodes. rewrite andb_false_iff.
    split; (intros [H | H]; [left | right; exact H]).
    - destruct (pk obj) as [[| k] |]; try discriminate H;
        (split; [intros k' Hk'; discriminate Hk' |]);
        (destruct (_tags_to_be obj) as [tags |]; [eauto | discriminate H]).
    - destruct H as (Hpk & tags & Ht & Ha).
      destruct (pk obj) as [[| k] |]; try (rewrite Ht; exact Ha).
      exfalso. exact (Hpk k eq_refl). }
  split; [reflexivity |].
  destruct HT as [(tags & -> & Hsrc) | (-> & Hpk & Htb)].
  - destruct (strftime_Ymd (date obj)) as [d |] eqn:Ed.
    + assert (Hy : 1900 <= year (date obj)).
      { destruct (Nat.le_gt_cases 1900 (year (date obj))) as [? | Hlt]; [assumption |].
        apply HN in Hlt. congruence. }
      destruct (dump_decodes obj) eqn:Edec.
      * split; [split; [discriminate | intros [Hpk Htb]; exfalso;
                destruct Hsrc as [[k Hk] | [t Ht]]; [exact (Hpk k Hk) | congruence]] |].
        split; [split; [discriminate | intros [_ Hlt]; lia] |].
        split; [split; [discriminate |
                intros (_ & _ & H); apply HD in H; discriminate H] |].
        split; [| intros e; discriminate].
        split; [intros _; repeat split; assumption |].
        intros _. eexists _, _. split; [reflexivity |]. split; [| reflexivity].
        destruct omit_coder; reflexivity.
      * split; [split; [discriminate | intros [Hpk Htb]; exfalso;
                destruct Hsrc as [[k Hk] | [t Ht]]; [exact (Hpk k Hk) | congruence]] |].
        split; [split; [discriminate | intros [_ Hlt]; lia] |].
        split; [split; [intros _; split; [exact Hsrc |];
                        split; [exact Hy | apply HD; reflexivity]
                       | reflexivity] |].
        split; [| intros e [= <-]; right; right; reflexivity].
        split; [intros (vs & line & Hvs & _); discriminate Hvs |].
        intros (_ & _ & H). discriminate H.
    + pose proof (proj1 HN eq_refl) as Hy.
      split; [split; [discriminate | intros [Hpk Htb]; exfalso;
              destruct Hsrc as [[k Hk] | [t Ht]]; [exact (Hpk k Hk) | congruence]] |].
      split; [split; [intros _; split; assumption | reflexivity] |].
      split; [split; [discriminate | intros (_ & Hge & _); lia] |].
      split; [| intros e [= <-]; right; left; reflexivity].
      split; [intros (vs & line & Hvs & _); discriminate | intros (_ & Hge & _); lia].
  - split; [split; [intros _; split; assumption | reflexivity] |].
    split; [split; [discriminate |
            intros [[[k Hk] | [t Ht]] _]; [exfalso; exact (Hpk k Hk) | congruence]] |].
    split; [split; [discriminate |
            intros [[[k Hk] | [t Ht]] _]; [exfalso; exact (Hpk k Hk) | congruence]] |].
    split; [| intros e [= <-]; left; reflexivity].
    split; [intros (vs & line & Hvs & _); discriminate |].
    intros [[[k Hk] | [t Ht]] _]; [exfalso; exact (Hpk k Hk) | congruence].
Qed.

(** X8.  [as_scsv] and [as_scsv_without_coder] fail together, with the
    same exception; when they do not, the line of [as_scsv] is the
    username, as the writer writes a field that has no NUL byte, and a
    semicolon, followed by the line of [as_scsv_without_coder]. *)
Theorem as_scsv_without_coder_suffix (self : Hours W) (db : DB W) :
  nul_free (username (coder self)) ->
  (forall line, as_scsv self db = (Ok line, db) <->
     exists rest, as_scsv_without_coder self db = (Ok rest, db)
                  /\ line = csv_field (username (coder self)) +:+ ";" +:+ rest)
  /\ (forall e, as_scsv self db = (Raise e, db) <-> as_scsv_without_coder self db = (Raise e, db)).
Proof.
  intros Hnul.
  unfold as_scsv, as_scsv_without_coder. rewrite !csv_dump_eq, !csv_dump_values_eq. cbn [fst].
  destruct (dump_tags self db) as [tags | e0].
  - destruct (strftime_Ymd (date self)) as [d |].
    + destruct (dump_decodes self).
      * cbn [app]. rewrite writerow_cons, (c_string_nul_free _ Hnul). split.
        -- intros line. split.
           ++ intros [= <-]. eexists. split; reflexivity.
           ++ intros (rest & [= <-] & ->). reflexivity.
        -- intros e. split; discriminate.
      * split; [intros line; split; [discriminate | intros (rest & Hr & _); discriminate] |].
        intros e. reflexivity.
    + split; [intros line; split; [discriminate | intros (rest & Hr & _); discriminate] |].
      intros e. reflexivity.
  - split; [intros line; split; [discriminate | intros (rest & Hr & _); discriminate] |].
    intros e. reflexivity.
Qed.

Lemma csv_dump_values_length (obj : Hours W) omit (db : DB W) vs :
  fst (csv_dump_values obj omit db) = Ok vs -> length vs = if omit then 9 else 10.
Proof.
  rewrite csv_dump_values_eq. cbn [fst].
  destruct (dump_tags obj db); [| discriminate].
  destruct (strftime_Ymd (date obj)); [| discriminate].
  destruct (dump_decodes obj); [| discriminate].
  intros [= <-]. destruct omit; reflexivity.
Qed.

(** X9.  A line of [csv_dump] determines its values: two dumps of values
    without NUL bytes that give the same line were made with the same
    [omit_coder] and of the same list of values, whatever semicolons,
    quotes and line ends the values hold. *)
Theorem csv_dump_line_determines_values (obj obj' : Hours W) (omit_coder omit_coder' : bool)
    (db db' : DB W) (vs vs' : list string) :
  fst (csv_dump_values obj omit_coder db) = Ok vs ->
  fst (csv_dump_values obj' omit_coder' db') = Ok vs' ->
  Forall nul_free vs -> Forall nul_free vs' ->
  fst (csv_dump obj omit_coder db) = fst (csv_dump obj' omit_coder' db') ->
  omit_coder = omit_coder' /\ vs = vs'.
Proof.
  intros E1 E2 N1 N2. rewrite !csv_dump_eq. cbn [fst]. rewrite E1, E2. intros [= Hw].
  pose proof (csv_dump_values_length _ _ _ _ E1) as L1.
  pose proof (csv_dump_values_length _ _ _ _ E2) as L2.
  assert (Hvs : vs = vs').
  { rewrite <- (map_c_string_nul_free vs N1), <- (map_c_string_nul_free vs' N2).
    apply writerow_injective; [| | exact Hw].
    - intros ->. destruct omit_coder; discriminate L1.
    - intros ->. destruct omit_coder'; discriminate L2. }
  subst vs'. split; [| reflexivity].
  rewrite L1 in L2. destruct omit_coder, omit_coder'; try reflexivity; discriminate L2.
Qed.

(** ** What the import leaves behind *)

Lemma for_tag_names_rows names : forall db r db',
  for_tag_names names db = (r, db') ->
  forall n, In n (HourTag_rows db') -> In n (HourTag_rows db) \/ In n names.
Proof.
  induction names as [| n0 ns IH]; intros db r db' H n Hn.
  - simpl in H. inversion H; subst. left. exact Hn.
  - simpl in H. unfold bind at 1 in H. rewrite HourTag_get_or_create_eq in H.
    destruct (select (String.eqb n0) 1 (HourTag_rows db)) as [| [k x] [| ? ?]] eqn:Es.
    + unfold bind at 1 in H.
      destruct (for_tag_names ns _) as [r1 db1] eqn:E1.
      assert (db1 = db') by (destruct r1; simpl in H; inversion H; reflexivity). subst db1.
      destruct (IH _ _ _ E1 n Hn) as [Hin | Hin]; [| right; right; exact Hin].
      simpl in Hin. apply in_app_or in Hin. destruct Hin as [Hin | [<- | []]];
        [left; exact Hin | right; left; reflexivity].
    + unfold bind at 1 in H.
      destruct (for_tag_names ns db) as [r1 db1] eqn:E1.
      assert (db1 = db') by (destruct r1; simpl in H; inversion H; reflexivity). subst db1.
      destruct (IH _ _ _ E1 n Hn) as [Hin | Hin]; [left; exact Hin | right; right; exact Hin].
    + inversion H; subst. left. exact Hn.
Qed.

Lemma for_tag_names_ext names db r db' :
  for_tag_names names db = (r, db') ->
  exists ext,
    db' = set_HourTag_rows (HourTag_rows db ++ ext) db
    /\ List.NoDup ext
    /\ (forall n, In n ext -> In n names /\ ~ In n (HourTag_rows db))
    /\ forall ts, r = Ok ts -> Forall2 (tag_at (HourTag_rows db ++ ext)) names ts.
Proof.
  intros H. pose proof (for_tag_names_rows _ _ _ _ H) as Hrows.
  apply for_tag_names_spec in H. destruct H as (ext & -> & Hnew & Hnd & Hts).
  exists ext. split; [reflexivity |]. split; [exact Hnd |]. split; [| exact Hts].
  intros n Hn. split; [| exact (Hnew n Hn)].
  destruct (Hrows n) as [Hin | Hin]; [simpl; apply in_or_app; right; exact Hn | | exact Hin].
  exfalso. exact (Hnew n Hn Hin).
Qed.

(** What a call of [get_or_create_parsed] leaves behind, whatever its
    outcome. *)
Lemma get_or_create_parsed_shape parsed tags db r db' :
  _tags_to_be parsed = Some tags -> tags <> [] ->
  get_or_create_parsed parsed db = (r, db') ->
  exists ext,
    List.NoDup ext
    /\ (forall n, In n ext -> In n tags /\ ~ In n (HourTag_rows db))
    /\ ((exists e, r = Raise e
          /\ (db' = set_HourTag_rows (HourTag_rows db ++ ext) db
              \/ (exists a,
                    select (lookup_matches (HOURS_IDENTITY_FIELDS parsed)) 1 (Hours_rows db)
                    = []
                    /\ Decimal_column W (amount parsed) = Some a
                    /\ db' = set_HourTag_rows (HourTag_rows db ++ ext)
                               (set_Hours_rows
                                  (Hours_rows db
                                   ++ [set_amount a
                                         (Hours_of_kwargs (HOURS_IDENTITY_FIELDS parsed))])
                                  db))
              \/ (exists k r0 ts,
                    select (lookup_matches (HOURS_IDENTITY_FIELDS parsed)) 1 (Hours_rows db)
                    = [(S k, r0)]
                    /\ Decimal_column W (amount r0) = None
                    /\ db' = imported_db db false k
                               {| pk := Some (S k); fields := r0; _tags_to_be := None |}
                               ext ts)))
        \/ (exists obj (created : bool) k ts,
              r = Ok (obj, created) /\ pk obj = Some (S k)
              /\ db' = imported_db db created k (written obj) ext ts
              /\ Forall2 (tag_at (HourTag_rows db ++ ext)) tags ts
              /\ (if created then k = length (Hours_rows db) else k < length (Hours_rows db)))).
Proof.
  intros Et Hne. rewrite get_or_create_parsed_eq, Et.
  destruct tags as [| t tags]; [congruence |].
  rewrite Hours_get_or_create_eq.
  destruct (select _ 1 (Hours_rows db)) as [| [j r0] [| ? ?]] eqn:Es.
  - change (q_amount W (HOURS_IDENTITY_FIELDS parsed)) with (amount parsed).
    destruct (Decimal_column W (amount parsed)) as [a |] eqn:Ea.
    2:{ intros H. inversion H; subst. exists []. split; [constructor |].
        split; [intros n [] |]. left. eexists. split; [reflexivity |]. left.
        rewrite app_nil_r, set_HourTag_rows_id. reflexivity. }
    cbv zeta. cbn [fst snd].
    destruct (for_tag_names _ _) as [[ts | e1] db2] eqn:Ef.
    + apply for_tag_names_ext in Ef. destruct Ef as (ext & Hdb2 & Hnd & Hext & Hts).
      specialize (Hts ts eq_refl). cbn in Hdb2, Hext, Hts.
      unfold set_tags. cbn [set_extra pk]. unfold update. rewrite save_eq.
      change (amount (fields (set_extra ?x ?o))) with (amount (fields o)).
      cbn [fields Hours_of_kwargs amount HOURS_IDENTITY_FIELDS q_amount]. rewrite Ea.
      intros H. inversion H; subst. clear H.
      exists ext. split; [exact Hnd |]. split; [exact Hext |]. right.
      eexists _, true, (length (Hours_rows db)), ts.
      split; [reflexivity |]. split; [reflexivity |]. split; [| split; [exact Hts | reflexivity]].
      unfold imported_db, set_Hours_rows, set_Hours_tags_rows, set_HourTag_rows.
      cbn [User_rows Project_rows Hours_rows HourTag_rows Hours_tags_rows set_extra pk fields].
      rewrite length_app. cbn [length].
      replace (length (Hours_rows db) <? length (Hours_rows db) + 1) with true
        by (symmetry; apply Nat.ltb_lt; lia).
      rewrite insert_last. unfold written. cbn [fields].
      rewrite (column_row_Some _ a); [reflexivity | exact Ea].
    + apply for_tag_names_ext in Ef. destruct Ef as (ext & Hdb2 & Hnd & Hext & _).
      cbn in Hdb2, Hext. intros H. inversion H; subst. clear H.
      exists ext. split; [exact Hnd |]. split; [exact Hext |]. left.
      eexists. split; [reflexivity |]. right. left. exists a.
      split; [reflexivity |]. split; [first [exact Ea | reflexivity] | reflexivity].
  - cbv zeta. cbn [fst snd].
    pose proof (select_single _ _ _ _ _ Es) as (Hj & Hlk & _).
    destruct j as [| k]; [lia |].
    cbn in Hlk. rewrite Nat.sub_0_r in Hlk.
    assert (Hk : k < length (Hours_rows db)) by (eapply lookup_lt_Some, Hlk).
    destruct (for_tag_names _ _) as [[ts | e1] db2] eqn:Ef.
    + apply for_tag_names_ext in Ef. destruct Ef as (ext & Hdb2 & Hnd & Hext & Hts).
      specialize (Hts ts eq_refl).
      unfold set_tags. cbn [set_extra pk]. unfold update. rewrite save_eq.
      change (amount (fields (set_extra ?x ?o))) with (amount (fields o)).
      cbn [fields]. destruct (Decimal_column W (amount r0)) as [a |] eqn:Ea.
      * intros H. inversion H; subst. clear H.
        exists ext. split; [exact Hnd |]. split; [exact Hext |]. right.
        eexists _, false, k, ts.
        split; [reflexivity |]. split; [reflexivity |].
        split; [| split; [exact Hts | exact Hk]].
        unfold imported_db, set_Hours_rows, set_Hours_tags_rows, set_HourTag_rows.
        cbn [User_rows Project_rows Hours_rows HourTag_rows Hours_tags_rows set_extra pk
             fields].
        replace (k <? length (Hours_rows db)) with true
          by (symmetry; apply Nat.ltb_lt; exact Hk).
        unfold written. cbn [fields].
        rewrite (column_row_Some _ a); [reflexivity | exact Ea].
      * intros H. inversion H; subst. clear H.
        exists ext. split; [exact Hnd |]. split; [exact Hext |]. left.
        eexists. split; [reflexivity |]. right. right. exists k, r0, ts.
        split; [reflexivity |]. split; [first [exact Ea | reflexivity] |].
        unfold imported_db, set_Hours_rows, set_Hours_tags_rows, set_HourTag_rows.
        cbn [User_rows Project_rows Hours_rows HourTag_rows Hours_tags_rows fields].
        rewrite (list_insert_id (Hours_rows db) k r0 Hlk). reflexivity.
    + apply for_tag_names_ext in Ef. destruct Ef as (ext & Hdb2 & Hnd & Hext & _).
      intros H. inversion H; subst. clear H.
      exists ext. split; [exact Hnd |]. split; [exact Hext |]. left.
      eexists. split; [reflexivity |]. left. reflexivity.
  - intros H. inversion H; subst. exists []. split; [constructor |]. split; [intros n [] |].
    left. eexists. split; [reflexivity |]. left.
    rewrite app_nil_r, set_HourTag_rows_id. reflexivity.
Qed.

Lemma stored_imported_other db (created : bool) k obj ext ts j :
  (if created then k = length (Hours_rows db) else k < length (Hours_rows db)) ->
  j <> S k ->
  stored (imported_db db created k obj ext ts) j = stored db j.
Proof.
  intros Hk Hj. destruct j as [| i]; [reflexivity |].
  unfold stored, imported_db. cbn [Hours_rows].
  destruct created.
  - subst k. destruct (Nat.lt_ge_cases i (length (Hours_rows db))) as [Hlt | Hge].
    + apply lookup_app_l. exact Hlt.
    + rewrite (lookup_ge_None_2 (Hours_rows db) i Hge).
      apply lookup_ge_None_2. rewrite length_app. cbn. lia.
  - apply list_lookup_insert_ne. lia.
Qed.

Lemma stored_imported_self db (created : bool) k obj ext ts :
  (if created then k = length (Hours_rows db) else k < length (Hours_rows db)) ->
  stored (imported_db db created k obj ext ts) (S k) = Some (fields obj).
Proof.
  intros Hk. unfold stored, imported_db. cbn [Hours_rows]. destruct created.
  - subst k. rewrite lookup_app_r by lia. rewrite Nat.sub_diag. reflexivity.
  - apply list_lookup_insert_eq. exact Hk.
Qed.

Lemma length_imported db (created : bool) k obj ext ts :
  length (Hours_rows (imported_db db created k obj ext ts))
  = if created then S (length (Hours_rows db)) else length (Hours_rows db).
Proof.
  unfold imported_db. cbn [Hours_rows]. destruct created.
  - rewrite length_app. cbn. lia.
  - apply length_insert.
Qed.

Lemma relation_imported_other db (created : bool) k obj ext ts j t :
  j <> S k ->
  (In (j, t) (Hours_tags_rows (imported_db db created k obj ext ts))
   <-> In (j, t) (Hours_tags_rows db)).
Proof.
  intros Hj. unfold imported_db. cbn [Hours_tags_rows].
  rewrite in_app_iff, filter_In, in_map_iff. cbn [fst]. split.
  - intros [[H _] | (x & [= <- <-] & _)]; [exact H | congruence].
  - intros H. left. split; [exact H |]. apply negb_true_iff, Nat.eqb_neq. exact Hj.
Qed.

Lemma csv_parse_row_tags row coder db parsed :
  fst (_csv_parse row coder db) = Ok parsed ->
  _tags_to_be parsed = Some (normalize_tags (row_tags row coder))
  /\ normalize_tags (row_tags row coder) <> [].
Proof.
  intros H. apply csv_parse_ok in H.
  destruct H as (c & f & p & d & amt & Hu & Ht & _ & _ & _ & _ & ->).
  rewrite <- (unpack_row_tags _ _ _ _ _ Hu). split; [reflexivity | exact Ht].
Qed.

Lemma csv_get_or_create_tag_rows row coder db :
  exists ext,
    HourTag_rows (snd (csv_get_or_create row coder db)) = HourTag_rows db ++ ext
    /\ List.NoDup ext
    /\ forall n, In n ext -> In n (normalize_tags (row_tags row coder))
                             /\ ~ In n (HourTag_rows db).
Proof.
  rewrite csv_get_or_create_eq.
  destruct (fst (_csv_parse row coder db)) as [parsed | e0] eqn:Ep.
  - destruct (csv_parse_row_tags _ _ _ _ Ep) as [Et Hne].
    destruct (get_or_create_parsed parsed db) as [r db'] eqn:Eg. cbn [snd].
    destruct (get_or_create_parsed_shape _ _ _ _ _ Et Hne Eg)
      as (ext & Hnd & Hext & [(e & _ & [-> | [(a & _ & _ & ->) | (k & r0 & ts & _ & _ & ->)]])
                              | (obj & created & k & ts & _ & _ & -> & _)]);
      exists ext; repeat split; try assumption; apply Hext; assumption.
  - exists []. cbn [snd]. rewrite app_nil_r. split; [reflexivity |].
    split; [constructor | intros n []].
Qed.

Lemma HourTag_by_pk_app rows ext t :
  t <= length rows -> HourTag_by_pk (rows ++ ext) t = HourTag_by_pk rows t.
Proof.
  intros H. destruct t as [| i]; [reflexivity |]. unfold HourTag_by_pk.
  rewrite lookup_app_l by lia. reflexivity.
Qed.

Lemma omap_cons_eq {A B} (f : A -> option B) x l :
  omap f (x :: l) = match f x with Some y => y :: omap f l | None => omap f l end.
Proof. reflexivity. Qed.

Lemma tags_of_other (j : nat) (rows ext : list string) (rel rel' : list (nat * nat)) :
  List.filter (fun p : nat * nat => fst p =? j) rel'
  = List.filter (fun p : nat * nat => fst p =? j) rel ->
  (forall t, In (j, t) rel -> t <= length rows) ->
  omap (fun p : nat * nat => if fst p =? j then HourTag_by_pk (rows ++ ext) (snd p) else None) rel'
  = omap (fun p : nat * nat => if fst p =? j then HourTag_by_pk rows (snd p) else None) rel.
Proof.
  intros Hf Hin.
  assert (G : forall (g : nat -> option HourTag) (l : list (nat * nat)),
            omap (fun p : nat * nat => if fst p =? j then g (snd p) else None) l
            = omap (fun p : nat * nat => g (snd p))
                   (List.filter (fun p : nat * nat => fst p =? j) l)).
  { intros g l. induction l as [| [a b] l IH]; [reflexivity |].
    rewrite omap_cons_eq. cbn [List.filter fst snd].
    destruct (a =? j); [rewrite omap_cons_eq |]; rewrite IH; reflexivity. }
  rewrite !G, Hf. clear Hf rel'.
  induction rel as [| [a b] rel IH]; [reflexivity |]. cbn [List.filter fst].
  destruct (a =? j) eqn:E.
  - rewrite !omap_cons_eq. cbn [snd]. apply Nat.eqb_eq in E. subst a.
    rewrite HourTag_by_pk_app by (apply Hin; left; reflexivity).
    rewrite IH; [reflexivity |]. intros t Ht. apply Hin. right. exact Ht.
  - apply IH. intros t Ht. apply Hin. right. exact Ht.
Qed.

Lemma filter_imported_other j k (rel : list (nat * nat)) (js : list nat) :
  j <> S k ->
  List.filter (fun p : nat * nat => fst p =? j)
    (List.filter (fun p : nat * nat => negb (fst p =? S k)) rel ++ List.map (pair (S k)) js)
  = List.filter (fun p : nat * nat => fst p =? j) rel.
Proof.
  intros Hj. rewrite List.filter_app.
  assert (E1 : List.filter (fun p : nat * nat => fst p =? j) (List.map (pair (S k)) js) = []).
  { induction js as [| x js IH]; [reflexivity |]. cbn [List.map List.filter fst].
    replace (S k =? j) with false by (symmetry; apply Nat.eqb_neq; congruence). exact IH. }
  rewrite E1, app_nil_r.
  induction rel as [| [a b] rel IH]; [reflexivity |]. cbn [List.filter fst].
  destruct (a =? S k) eqn:Ea; cbn [negb].
  - apply Nat.eqb_eq in Ea. subst a.
    replace (S k =? j) with false by (symmetry; apply Nat.eqb_neq; congruence). exact IH.
  - cbn [List.filter fst]. destruct (a =? j); rewrite IH; reflexivity.
Qed.

(** X10.  What [csv_get_or_create] never touches, whatever its outcome:
    the user and the project table stay as they are; the tag table keeps
    its rows and their keys, and what is appended are names of the row,
    each once, that were not there; the hours table loses no row and
    gains at most one; every stored entry other than the one returned
    keeps its row and, when its amount is one the column takes, its rows
    in the tag relation and, when its tags exist, its tag names. *)
Theorem csv_get_or_create_frame (row : list string) (coder : option Coder) (db : DB W) :
  let r := fst (csv_get_or_create row coder db) in
  let db' := snd (csv_get_or_create row coder db) in
  User_rows db' = User_rows db
  /\ Project_rows db' = Project_rows db
  /\ (exists ext, HourTag_rows db' = HourTag_rows db ++ ext /\ List.NoDup ext
        /\ forall n, In n ext -> In n (normalize_tags (row_tags row coder))
                                 /\ ~ In n (HourTag_rows db))
  /\ length (Hours_rows db) <= length (Hours_rows db') <= S (length (Hours_rows db))
  /\ (forall j r0, stored db j = Some r0 ->
        stored db' j = Some r0 \/ exists obj created, r = Ok (obj, created) /\ pk obj = Some j)
  /\ (forall j t, (forall obj created, r = Ok (obj, created) -> pk obj <> Some j) ->
        (forall r0, stored db j = Some r0 -> Decimal_column W (amount r0) <> None) ->
        (In (j, t) (Hours_tags_rows db') <-> In (j, t) (Hours_tags_rows db)))
  /\ (forall j, (forall obj created, r = Ok (obj, created) -> pk obj <> Some j) ->
        (forall r0, stored db j = Some r0 -> Decimal_column W (amount r0) <> None) ->
        (forall t, In (j, t) (Hours_tags_rows db) -> t <= length (HourTag_rows db)) ->
        stored_tag_names db' j = stored_tag_names db j).
Proof.
  cbv zeta. rewrite csv_get_or_create_eq.
  assert (Hsame : forall (d : DB W) ext j,
            (forall t, In (j, t) (Hours_tags_rows db) -> t <= length (HourTag_rows db)) ->
            HourTag_rows d = HourTag_rows db ++ ext ->
            Hours_tags_rows d = Hours_tags_rows db ->
            stored_tag_names d j = stored_tag_names db j).
  { intros d ext j Hin Ht Hr. unfold stored_tag_names. rewrite !tags_all_eq, Ht, Hr.
    f_equal. apply tags_of_other; [reflexivity | exact Hin]. }
  destruct (fst (_csv_parse row coder db)) as [parsed | e0] eqn:Ep.
  - destruct (csv_parse_row_tags _ _ _ _ Ep) as [Et Hne].
    destruct (get_or_create_parsed parsed db) as [r db'] eqn:Eg. cbn [fst snd].
    destruct (get_or_create_parsed_shape _ _ _ _ _ Et Hne Eg)
      as (ext & Hnd & Hext & [(e & -> & [-> | [(a & Hsel & Ha & ->)
                                               | (k & r1 & ts & Hsel & Hc & ->)]])
                              | (obj & created & k & ts & -> & Hpk & -> & Hts & Hk)]).
    + cbn. split; [reflexivity |]. split; [reflexivity |].
      split; [exists ext; auto |]. split; [lia |].
      split; [intros j r0 Hs; left; exact Hs |]. split; [intros j t _ _; reflexivity |].
      intros j _ _ Hin.
      exact (Hsame (set_HourTag_rows (HourTag_rows db ++ ext) db) ext j Hin eq_refl eq_refl).
    + cbn. split; [reflexivity |]. split; [reflexivity |].
      split; [exists ext; auto |]. split; [rewrite length_app; cbn; lia |].
      split; [| split; [intros j t _ _; reflexivity |
                        intros j _ _ Hin;
                        exact (Hsame (set_HourTag_rows (HourTag_rows db ++ ext)
                                        (set_Hours_rows
                                           (Hours_rows db
                                            ++ [set_amount a
                                                  (Hours_of_kwargs
                                                     (HOURS_IDENTITY_FIELDS parsed))])
                                           db)) ext j Hin eq_refl eq_refl)]].
      intros j r0 Hs. left. destruct j as [| i]; [discriminate Hs |]. cbn in Hs |- *.
      rewrite lookup_app_l; [exact Hs | eapply lookup_lt_Some, Hs].
    + pose proof (select_single _ _ _ _ _ Hsel) as (_ & Hlk & _).
      cbn in Hlk. rewrite Nat.sub_0_r in Hlk.
      assert (Hk : k < length (Hours_rows db)) by (eapply lookup_lt_Some, Hlk).
      assert (Hrows : Hours_rows (imported_db db false k
                                    {| pk := Some (S k); fields := r1; _tags_to_be := None |}
                                    ext ts) = Hours_rows db).
      { unfold imported_db. cbn [Hours_rows fields]. apply list_insert_id. exact Hlk. }
      assert (Hother : forall j, (forall r0, stored db j = Some r0 ->
                                             Decimal_column W (amount r0) <> None) ->
                                 j <> S k).
      { intros j Hj ->. exact (Hj r1 Hlk Hc). }
      split; [reflexivity |]. split; [reflexivity |].
      split; [exists ext; auto |].
      split; [rewrite Hrows; lia |].
      split; [| split].
      * intros j r0 Hs. left. destruct j as [| i]; [discriminate Hs |].
        unfold stored. rewrite Hrows. exact Hs.
      * intros j t _ Hj. apply relation_imported_other. exact (Hother j Hj).
      * intros j _ Hj Hin. unfold stored_tag_names. rewrite !tags_all_eq. f_equal.
        unfold imported_db. cbn [HourTag_rows Hours_tags_rows].
        apply tags_of_other; [apply filter_imported_other; exact (Hother j Hj) | exact Hin].
    + split; [reflexivity |]. split; [reflexivity |].
      split; [exists ext; auto |].
      split; [rewrite length_imported; destruct created; lia |].
      split; [| split].
      * intros j r0 Hs. destruct (Nat.eq_dec j (S k)) as [-> | Hj].
        -- right. eauto.
        -- left. rewrite (stored_imported_other _ _ _ _ _ _ _ Hk Hj). exact Hs.
      * intros j t Hj _. apply relation_imported_other. intros ->.
        exact (Hj obj created eq_refl Hpk).
      * intros j Hj _ Hin.
        assert (Hne' : j <> S k) by (intros ->; exact (Hj obj created eq_refl Hpk)).
        unfold stored_tag_names. rewrite !tags_all_eq. f_equal.
        unfold imported_db. cbn [HourTag_rows Hours_tags_rows].
        apply tags_of_other; [apply filter_imported_other; exact Hne' | exact Hin].
  - cbn. split; [reflexivity |]. split; [reflexivity |].
    split; [exists []; rewrite app_nil_r; repeat split; [constructor | destruct H | destruct H] |].
    split; [lia |]. split; [intros j r0 Hs; left; exact Hs |].
    split; [intros j t _ _; reflexivity | intros j _ _ _; reflexivity].
Qed.

Lemma imported_matches (parsed : Hours W) db created k r0 obj ext ts :
  obj = set_extra (HOURS_EXTRA_FIELDS parsed)
                  {| pk := Some (S k); fields := r0; _tags_to_be := None |} ->
  (if (created : bool)
   then select (lookup_matches (HOURS_IDENTITY_FIELDS parsed)) 1 (Hours_rows db) = []
        /\ k = length (Hours_rows db)
        /\ r0 = Hours_of_kwargs (HOURS_IDENTITY_FIELDS parsed)
   else select (lookup_matches (HOURS_IDENTITY_FIELDS parsed)) 1 (Hours_rows db)
        = [(S k, r0)]) ->
  select (lookup_matches (HOURS_IDENTITY_FIELDS parsed)) 1
         (Hours_rows (imported_db db created k obj ext ts))
  = [(S k, fields obj)].
Proof.
  intros Hobj Hsel.
  pose proof (matches_of_found parsed _ _ _ _ Hsel) as Hm.
  assert (Hsel' : if created
                  then select (lookup_matches (HOURS_IDENTITY_FIELDS parsed)) 1 (Hours_rows db) = []
                       /\ k = length (Hours_rows db)
                  else select (lookup_matches (HOURS_IDENTITY_FIELDS parsed)) 1 (Hours_rows db)
                       = [(S k, r0)]).
  { destruct created; tauto. }
  assert (Hmo : lookup_matches (HOURS_IDENTITY_FIELDS parsed) (fields obj) = true).
  { subst obj. exact Hm. }
  exact (imported_select _ _ _ _ _ (fields obj) Hsel' Hmo).
Qed.

Lemma identity_of_same (a b : HoursFields W) q :
  same_identity a b -> lookup_matches (HOURS_IDENTITY_FIELDS a) q = lookup_matches (HOURS_IDENTITY_FIELDS b) q.
Proof.
  intros Hs. destruct (lookup_matches (HOURS_IDENTITY_FIELDS b) q) eqn:E.
  - apply same_identity_matches. apply same_identity_matches in E.
    eapply same_identity_trans; [exact E |]. apply same_identity_sym, Hs.
  - destruct (lookup_matches (HOURS_IDENTITY_FIELDS a) q) eqn:E'; [| reflexivity].
    apply same_identity_matches in E'.
    assert (same_identity q b) by (eapply same_identity_trans; eauto).
    apply same_identity_matches in H. congruence.
Qed.

Lemma select_ext {A} (p p' : A -> bool) k rows :
  (forall x, p x = p' x) -> select p k rows = select p' k rows.
Proof.
  intros H. revert k. induction rows as [| x rows IH]; intros k; simpl; [reflexivity |].
  rewrite H, IH. reflexivity.
Qed.

Lemma identity_unique_rows db db' :
  Hours_rows db' = Hours_rows db -> identity_unique db -> identity_unique db'.
Proof.
  intros E Hu k1 k2 r1 r2 H1 H2. apply Hu.
  - destruct k1; [discriminate H1 |]. cbn in *. rewrite <- E. exact H1.
  - destruct k2; [discriminate H2 |]. cbn in *. rewrite <- E. exact H2.
Qed.

(** A row that meets the lookup of [parsed] and is the only one to meet
    it can take any key's place among rows that are unique. *)
Lemma identity_unique_step db db' (q : HoursFields W) K x :
  identity_unique db ->
  (forall j, j <> K -> stored db' j = stored db j) ->
  stored db' K = Some x ->
  select (lookup_matches (HOURS_IDENTITY_FIELDS q)) 1 (Hours_rows db') = [(K, x)] ->
  identity_unique db'.
Proof.
  intros Hu Hother Hself Hsel k1 k2 r1 r2 H1 H2 Hs.
  assert (Hx : same_identity x q).
  { apply same_identity_matches.
    pose proof (proj1 (select_In _ _ _ _ _) ltac:(rewrite Hsel; left; reflexivity))
      as (_ & _ & Hm). exact Hm. }
  assert (Honly : forall j r, stored db' j = Some r -> same_identity r x -> j = K).
  { intros j r Hj Hr.
    assert (Hin : In (j, r) (select (lookup_matches (HOURS_IDENTITY_FIELDS q)) 1 (Hours_rows db'))).
    { apply select_stored. split; [exact Hj |]. apply same_identity_matches.
      eapply same_identity_trans; [exact Hr | exact Hx]. }
    rewrite Hsel in Hin. destruct Hin as [[= -> _] | []]. reflexivity. }
  destruct (Nat.eq_dec k1 K) as [-> | N1].
  - rewrite Hself in H1. inversion H1; subst r1. symmetry.
    apply (Honly k2 r2 H2). apply same_identity_sym, Hs.
  - destruct (Nat.eq_dec k2 K) as [-> | N2].
    + rewrite Hself in H2. inversion H2; subst r2. exfalso. apply N1.
      apply (Honly k1 r1 H1 Hs).
    + rewrite (Hother k1 N1) in H1. rewrite (Hother k2 N2) in H2. exact (Hu _ _ _ _ H1 H2 Hs).
Qed.

Lemma select_appended (q : Identity W) rows :
  select (lookup_matches q) 1 rows = [] ->
  select (lookup_matches q) 1 (rows ++ [Hours_of_kwargs q])
  = [(S (length rows), Hours_of_kwargs q)].
Proof.
  intros Es. rewrite select_app, Es. cbn. rewrite lookup_matches_kwargs. cbn.
  reflexivity.
Qed.

Lemma amount_written (obj : Hours W) a :
  Decimal_column W (amount obj) = Some a -> amount (written obj) = a.
Proof.
  intros H. unfold written. cbn [fields]. rewrite (column_row_Some _ a H). reflexivity.
Qed.

(** X11.  The invariants [csv_get_or_create] relies on, whatever its
    outcome.  Tag names that were unique stay unique, and tag names that
    were all normalized stay so.  Entries whose identities were unique
    stay so when the column does not round the amount of the row: it
    holds it as it is, or refuses it.  And when an amount that the
    column has made is one it holds as it is, the stored amounts stay
    amounts of that kind. *)
Theorem csv_get_or_create_invariants (row : list string) (coder : option Coder) (db : DB W) :
  let db' := snd (csv_get_or_create row coder db) in
  (List.NoDup (HourTag_rows db) -> List.NoDup (HourTag_rows db'))
  /\ ((forall parsed a, fst (_csv_parse row coder db) = Ok parsed ->
         Decimal_column W (amount parsed) = Some a -> a = amount parsed) ->
      identity_unique db -> identity_unique db')
  /\ (Forall tag_name_normal (HourTag_rows db) -> Forall tag_name_normal (HourTag_rows db'))
  /\ ((forall a b, Decimal_column W a = Some b -> column_keeps b) ->
      amounts_in_column db -> amounts_in_column db').
Proof.
  cbv zeta.
  destruct (csv_get_or_create_tag_rows row coder db) as (ext & Hrows & Hnd & Hext).
  split; [| split; [| split]].
  - intros H. rewrite Hrows.
    apply List.NoDup_app; [exact H | exact Hnd |].
    intros n Hn Hin. exact (proj2 (Hext n Hin) Hn).
  - intros Hround Hu. rewrite csv_get_or_create_eq.
    destruct (fst (_csv_parse row coder db)) as [parsed | e0] eqn:Ep; [| exact Hu].
    specialize (Hround parsed).
    destruct (csv_parse_row_tags _ _ _ _ Ep) as [Et Hne].
    destruct (get_or_create_parsed parsed db) as [r db'] eqn:Eg. cbn [snd].
    destruct r as [[obj created] | e].
    + destruct (get_or_create_parsed_amount _ _ _ _ _ Eg) as (Hamt & a & Ha).
      assert (Hkeep : column_keeps (amount obj)).
      { unfold column_keeps. rewrite Hamt, Ha. f_equal. exact (Hround a eq_refl Ha). }
      apply get_or_create_parsed_ok in Eg.
      destruct Eg as (tags & k & r0 & ts & ext' & _ & _ & Hobj & Hsel & _ & _ & _ & ->).
      rewrite (written_keeps obj Hkeep).
      pose proof (imported_matches parsed db created k r0 obj ext' ts Hobj Hsel) as Es.
      assert (Hk : if created then k = length (Hours_rows db) else k < length (Hours_rows db)).
      { destruct created; [tauto |]. apply select_single in Hsel.
        destruct Hsel as (_ & Hlk & _). cbn in Hlk. rewrite Nat.sub_0_r in Hlk.
        eapply lookup_lt_Some, Hlk. }
      eapply (identity_unique_step db _ parsed (S k) (fields obj) Hu).
      * intros j Hj. apply stored_imported_other; assumption.
      * apply stored_imported_self. exact Hk.
      * exact Es.
    + destruct (get_or_create_parsed_shape _ _ _ _ _ Et Hne Eg)
        as (ext' & _ & _ & [(e' & _ & [-> | [(a & Hsel & Ha & ->)
                                            | (k & r1 & ts & Hsel & Hc & ->)]])
                            | (obj & created & k & ts & Hr & _)]).
      * apply (identity_unique_rows db); [reflexivity | exact Hu].
      * assert (Erow : set_amount a (Hours_of_kwargs (HOURS_IDENTITY_FIELDS parsed))
                       = Hours_of_kwargs (HOURS_IDENTITY_FIELDS parsed)).
        { rewrite (Hround a eq_refl Ha).
          exact (set_amount_id (Hours_of_kwargs (HOURS_IDENTITY_FIELDS parsed))). }
        rewrite Erow.
        eapply (identity_unique_step db _ parsed (S (length (Hours_rows db)))
                  (Hours_of_kwargs (HOURS_IDENTITY_FIELDS parsed)) Hu).
        -- intros j Hj. destruct j as [| i]; [reflexivity |]. cbn.
           destruct (Nat.lt_ge_cases i (length (Hours_rows db))) as [Hlt | Hge].
           ++ apply lookup_app_l. exact Hlt.
           ++ rewrite (lookup_ge_None_2 (Hours_rows db) i Hge).
              apply lookup_ge_None_2. rewrite length_app. cbn. lia.
        -- cbn. rewrite lookup_app_r by lia. rewrite Nat.sub_diag. reflexivity.
        -- cbn. apply select_appended. exact Hsel.
      * pose proof (select_single _ _ _ _ _ Hsel) as (_ & Hlk & _).
        cbn in Hlk. rewrite Nat.sub_0_r in Hlk.
        apply (identity_unique_rows db); [| exact Hu].
        unfold imported_db. cbn [Hours_rows fields]. apply list_insert_id. exact Hlk.
      * discriminate Hr.
  - intros H. rewrite Hrows. apply Forall_app. split; [exact H |].
    apply Forall_forall. intros n Hn.
    pose proof (normalize_tags_normal (row_tags row coder)) as Hall.
    rewrite Forall_forall in Hall. apply Hall. apply list_elem_of_In.
    apply (Hext n). apply list_elem_of_In. exact Hn.
  - intros Hidem Hcol. rewrite csv_get_or_create_eq.
    destruct (fst (_csv_parse row coder db)) as [parsed | e0] eqn:Ep; [| exact Hcol].
    destruct (csv_parse_row_tags _ _ _ _ Ep) as [Et Hne].
    destruct (get_or_create_parsed parsed db) as [r db'] eqn:Eg. cbn [snd].
    destruct (get_or_create_parsed_shape _ _ _ _ _ Et Hne Eg)
      as (ext' & _ & _ & [(e' & Hr & [-> | [(a & Hsel & Ha & ->)
                                           | (k & r1 & ts & Hsel & Hc & ->)]])
                          | (obj & created & k & ts & Hr & Hpk & -> & _ & Hk)]).
    + exact Hcol.
    + intros j r0 Hs. destruct j as [| i]; [discriminate Hs |]. cbn in Hs.
      destruct (Nat.lt_ge_cases i (length (Hours_rows db))) as [Hlt | Hge].
      * rewrite lookup_app_l in Hs by exact Hlt. exact (Hcol (S i) r0 Hs).
      * rewrite lookup_app_r in Hs by exact Hge.
        destruct (i - length (Hours_rows db)) as [| m]; [| discriminate Hs].
        inversion Hs; subst r0. exact (Hidem _ _ Ha).
    + pose proof (select_single _ _ _ _ _ Hsel) as (_ & Hlk & _).
      cbn in Hlk. rewrite Nat.sub_0_r in Hlk.
      intros j r0 Hs. apply (Hcol j r0). destruct j as [| i]; [discriminate Hs |].
      unfold stored, imported_db in Hs. cbn [Hours_rows fields] in Hs.
      rewrite (list_insert_id (Hours_rows db) k r1 Hlk) in Hs. exact Hs.
    + subst r. destruct (get_or_create_parsed_amount _ _ _ _ _ Eg) as (Hamt & a & Ha).
      intros j r0 Hs. destruct (Nat.eq_dec j (S k)) as [-> | Hj].
      * rewrite (stored_imported_self _ _ _ _ _ _ Hk) in Hs. inversion Hs; subst r0.
        change (column_keeps (amount (written obj))).
        rewrite (amount_written obj a) by (rewrite Hamt; exact Ha).
        exact (Hidem _ _ Ha).
      * rewrite (stored_imported_other _ _ _ _ _ _ _ Hk Hj) in Hs. exact (Hcol j r0 Hs).
Qed.

(** ** similar_row_exists *)

Lemma similar_row_exists_eq (self : Hours W) db :
  similar_row_exists self db
  = (match select (lookup_matches (HOURS_IDENTITY_FIELDS self)) 1 (Hours_rows db) with
     | [] => Ok false
     | [_] => Ok true
     | _ => Raise (MultipleObjectsReturned Hours_model)
     end, db).
Proof.
  unfold similar_row_exists, bind, try_except, query, lift, ret, objects_get.
  cbv zeta. rewrite <- (select_filter _ 1).
  destruct (select _ 1 (Hours_rows db)) as [| [k r] [| [k2 r2] rest]]; reflexivity.
Qed.

(** X12.  [similar_row_exists] leaves the database as it is.  It answers
    [False] exactly when no stored entry has the identity of [self], and
    [True] exactly when one and only one has; when two have, the
    [MultipleObjectsReturned] of the lookup is not caught.  The end time,
    the raw input and the tags of [self] play no part. *)
Theorem similar_row_exists_spec (self : Hours W) (db : DB W) :
  snd (similar_row_exists self db) = db
  /\ (fst (similar_row_exists self db) = Ok false
      <-> forall k r, stored db k = Some r -> ~ same_identity r self)
  /\ (fst (similar_row_exists self db) = Ok true
      <-> exists k r, stored db k = Some r /\ same_identity r self
                      /\ forall k' r', stored db k' = Some r' -> same_identity r' self -> k' = k)
  /\ (fst (similar_row_exists self db) = Raise (MultipleObjectsReturned Hours_model)
      <-> exists k1 k2 r1 r2, k1 <> k2 /\ stored db k1 = Some r1 /\ stored db k2 = Some r2
                              /\ same_identity r1 self /\ same_identity r2 self)
  /\ (forall e, fst (similar_row_exists self db) = Raise e
                -> e = MultipleObjectsReturned Hours_model).
Proof.
  rewrite similar_row_exists_eq. cbn [fst snd].
  set (q := HOURS_IDENTITY_FIELDS self).
  assert (Hin : forall j r, In (j, r) (select (lookup_matches q) 1 (Hours_rows db))
                            <-> stored db j = Some r /\ same_identity r self).
  { intros j r. rewrite select_stored. unfold q. rewrite same_identity_matches. reflexivity. }
  split; [reflexivity |].
  destruct (select (lookup_matches q) 1 (Hours_rows db)) as [| [k r] [| [k2 r2] rest]] eqn:Es.
  - assert (Hnone : forall k r, stored db k = Some r -> ~ same_identity r self).
    { intros k r Hs Hi. apply (proj2 (Hin k r)); auto. }
    split; [split; [intros _; exact Hnone | reflexivity] |].
    split; [split; [discriminate | intros (k & r & Hs & Hi & _); exfalso; exact (Hnone k r Hs Hi)] |].
    split; [split; [discriminate |
            intros (k1 & k2 & r1 & r2 & _ & Hs & _ & Hi & _); exfalso; exact (Hnone k1 r1 Hs Hi)] |].
    intros e; discriminate.
  - pose proof (proj1 (Hin k r) ltac:(left; reflexivity)) as [Hs Hi].
    assert (Huniq : forall k' r', stored db k' = Some r' -> same_identity r' self -> k' = k).
    { intros k' r' Hs' Hi'. pose proof (proj2 (Hin k' r') (conj Hs' Hi')) as [E | []].
      congruence. }
    split; [split; [discriminate | intros Hn; exfalso; exact (Hn k r Hs Hi)] |].
    split; [split; [intros _; exists k, r; auto | reflexivity] |].
    split; [split; [discriminate |] | intros e; discriminate].
    intros (k1 & k2 & r1 & r2 & Hne & Hs1 & Hs2 & Hi1 & Hi2).
    exfalso. apply Hne. rewrite (Huniq k1 r1 Hs1 Hi1), (Huniq k2 r2 Hs2 Hi2). reflexivity.
  - pose proof (proj1 (Hin k r) ltac:(left; reflexivity)) as [Hs Hi].
    pose proof (proj1 (Hin k2 r2) ltac:(right; left; reflexivity)) as [Hs2 Hi2].
    pose proof (select_two _ _ _ _ _ _ Es) as Hlt. simpl in Hlt.
    split; [split; [discriminate | intros Hn; exfalso; exact (Hn k r Hs Hi)] |].
    split; [split; [discriminate |] |].
    { intros (k0 & r0 & _ & _ & Hu).
      pose proof (Hu k r Hs Hi) as E1. pose proof (Hu k2 r2 Hs2 Hi2) as E2.
      simpl in Hlt. rewrite E1, E2 in Hlt. exfalso. exact (Nat.lt_irrefl _ Hlt). }
    split; [split; [intros _ | reflexivity] | intros e [= <-]; reflexivity].
    exists k, k2, r, r2.
    split; [lia |]. split; [exact Hs |]. split; [exact Hs2 |]. split; assumption.
Qed.

Lemma select_insert_out {A} (p : A -> bool) k l j x y :
  select p k l = [(j, x)] -> p y = false ->
  select p k (<[j - k := y]> l) = [].
Proof.
  revert k. induction l as [| z l IH]; intros k H Hy; simpl in *; [discriminate |].
  destruct (p z) eqn:E; simpl in H.
  - inversion H; subst. rewrite Nat.sub_diag. simpl. rewrite Hy. simpl. congruence.
  - assert (Hj : S k <= j).
    { assert (Hin : In (j, x) (select p (S k) l)) by (rewrite H; left; reflexivity).
      apply select_In in Hin. tauto. }
    replace (j - k) with (S (j - S k)) by lia. simpl. rewrite E. simpl.
    apply IH; assumption.
Qed.

(** X13.  [similar_row_exists] foretells the import: on the entry parsed
    from a row it answers, before the import, whether the import will find
    the entry rather than create it.  After a successful import it
    answers [True], on the parsed entry and on the one returned, when
    the column holds the amount of the row as it is; when the column has
    rounded the amount it answers [False] on both, though the entry is
    stored. *)
Theorem similar_row_exists_import (row : list string) (coder : option Coder) (db : DB W)
    (parsed obj : Hours W) (created : bool) (db' : DB W) :
  fst (_csv_parse row coder db) = Ok parsed ->
  csv_get_or_create row coder db = (Ok (obj, created), db') ->
  similar_row_exists parsed db = (Ok (negb created), db)
  /\ same_identity obj parsed
  /\ (column_keeps (amount parsed) ->
      similar_row_exists parsed db' = (Ok true, db')
      /\ similar_row_exists obj db' = (Ok true, db'))
  /\ (~ column_keeps (amount parsed) ->
      similar_row_exists parsed db' = (Ok false, db')
      /\ similar_row_exists obj db' = (Ok false, db')).
Proof.
  intros Hp H. rewrite csv_get_or_create_eq, Hp in H.
  destruct (get_or_create_parsed_amount _ _ _ _ _ H) as (Hamt & a & Ha).
  apply get_or_create_parsed_ok in H.
  destruct H as (tags & k & r0 & ts & ext & Et & Hne & Hobj & Hsel & Hts & Hnew & Hnd & ->).
  assert (Hsame : same_identity (fields obj) (fields parsed)).
  { apply same_identity_matches. subst obj. exact (matches_of_found parsed _ _ _ _ Hsel). }
  assert (Hobj' : forall d : DB W,
            select (lookup_matches (HOURS_IDENTITY_FIELDS obj)) 1 (Hours_rows d)
            = select (lookup_matches (HOURS_IDENTITY_FIELDS parsed)) 1 (Hours_rows d)).
  { intros d. apply select_ext. intros x. apply identity_of_same. exact Hsame. }
  rewrite !similar_row_exists_eq.
  split; [| split; [exact Hsame | split]].
  - destruct created.
    + destruct Hsel as (-> & _). reflexivity.
    + rewrite Hsel. reflexivity.
  - intros Hkeep.
    assert (Hkeep' : column_keeps (amount obj)) by (rewrite Hamt; exact Hkeep).
    rewrite (written_keeps obj Hkeep').
    pose proof (imported_matches parsed db created k r0 obj ext ts Hobj Hsel) as Es.
    rewrite Hobj', Es. split; reflexivity.
  - intros Hround.
    assert (Hna : a <> amount parsed).
    { intros ->. exact (Hround Ha). }
    assert (Hrow : fields (written obj) = set_amount a (fields obj)).
    { unfold written. cbn [fields]. apply column_row_Some. rewrite Hamt. exact Ha. }
    assert (Es : select (lookup_matches (HOURS_IDENTITY_FIELDS parsed)) 1
                        (Hours_rows (imported_db db created k (written obj) ext ts)) = []).
    { unfold imported_db. cbn [Hours_rows]. rewrite Hrow.
      pose proof (lookup_matches_other_amount (HOURS_IDENTITY_FIELDS parsed) (fields obj) a
                    Hna) as Hm.
      destruct created.
      - destruct Hsel as (Hsel & _ & _). rewrite select_app, Hsel. cbn [app select].
        rewrite Hm. reflexivity.
      - pose proof (select_insert_out _ _ _ _ _ (set_amount a (fields obj)) Hsel Hm) as H'.
        simpl in H'. rewrite Nat.sub_0_r in H'. exact H'. }
    rewrite Hobj', Es. split; reflexivity.
Qed.

(** ** The tags of a stored entry, from both sides *)

Lemma tags_string_eq (self : Hours W) k db :
  pk self = Some k ->
  tags_string self db = (Ok (join ", " (stored_tag_names db k)), db).
Proof. intros E. unfold tags_string, stored_tag_names. rewrite E. reflexivity. Qed.

Lemma Forall_normal_sub (l tags : list string) :
  (forall n, In n l -> In n tags) -> Forall tag_name_normal tags -> Forall tag_name_normal l.
Proof.
  intros Hsub H. rewrite Forall_forall in H. apply Forall_forall.
  intros n Hn. apply H. apply list_elem_of_In, Hsub, list_elem_of_In, Hn.
Qed.

(** X14.  After a successful import the stored entry has, each once, the
    tag names of the row; [tags_string] joins them with a comma and a
    blank and [csv_dump] writes them joined with a comma, and
    [_csv_parse] would read either text back as these very names. *)
Theorem stored_tags_read_back (row : list string) (coder : option Coder) (db : DB W)
    (obj : Hours W) (created : bool) (db' : DB W) :
  csv_get_or_create row coder db = (Ok (obj, created), db') ->
  exists names,
    List.NoDup names
    /\ (forall n, In n names <-> In n (normalize_tags (row_tags row coder)))
    /\ tags_string obj db' = (Ok (join ", " names), db')
    /\ normalize_tags (join ", " names) = names
    /\ (forall omit_coder vs,
          fst (csv_dump_values obj omit_coder db') = Ok vs ->
          nth (if omit_coder then 5 else 6) vs "" = join "," names)
    /\ normalize_tags (join "," names) = names.
Proof.
  intros H. rewrite csv_get_or_create_eq in H.
  destruct (fst (_csv_parse row coder db)) as [parsed | e0] eqn:Ep; [| discriminate H].
  destruct (csv_parse_row_tags _ _ _ _ Ep) as [Et Hne].
  apply get_or_create_parsed_ok in H.
  destruct H as (tags & k & r0 & ts & ext & Et' & _ & Hobj & Hsel & Hts & _ & _ & ->).
  assert (tags = normalize_tags (row_tags row coder)) by congruence. subst tags.
  destruct (stored_tag_names_spec db created k (written obj) ext ts _ Hts) as [Hnd Hin].
  assert (Hpk : pk obj = Some (S k)) by (subst obj; reflexivity).
  set (d := imported_db db created k (written obj) ext ts) in *.
  assert (Hnorm : Forall tag_name_normal (stored_tag_names d (S k))).
  { apply (Forall_normal_sub _ (normalize_tags (row_tags row coder))).
    - intros n. apply Hin.
    - apply normalize_tags_normal. }
  exists (stored_tag_names d (S k)).
  split; [exact Hnd |]. split; [exact Hin |].
  split; [apply tags_string_eq; exact Hpk |].
  split; [apply normalize_tags_join_space; exact Hnorm |].
  split; [| apply normalize_tags_join_all; exact Hnorm].
  intros omit vs. rewrite csv_dump_values_eq. cbn [fst]. unfold dump_tags. rewrite Hpk.
  destruct (strftime_Ymd (date obj)); [| discriminate].
  destruct (dump_decodes obj); [| discriminate].
  intros [= <-]. destruct omit; reflexivity.
Qed.

Lemma omap_In {A B} (g : A -> option B) l y :
  In y (omap g l) <-> exists x, In x l /\ g x = Some y.
Proof.
  rewrite <- list_elem_of_In, list_elem_of_omap. split.
  - intros (x & Hx & Hg). exists x. split; [apply list_elem_of_In; exact Hx | exact Hg].
  - intros (x & Hx & Hg). exists x. split; [apply list_elem_of_In; exact Hx | exact Hg].
Qed.

Lemma iter_hours_eq (t : HourTag) db :
  iter_hours t db
  = (Ok (omap (fun p : nat * nat =>
                 if snd p =? tag_pk t then Hours_by_pk (Hours_rows db) (fst p) else None)
              (Hours_tags_rows db)), db).
Proof. reflexivity. Qed.

(** X15.  After a successful import, a tag of the table yields the
    returned entry among its [iter_hours] exactly when its name is one of
    the tag names of the row: the tags replaced are rid of the entry.  The
    entry it yields under the returned key is the returned one as the
    table holds it, that is with the amount the column has made of its
    amount: the returned entry itself when the column holds the amount
    as it is. *)
Theorem iter_hours_after_import (row : list string) (coder : option Coder) (db : DB W)
    (obj : Hours W) (created : bool) (db' : DB W) :
  csv_get_or_create row coder db = (Ok (obj, created), db') ->
  forall t, HourTag_by_pk (HourTag_rows db') (tag_pk t) = Some t ->
    exists hs a, iter_hours t db' = (Ok hs, db')
      /\ Decimal_column W (amount obj) = Some a
      /\ (In {| pk := pk obj; fields := set_amount a (fields obj); _tags_to_be := None |} hs
          <-> In (name t) (normalize_tags (row_tags row coder)))
      /\ (forall h, In h hs -> pk h = pk obj ->
            h = {| pk := pk obj; fields := set_amount a (fields obj); _tags_to_be := None |})
      /\ (column_keeps (amount obj) ->
            {| pk := pk obj; fields := set_amount a (fields obj); _tags_to_be := None |}
            = obj).
Proof.
  intros H t Ht. rewrite csv_get_or_create_eq in H.
  destruct (fst (_csv_parse row coder db)) as [parsed | e0] eqn:Ep; [| discriminate H].
  destruct (csv_parse_row_tags _ _ _ _ Ep) as [Et Hne].
  destruct (get_or_create_parsed_amount _ _ _ _ _ H) as (Hamt & a & Ha).
  rewrite <- Hamt in Ha.
  apply get_or_create_parsed_ok in H.
  destruct H as (tags & k & r0 & ts & ext & Et' & _ & Hobj & Hsel & Hts & _ & _ & ->).
  assert (tags = normalize_tags (row_tags row coder)) by congruence. subst tags.
  destruct (Forall2_tag_at _ _ _ Hts) as (Hnames & Hby & Hinj).
  assert (Hk : if created then k = length (Hours_rows db) else k < length (Hours_rows db)).
  { destruct created; [tauto |]. apply select_single in Hsel.
    destruct Hsel as (_ & Hlk & _). cbn in Hlk. rewrite Nat.sub_0_r in Hlk.
    eapply lookup_lt_Some, Hlk. }
  pose proof (stored_imported_self db created k (written obj) ext ts Hk) as Hself.
  assert (Hpk : pk obj = Some (S k)) by (subst obj; reflexivity).
  assert (Hrow : fields (written obj) = set_amount a (fields obj)).
  { unfold written. cbn [fields]. apply column_row_Some. exact Ha. }
  rewrite Hrow in Hself.
  set (d := imported_db db created k (written obj) ext ts) in *.
  set (stored_obj := {| pk := pk obj; fields := set_amount a (fields obj);
                        _tags_to_be := None |}).
  assert (Hload : Hours_by_pk (Hours_rows d) (S k) = Some stored_obj).
  { unfold Hours_by_pk. change (Hours_rows d !! k = Some (set_amount a (fields obj))) in Hself.
    rewrite Hself. cbn. unfold stored_obj. rewrite Hpk. reflexivity. }
  assert (Hloaded : forall j h, Hours_by_pk (Hours_rows d) j = Some h -> pk h = Some j).
  { intros j h. unfold Hours_by_pk. destruct j as [| i]; [discriminate |].
    destruct (Hours_rows d !! i); cbn; [| discriminate]. intros [= <-]. reflexivity. }
  assert (Hspk : pk stored_obj = Some (S k)) by exact Hpk.
  assert (Hrel : forall p, In (S k, p) (Hours_tags_rows d) <-> exists t', In t' ts /\ tag_pk t' = p).
  { intros p. unfold d, imported_db. cbn [Hours_tags_rows].
    rewrite in_app_iff, filter_In, in_map_iff. cbn [fst]. split.
    - intros [[_ Hneg] | (x & [= <-] & Hx)].
      + rewrite Nat.eqb_refl in Hneg. discriminate Hneg.
      + apply nodup_In, in_map_iff in Hx. destruct Hx as (t' & E & Hin). eauto.
    - intros (t' & Hin & <-). right. exists (tag_pk t'). split; [reflexivity |].
      apply nodup_In, in_map. exact Hin. }
  rewrite iter_hours_eq. eexists. exists a. split; [reflexivity |]. split; [exact Ha |].
  fold stored_obj.
  split; [split | split].
  - intros Hin. apply omap_In in Hin. destruct Hin as ([j p] & Hp & Hg). cbn [fst snd] in Hg.
    destruct (p =? tag_pk t) eqn:E; [| discriminate Hg]. apply Nat.eqb_eq in E. subst p.
    pose proof (Hloaded _ _ Hg) as Hj. rewrite Hspk in Hj. inversion Hj; subst j.
    apply Hrel in Hp. destruct Hp as (t' & Hin' & Epk).
    pose proof (Hby t' Hin') as Hb. rewrite Epk in Hb.
    change (HourTag_rows d) with (HourTag_rows db ++ ext) in Ht.
    rewrite Ht in Hb. inversion Hb; subst t'.
    rewrite <- Hnames. apply in_map. exact Hin'.
  - intros Hin. rewrite <- Hnames in Hin. apply in_map_iff in Hin.
    destruct Hin as (t' & En & Hin').
    assert (Epk : tag_pk t' = tag_pk t).
    { assert (Hall : exists n, tag_at (HourTag_rows db ++ ext) n t').
      { clear - Hts Hin'. induction Hts as [| n x tags ts' Hx _ IH]; [destruct Hin' |].
        destruct Hin' as [<- | Hin']; [eauto | apply IH; exact Hin']. }
      destruct Hall as (n & Hn & Hs). rewrite En in Hn. subst n.
      assert (Hin2 : In (tag_pk t, name t) (select (String.eqb (name t)) 1 (HourTag_rows db ++ ext))).
      { apply select_In. change (HourTag_rows d) with (HourTag_rows db ++ ext) in Ht.
        unfold HourTag_by_pk in Ht. destruct (tag_pk t) as [| i] eqn:Ei; [discriminate Ht |].
        destruct ((HourTag_rows db ++ ext) !! i) as [n |] eqn:El; [| discriminate Ht].
        cbn in Ht. inversion Ht as [Ht']. 
        assert (n = name t) by (rewrite <- Ht'; reflexivity). subst n.
        split; [lia |]. split; [cbn; rewrite Nat.sub_0_r; rewrite <- Ht'; exact El |].
        rewrite <- Ht'. apply String.eqb_refl. }
      rewrite Hs in Hin2. destruct Hin2 as [[= E] | []]. exact E. }
    apply omap_In. exists (S k, tag_pk t). split.
    + apply Hrel. exists t'. split; assumption.
    + cbn [fst snd]. rewrite Nat.eqb_refl. exact Hload.
  - intros h Hin Eh. apply omap_In in Hin. destruct Hin as ([j p] & Hp & Hg).
    cbn [fst snd] in Hg. destruct (p =? tag_pk t); [| discriminate Hg].
    pose proof (Hloaded _ _ Hg) as Hj. rewrite Eh, Hpk in Hj. inversion Hj; subst j.
    rewrite Hload in Hg. inversion Hg. reflexivity.
  - intros Hkeep. unfold column_keeps in Hkeep. rewrite Hkeep in Ha. inversion Ha; subst a.
    unfold stored_obj. rewrite set_amount_id. subst obj. reflexivity.
Qed.

(** ** Export and import again *)

(** The fields [_csv_parse] unpacks from the values [csv_dump] wrote. *)
Lemma unpack_dumped (obj : Hours W) (given : option Coder) db db2 vs c f :
  fst (csv_dump_values obj (match given with None => false | Some _ => true end) db) = Ok vs ->
  fst (unpack_row vs given db2) = Ok (c, f) ->
  exists tags ds,
    dump_tags obj db = Ok tags
    /\ strftime_Ymd (date obj) = Some ds
    /\ f = {| f_proj := project_name (project obj); f_date := ds;
              f_strt := frmt_time (start_time obj); f_end := frmt_time (end_time obj);
              f_hrs := unicode_Decimal W (amount obj); f_tags := join "," tags;
              f_repo := match repository obj with Some r => distinct_name r | None => "" end;
              f_iss := match issue obj with Some i => issue_number i | None => "" end;
              f_comment := match comment obj with Some c => c | None => "" end |}.
Proof.
  rewrite csv_dump_values_eq. cbn [fst].
  destruct (dump_tags obj db) as [tags | e]; [| discriminate].
  destruct (strftime_Ymd (date obj)) as [ds |]; [| discriminate].
  destruct (dump_decodes obj); [| discriminate].
  intros [= <-] Hu. exists tags, ds. split; [reflexivity |]. split; [reflexivity |].
  destruct (unpack_row_shape _ _ _ _ _ Hu) as [Hrow _].
  destruct f. simpl in Hrow.
  destruct given; simpl in Hrow; injection Hrow; intros; subst; reflexivity.
Qed.

Lemma parse_frmt_time_changed t :
  hour t < 24 -> minute t < 60 ->
  second t <> 0 \/ (hour t = 0 /\ minute t = 0) ->
  parse_time (frmt_time (Some t)) TIME_FORMATS <> Some t.
Proof.
  intros Hh Hm Hc. rewrite (parse_frmt_time t Hh Hm).
  destruct t as [h m s]. unfold time_truthy. cbn [hour minute second] in *.
  destruct Hc as [Hs | [-> ->]].
  - destruct (negb _); [intros [= E]; congruence | discriminate].
  - cbn. destruct s; cbn; [discriminate | intros [= ]].
Qed.

(** X20.  A stored entry whose start time has seconds, or is midnight, is
    not found again by its own dump: the values [csv_dump] writes carry
    the start time as hours and minutes, or as the empty string at
    midnight, so an import of these values that succeeds reads another
    start time, returns an entry under another key, and leaves the
    exported entry as it was. *)
Theorem reimport_start_time_changed (obj : Hours W) db (k : nat) (t : time_of_day)
    (given : option Coder) (vs : list string) (obj2 : Hours W) (created2 : bool) db2 :
  pk obj = Some (S k) ->
  stored db (S k) = Some (fields obj) ->
  start_time obj = Some t -> hour t < 24 -> minute t < 60 ->
  second t <> 0 \/ (hour t = 0 /\ minute t = 0) ->
  fst (csv_dump_values obj (match given with None => false | Some _ => true end) db) = Ok vs ->
  csv_get_or_create vs given db = (Ok (obj2, created2), db2) ->
  pk obj2 <> pk obj
  /\ start_time obj2
     = (if time_truthy t
        then Some {| hour := hour t; minute := minute t; second := 0 |} else None)
  /\ stored db2 (S k) = Some (fields obj).
Proof.
  intros Hpk Hst Ht Hh Hm Hc Hvs Himp.
  rewrite csv_get_or_create_eq in Himp.
  destruct (fst (_csv_parse vs given db)) as [parsed | e] eqn:Ep; [| discriminate Himp].
  destruct (csv_parse_ok _ _ _ _ Ep) as (c & f & p & d & amt & Hu & _ & _ & _ & _ & _ & ->).
  destruct (unpack_dumped _ _ _ _ _ _ _ Hvs Hu) as (tags & ds & _ & _ & Hf).
  destruct (get_or_create_parsed_ok _ _ _ _ _ Himp)
    as (tags2 & k2 & r0 & ts & ext & _ & _ & Hobj & Hsel & _ & _ & _ & Hdb).
  pose proof (matches_of_found _ _ _ _ _ Hsel) as Hmatch.
  apply same_identity_matches in Hmatch.
  destruct Hmatch as (_ & _ & _ & _ & Hstart & _).
  cbn [pending_entry fields start_time] in Hstart.
  assert (Hf3 : f_strt f = frmt_time (Some t)) by (rewrite Hf, Ht; reflexivity).
  rewrite Hf3 in Hstart.
  assert (Hk : if created2 then k2 = length (Hours_rows db) else k2 < length (Hours_rows db)).
  { destruct created2; [tauto |]. apply select_single in Hsel. destruct Hsel as (_ & Hl & _).
    cbn in Hl. rewrite Nat.sub_0_r in Hl. eapply lookup_lt_Some, Hl. }
  assert (Hlt : k < length (Hours_rows db)) by (eapply lookup_lt_Some, Hst).
  assert (Hne : k2 <> k).
  { intros ->. destruct created2; [lia |].
    apply select_single in Hsel. destruct Hsel as (_ & Hl & _).
    cbn in Hl. rewrite Nat.sub_0_r in Hl.
    change (Hours_rows db !! k = Some (fields obj)) in Hst.
    rewrite Hst in Hl. injection Hl as <-.
    rewrite Ht in Hstart. symmetry in Hstart.
    exact (parse_frmt_time_changed t Hh Hm Hc Hstart). }
  split; [rewrite Hpk, Hobj; cbn; congruence |].
  split.
  - rewrite Hobj. cbn [set_extra fields start_time pk]. rewrite Hstart.
    apply parse_frmt_time; assumption.
  - rewrite Hdb. rewrite (stored_imported_other db created2 k2 (written obj2) ext ts (S k) Hk);
      [exact Hst | congruence].
Qed.

Lemma Project_get_eq n db :
  Project_get n db
  = (objects_get Project_model (fun p => String.eqb (project_name p) n) (Project_rows db), db).
Proof. reflexivity. Qed.

Lemma project_outcome_derived f db p pb :
  project_outcome f db = Ok p -> derived_project W f = Some pb ->
  project_pk p = project_pk pb.
Proof.
  unfold project_outcome. intros H Hd. rewrite Hd in H.
  destruct (fst (explicit_project f db)) as [[pa |] |]; [| | discriminate H].
  - destruct (Project_eq pa pb) eqn:E; [| discriminate H]. injection H as <-.
    apply Nat.eqb_eq, E.
  - injection H as <-. reflexivity.
Qed.

Lemma project_outcome_implicit f db p :
  project_outcome f db = Ok p -> truthy (f_proj f) = false -> derived_project W f = Some p.
Proof.
  unfold project_outcome. rewrite explicit_project_eq. intros H Ht. rewrite Ht in H.
  destruct (derived_project W f); [injection H as <-; reflexivity | discriminate H].
Qed.

(** The project of a row that names the project [p] of an entry. *)
Lemma reparse_project f f2 db db' p :
  project_outcome f db = Ok p ->
  f_proj f2 = project_name p ->
  derived_project W f2 = derived_project W f ->
  (truthy (project_name p) = true ->
     exists p', fst (Project_get (project_name p) db') = Ok p'
                /\ project_pk p' = project_pk p) ->
  exists p2, project_outcome f2 db' = Ok p2 /\ project_pk p2 = project_pk p.
Proof.
  intros Hpo Hn Hd Hp. unfold project_outcome. rewrite explicit_project_eq, Hn, Hd.
  destruct (truthy (project_name p)) eqn:Et.
  - destruct (Hp eq_refl) as (p' & Hg & Hk). rewrite Project_get_eq in Hg. cbn [fst] in Hg.
    rewrite Hg. destruct (derived_project W f) as [pb |] eqn:Edf.
    + pose proof (project_outcome_derived _ _ _ _ Hpo Edf) as Hpb.
      assert (E : Project_eq p' pb = true) by (apply Nat.eqb_eq; congruence).
      rewrite E. eauto.
    + eauto.
  - assert (Htf : truthy (f_proj f) = false).
    { destruct (truthy (f_proj f)) eqn:E; [| reflexivity].
      assert (Hne : f_proj f <> "") by (intros E0; rewrite E0 in E; discriminate E).
      rewrite <- (project_outcome_name _ _ _ Hpo Hne), Et in E. discriminate E. }
    rewrite (project_outcome_implicit _ _ _ Hpo Htf). eauto.
Qed.

(** The row [csv_dump] writes unpacks for the coder of the row it came from. *)
Lemma unpack_again row (given : option Coder) db db' c f (f2 : RowFields) :
  fst (unpack_row row given db) = Ok (c, f) ->
  User_rows db' = User_rows db ->
  fst (unpack_row ((match given with None => [username (user c)] | Some _ => [] end)
                   ++ [f_proj f2; f_date f2; f_strt f2; f_end f2; f_hrs f2; f_tags f2;
                       f_repo f2; f_iss f2; f_comment f2]) given db')
  = Ok (c, f2).
Proof.
  intros Hu Hrows. destruct (unpack_row_shape _ _ _ _ _ Hu) as [Hrow Hc].
  destruct given as [c0 |].
  - rewrite (Hc c0 eq_refl). destruct f2; reflexivity.
  - subst row. unfold unpack_row in *. cbn [app] in *. unfold bind in *.
    rewrite Coder_get_eq in *. rewrite Hrows.
    destruct (objects_get User_model _ (User_rows db)) as [u |]; [| discriminate Hu].
    destruct (Coder_init u) as [c' |]; [| discriminate Hu].
    cbn in Hu. injection Hu as -> _. destruct f2; reflexivity.
Qed.

Lemma created_fields (parsed obj : Hours W) db db' :
  get_or_create_parsed parsed db = (Ok (obj, true), db') ->
  fields obj = fields parsed.
Proof.
  intros H. destruct (get_or_create_parsed_ok _ _ _ _ _ H)
    as (tags & k & r0 & ts & ext & _ & _ & -> & (_ & _ & ->) & _).
  destruct parsed as [k0 [] tg]. reflexivity.
Qed.

(** X21.  The import of the values [csv_dump] writes for an entry that
    an import created: provided that its start time, if
    any, has no seconds and is not midnight, that its amount, its
    repository and its issue are read back from what is written for them,
    and that its project's name, when not empty, is looked up to a project
    of the same key, and that the values written are UTF-8, as the text
    of the database is.  When the column holds the amount of the entry as
    it is, the second import creates nothing, returns the entry
    under the same key with the same identity, adds no tag, keeps the
    entry's tag names and leaves the other entries as they were.  When
    the column has rounded the amount, the second import, which looks
    for the amount as it was written, creates the entry a second time,
    under the next key. *)
Theorem csv_dump_reimport (row : list string) (given : option Coder) db (obj : Hours W) db'
    (vs : list string) :
  csv_get_or_create row given db = (Ok (obj, true), db') ->
  fst (csv_dump_values obj (match given with None => false | Some _ => true end) db') = Ok vs ->
  forallb (decodes W) vs = true ->
  (forall t, start_time obj = Some t -> second t = 0 /\ (hour t <> 0 \/ minute t <> 0)) ->
  parse_amount (unicode_Decimal W (amount obj)) = Ok (amount obj) ->
  try_to_get_by_name W (match repository obj with Some r => distinct_name r | None => "" end)
  = repository obj ->
  (forall r, repository obj = Some r ->
     try_to_get_issue W r (match issue obj with Some i => issue_number i | None => "" end)
     = issue obj) ->
  (truthy (project_name (project obj)) = true ->
     exists p', fst (Project_get (project_name (project obj)) db') = Ok p'
                /\ project_pk p' = project_pk (project obj)) ->
  exists k,
    pk obj = Some (S k)
    /\ length (Hours_rows db') = S k
    /\ (column_keeps (amount obj) ->
        exists obj2 db2,
          csv_get_or_create vs given db' = (Ok (obj2, false), db2)
          /\ pk obj2 = Some (S k)
          /\ same_identity obj2 obj
          /\ end_time obj2 = parse_time (frmt_time (end_time obj)) TIME_FORMATS
          /\ HourTag_rows db2 = HourTag_rows db'
          /\ (forall n, In n (stored_tag_names db2 (S k))
                        <-> In n (stored_tag_names db' (S k)))
          /\ (forall j, j <> S k -> stored db2 j = stored db' j)
          /\ length (Hours_rows db2) = length (Hours_rows db'))
    /\ (~ column_keeps (amount obj) ->
        exists obj2 db2,
          csv_get_or_create vs given db' = (Ok (obj2, true), db2)
          /\ pk obj2 = Some (S (S k))
          /\ same_identity obj2 obj
          /\ length (Hours_rows db2) = S (S k)).
Proof.
  intros Himp Hvs Hdec2 Htime Hamt Hrepo Hiss Hproj.
  rewrite csv_get_or_create_eq in Himp.
  destruct (fst (_csv_parse row given db)) as [parsed | e] eqn:Ep; [| discriminate Himp].
  destruct (csv_parse_ok _ _ _ _ Ep) as (c & f & p & d & amt & Hu & Hne & Hpo & Hd & Ha & Hx & Hparsed).
  pose proof (created_fields _ _ _ _ Himp) as Hfo.
  destruct (get_or_create_parsed_amount _ _ _ _ _ Himp) as (_ & a & Hcol).
  destruct (get_or_create_parsed_ok _ _ _ _ _ Himp)
    as (tags & k & r0 & ts & ext & Etags & Htne & Hobj & Hsel & Hts & Hext & Hnd & Hdb).
  assert (Hpk : pk obj = Some (S k)) by (rewrite Hobj; reflexivity).
  assert (Htags : tags = normalize_tags (f_tags f)).
  { rewrite Hparsed in Etags. cbn [pending_entry _tags_to_be] in Etags. congruence. }
  (* the entry, field by field *)
  assert (Fcoder : coder obj = user c) by (rewrite Hfo, Hparsed; reflexivity).
  assert (Fproject : project obj = p) by (rewrite Hfo, Hparsed; reflexivity).
  assert (Fdate : date obj = d) by (rewrite Hfo, Hparsed; reflexivity).
  assert (Famount : amount obj = amt) by (rewrite Hfo, Hparsed; reflexivity).
  assert (Fstart : start_time obj = parse_time (f_strt f) TIME_FORMATS)
    by (rewrite Hfo, Hparsed; reflexivity).
  assert (Fissue : issue obj = row_issue W f) by (rewrite Hfo, Hparsed; reflexivity).
  assert (Frepo : repository obj = row_repository W f) by (rewrite Hfo, Hparsed; reflexivity).
  assert (Fcomment : comment obj = Some (f_comment f)) by (rewrite Hfo, Hparsed; reflexivity).
  (* the tag names of the stored entry *)
  set (names := stored_tag_names db' (S k)).
  destruct (stored_tag_names_spec db true k (written obj) ext ts tags Hts)
    as [Hnames_nd Hnames].
  rewrite <- Hdb in Hnames_nd, Hnames. fold names in Hnames_nd, Hnames.
  assert (Hnames_ne : names <> []).
  { destruct tags as [| n tags']; [congruence |].
    intros E. pose proof (proj2 (Hnames n) (or_introl eq_refl)) as Hin.
    rewrite E in Hin. exact Hin. }
  assert (Hnames_normal : Forall tag_name_normal names).
  { apply (Forall_normal_sub names tags); [intros n Hn; apply Hnames, Hn |].
    rewrite Htags. apply normalize_tags_normal. }
  (* the values written *)
  rewrite csv_dump_values_eq in Hvs. cbn [fst] in Hvs.
  unfold dump_tags in Hvs. rewrite Hpk in Hvs. fold names in Hvs.
  destruct (strftime_Ymd (date obj)) as [ds |] eqn:Eds; [| discriminate Hvs].
  destruct (dump_decodes obj) eqn:Edec; [| discriminate Hvs].
  injection Hvs as Hvs.
  set (f2 := {| f_proj := project_name (project obj); f_date := ds;
                f_strt := frmt_time (start_time obj); f_end := frmt_time (end_time obj);
                f_hrs := unicode_Decimal W (amount obj); f_tags := join "," names;
                f_repo := match repository obj with Some r => distinct_name r | None => "" end;
                f_iss := match issue obj with Some i => issue_number i | None => "" end;
                f_comment := match comment obj with Some c => c | None => "" end |}).
  assert (Hrows : User_rows db' = User_rows db) by (rewrite Hdb; reflexivity).
  assert (Hu2 : fst (unpack_row vs given db') = Ok (c, f2)).
  { rewrite <- Hvs, Fcoder. clear - Hu Hrows.
    destruct given; exact (unpack_again row _ db db' c f f2 Hu Hrows). }
  assert (Hne2 : normalize_tags (f_tags f2) <> []).
  { change (f_tags f2) with (join "," names).
    rewrite (normalize_tags_join names Hnames_ne Hnames_normal). exact Hnames_ne. }
  (* what the fields are read as *)
  assert (Hrepo2 : row_repository W f2 = row_repository W f).
  { unfold row_repository at 1. change (f_repo f2)
      with (match repository obj with Some r => distinct_name r | None => "" end).
    rewrite Hrepo. exact Frepo. }
  assert (Hiss2 : row_issue W f2 = row_issue W f).
  { unfold row_issue at 1. rewrite Hrepo2, <- Frepo.
    destruct (repository obj) as [r |] eqn:Er.
    - change (f_iss f2) with (match issue obj with Some i => issue_number i | None => "" end).
      rewrite (Hiss r eq_refl). exact Fissue.
    - unfold row_issue. rewrite <- Frepo. reflexivity. }
  assert (Hder2 : derived_project W f2 = derived_project W f).
  { unfold derived_project. rewrite Hiss2. reflexivity. }
  destruct (reparse_project f f2 db db' p Hpo) as (p2 & Hpo2 & Hp2).
  { change (f_proj f2) with (project_name (project obj)). rewrite Fproject. reflexivity. }
  { exact Hder2. }
  { rewrite <- Fproject. exact Hproj. }
  assert (Hd2 : parse_date (f_date f2) = Ok d).
  { change (f_date f2) with ds. rewrite Fdate in Eds. exact (reparse_date _ _ _ Hd Eds). }
  assert (Ha2 : parse_amount (f_hrs f2) = Ok amt).
  { change (f_hrs f2) with (unicode_Decimal W (amount obj)). rewrite Hamt. f_equal. exact Famount. }
  assert (Hx2 : existsb (Project_eq p2) (projects c) = true).
  { rewrite (existsb_Project_eq p2 p _ Hp2). exact Hx. }
  assert (Hs2 : parse_time (f_strt f2) TIME_FORMATS = start_time obj).
  { change (f_strt f2) with (frmt_time (start_time obj)). apply reparse_time.
    - intros t Ht. rewrite Fstart in Ht. pose proof (parse_time_valid _ _ _ Ht). tauto.
    - exact Htime. }
  pose proof (csv_parse_run vs given db' c f2 Hu2 Hne2) as Hrun.
  rewrite Hpo2, Hd2, Ha2, Hdec2, Hx2 in Hrun.
  set (parsed2 := pending_entry vs c f2 p2 d amt) in Hrun.
  (* the lookup finds the entry *)
  assert (Hsame : same_identity (fields parsed2) (fields parsed)).
  { rewrite Hparsed. unfold same_identity, parsed2.
    cbn [pending_entry fields coder project date amount start_time issue repository comment].
    rewrite Hs2, Fstart, Hiss2, Hrepo2.
    change (f_comment f2) with (match comment obj with Some c => c | None => "" end).
    rewrite Fcomment.
    split; [reflexivity |]. split; [exact Hp2 |]. split; [reflexivity |].
    split; [reflexivity |]. split; [reflexivity |]. split; [reflexivity |].
    split; reflexivity. }
  (* the tags are all there *)
  assert (Hrows_tags : HourTag_rows db' = HourTag_rows db ++ ext) by (rewrite Hdb; reflexivity).
  destruct (Forall2_choice (tag_at (HourTag_rows db')) names) as [ts2 Hts2].
  { intros n Hn. apply Hnames in Hn. rewrite Hrows_tags.
    exact (Forall2_In_l _ _ _ _ Hts Hn). }
  assert (Hfor : for_tag_names names db'
                 = (Ok ts2, set_HourTag_rows (HourTag_rows db' ++ []) db')).
  { rewrite app_nil_r, set_HourTag_rows_id. apply for_tag_names_found, Hts2. }
  assert (Et2 : _tags_to_be parsed2 = Some names).
  { unfold parsed2. cbn [pending_entry _tags_to_be]. change (f_tags f2) with (join "," names).
    rewrite (normalize_tags_join names Hnames_ne Hnames_normal). reflexivity. }
  assert (Hcol2 : Decimal_column W (amount parsed2) = Some a).
  { unfold parsed2. cbn [pending_entry fields amount]. rewrite <- Famount, Hfo. exact Hcol. }
  assert (Hlen : length (Hours_rows db') = S k).
  { rewrite Hdb, length_imported. destruct Hsel as (_ & -> & _). reflexivity. }
  exists k. split; [exact Hpk |]. split; [exact Hlen |]. split.
  - intros Hkeep. rewrite (written_keeps obj Hkeep) in Hdb.
    assert (Hsel2 : select (lookup_matches (HOURS_IDENTITY_FIELDS parsed2)) 1 (Hours_rows db')
                    = [(S k, fields obj)]).
    { rewrite (select_ext _ (lookup_matches (HOURS_IDENTITY_FIELDS parsed)) 1 (Hours_rows db')
                 (fun x => identity_of_same _ _ x Hsame)).
      rewrite Hdb at 1. exact (imported_matches parsed db true k r0 obj ext ts Hobj Hsel). }
    pose proof (get_or_create_parsed_on parsed2 names db' k (fields obj) ts2 [] a Et2
                  Hnames_ne Hsel2 Hfor Hcol2) as Hon.
    cbv zeta in Hon.
    set (obj2 := set_extra (HOURS_EXTRA_FIELDS parsed2)
                   {| pk := Some (S k); fields := fields obj; _tags_to_be := None |}) in Hon.
    assert (Hkeep2 : column_keeps (amount obj2)) by exact Hkeep.
    rewrite (written_keeps obj2 Hkeep2) in Hon.
    exists obj2, (imported_db db' false k obj2 [] ts2).
    split; [rewrite csv_get_or_create_eq, Hrun; exact Hon |].
    split; [reflexivity |].
    split.
    { unfold same_identity, obj2.
      cbn [set_extra fields coder project date amount start_time issue repository comment].
      split; [reflexivity |]. split; [reflexivity |]. split; [reflexivity |].
      split; [reflexivity |]. split; [reflexivity |]. split; [reflexivity |].
      split; reflexivity. }
    split; [reflexivity |].
    split; [cbn [imported_db HourTag_rows]; apply app_nil_r |].
    assert (Hlt : k < length (Hours_rows db')) by lia.
    split.
    { intros n. rewrite <- (app_nil_r (HourTag_rows db')) in Hts2.
      destruct (stored_tag_names_spec db' false k obj2 [] ts2 names Hts2) as [_ H]. apply H. }
    split.
    { intros j Hj. apply stored_imported_other; assumption. }
    cbn [imported_db Hours_rows]. apply length_insert.
  - intros Hround.
    assert (Hna : a <> amount parsed).
    { intros ->. apply Hround. unfold column_keeps. rewrite Hfo. exact Hcol. }
    assert (Hrow : fields (written obj) = set_amount a (fields parsed)).
    { unfold written. cbn [fields]. rewrite Hfo. apply column_row_Some. exact Hcol. }
    assert (Hrows1 : Hours_rows db' = Hours_rows db ++ [set_amount a (fields parsed)]).
    { rewrite Hdb. unfold imported_db. cbn [Hours_rows]. rewrite Hrow. reflexivity. }
    assert (Hsel2 : select (lookup_matches (HOURS_IDENTITY_FIELDS parsed2)) 1 (Hours_rows db')
                    = []).
    { rewrite (select_ext _ (lookup_matches (HOURS_IDENTITY_FIELDS parsed)) 1 (Hours_rows db')
                 (fun x => identity_of_same _ _ x Hsame)).
      destruct Hsel as (Hsel & _ & _).
      rewrite Hrows1, select_app, Hsel. cbn [app select].
      rewrite (lookup_matches_other_amount (HOURS_IDENTITY_FIELDS parsed) (fields parsed) a)
        by exact Hna.
      reflexivity. }
    pose proof (get_or_create_parsed_new parsed2 names db' ts2 [] a Et2 Hnames_ne Hsel2 Hfor
                  Hcol2) as Hnew.
    cbv zeta in Hnew. rewrite Hlen in Hnew.
    eexists _, _.
    split; [rewrite csv_get_or_create_eq, Hrun; exact Hnew |].
    split; [reflexivity |].
    split.
    { rewrite Hfo. apply same_identity_matches.
      rewrite <- (identity_of_same _ _ _ Hsame).
      exact (matches_of_found parsed2 (Hours_rows db') true (S k)
               (Hours_of_kwargs (HOURS_IDENTITY_FIELDS parsed2))
               (conj Hsel2 (conj (eq_sym Hlen) eq_refl))). }
    rewrite length_imported. rewrite Hlen. reflexivity.
Qed.

(** ** The coder, given or named *)

Lemma unpack_row_given usr row c db :
  fst (Coder_get (fun u => String.eqb (username u) usr) db) = Ok c ->
  fst (unpack_row (usr :: row) None db) = fst (unpack_row row (Some c) db).
Proof.
  intros H. unfold unpack_row.
  do 10 (destruct row as [| ? row]; try reflexivity).
  unfold bind. rewrite Coder_get_eq in *. cbn [fst] in H. rewrite H. reflexivity.
Qed.

Lemma Hours_get_or_create_pk q db r db1 :
  Hours_get_or_create q db = (Ok r, db1) ->
  exists k, pk (fst r) = Some (S k) /\ k < length (Hours_rows db1).
Proof.
  rewrite Hours_get_or_create_eq.
  destruct (select (lookup_matches q) 1 (Hours_rows db)) as [| [j x] [| ? ?]] eqn:E.
  - destruct (Decimal_column W (q_amount W q)); intros [= <- <-]; cbn [fst pk].
    eexists. split; [reflexivity |]. cbn [set_Hours_rows Hours_rows].
    rewrite length_app. cbn [length]. lia.
  - intros [= <- <-]; cbn [fst pk].
    apply select_single in E. destruct E as (Hj & Hl & _). destruct j as [| k]; [lia |].
    cbn in Hl. rewrite Nat.sub_0_r in Hl. exists k. split; [reflexivity |].
    eapply lookup_lt_Some, Hl.
  - discriminate.
Qed.

Lemma save_save (oa ob : Hours W) k db :
  pk oa = Some (S k) -> pk ob = Some (S k) -> amount oa = amount ob ->
  k < length (Hours_rows db) ->
  snd (save oa (snd (save ob db))) = snd (save oa db).
Proof.
  intros Ha Hb Hamt Hk. rewrite (save_eq ob). rewrite <- Hamt.
  destruct (Decimal_column W (amount oa)) as [a |] eqn:Ea; [| reflexivity].
  cbn [snd]. rewrite !save_eq, Ea, Ha, Hb. cbn [snd].
  apply Nat.ltb_lt in Hk. rewrite Hk.
  unfold set_Hours_rows. cbn [Hours_rows User_rows Project_rows HourTag_rows Hours_tags_rows].
  rewrite length_insert, Hk.
  rewrite list_insert_insert_eq. reflexivity.
Qed.

(** X22.  Naming the coder in the first field is giving the coder: when
    [Coder.get] finds the coder [c] for a username, which is UTF-8 as the
    text of the user table is, [_csv_parse] on the
    row with the username in front and no coder, and on the row without
    it and the coder [c], fail with the same exception or return the same
    entry but for the raw input; and [csv_get_or_create] fails alike, in
    the same state, or returns the same entry, with the same [created],
    but for the raw input that is saved with it. *)
Theorem csv_import_coder_given (usr : string) (row : list string) (c : Coder) db :
  fst (Coder_get (fun u => String.eqb (username u) usr) db) = Ok c ->
  decodes W usr = true ->
  let with_raw (b : Hours W) :=
    set_extra {| x_end_time := end_time b;
                 x_input_data_json := Some (json_dumps W (usr :: row)) |} b in
  fst (_csv_parse (usr :: row) None db)
  = match fst (_csv_parse row (Some c) db) with
    | Ok b => Ok (with_raw b)
    | Raise e => Raise e
    end
  /\ csv_get_or_create (usr :: row) None db
     = match csv_get_or_create row (Some c) db with
       | (Ok (b, created), db') => (Ok (with_raw b, created), snd (save (with_raw b) db'))
       | (Raise e, db') => (Raise e, db')
       end.
Proof.
  intros Hc Husr with_raw.
  assert (Hparse : fst (_csv_parse (usr :: row) None db)
                   = match fst (_csv_parse row (Some c) db) with
                     | Ok b => Ok (with_raw b)
                     | Raise e => Raise e
                     end).
  { rewrite !csv_parse_eq, (unpack_row_given usr row c db Hc).
    destruct (fst (unpack_row row (Some c) db)) as [[c' f] | e]; [| reflexivity].
    rewrite !csv_parse_fields_eq. cbn [fst].
    destruct (normalize_tags (f_tags f)); [reflexivity |].
    destruct (project_outcome f db); [| reflexivity].
    destruct (parse_date (f_date f)); [| reflexivity].
    destruct (parse_amount (f_hrs f)); [| reflexivity].
    cbn [forallb]. rewrite Husr. cbn [andb].
    destruct (forallb (decodes W) row); [| reflexivity].
    destruct (existsb _ _); reflexivity. }
  split; [exact Hparse |].
  rewrite !csv_get_or_create_eq, Hparse.
  destruct (fst (_csv_parse row (Some c) db)) as [b | e]; [| reflexivity].
  rewrite !get_or_create_parsed_eq.
  change (_tags_to_be (with_raw b)) with (_tags_to_be b).
  destruct (_tags_to_be b) as [[| t tags] |]; try reflexivity.
  change (HOURS_IDENTITY_FIELDS (with_raw b)) with (HOURS_IDENTITY_FIELDS b).
  destruct (Hours_get_or_create (HOURS_IDENTITY_FIELDS b) db) as [[r | e] db1] eqn:Eg;
    [| reflexivity].
  destruct (Hours_get_or_create_pk _ _ _ _ Eg) as (k & Hk & Hlt).
  cbv zeta.
  destruct (for_tag_names (t :: tags) db1) as [[ts | e] db2] eqn:Ef; [| reflexivity].
  apply for_tag_names_spec in Ef. destruct Ef as (ext & -> & _).
  unfold set_tags. cbn [set_extra pk]. rewrite Hk. unfold update.
  set (d3 := set_Hours_tags_rows _ _).
  set (oa := set_extra (HOURS_EXTRA_FIELDS (with_raw b)) (fst r)).
  set (ob := set_extra (HOURS_EXTRA_FIELDS b) (fst r)).
  assert (Hamt : amount oa = amount ob) by reflexivity.
  assert (Hlt3 : k < length (Hours_rows d3)) by exact Hlt.
  pose proof (save_save oa ob k d3 Hk Hk Hamt Hlt3) as Hss.
  destruct (save ob d3) as [[[] | e] d4] eqn:Eb.
  - cbn [snd] in Hss. change (with_raw ob) with oa. rewrite Hss.
    rewrite save_eq in Eb |- *. rewrite Hamt.
    destruct (Decimal_column W (amount ob)); [reflexivity | discriminate Eb].
  - rewrite save_eq in Eb |- *. rewrite Hamt.
    destruct (Decimal_column W (amount ob)); [discriminate Eb |].
    injection Eb as <- <-. reflexivity.
Qed.

End FurtherProperties.

(** ** Billing months *)

Section BillingProperties.
Context {W : World}.
Implicit Types (l : Ledger W) (self : BillableHours W).

Lemma Month_matches_iff y m r :
  Month_matches y m r = true <-> Month.year r = y /\ Month.month r = m.
Proof. unfold Month_matches. rewrite andb_true_iff, !Z.eqb_eq. reflexivity. Qed.

Lemma Month_select_stored l p j r :
  In (j, r) (select p 1 (Month_rows l)) <-> Month_stored l j = Some r /\ p r = true.
Proof.
  rewrite select_In. unfold Month_stored. destruct j as [| i].
  - split; [intros [H _]; lia | intros [H _]; discriminate H].
  - cbn. rewrite Nat.sub_0_r. split; [tauto | intros [? ?]; repeat split; [lia | | ]; assumption].
Qed.

Lemma months_unique_select l y m :
  months_unique l ->
  select (Month_matches y m) 1 (Month_rows l) = []
  \/ exists k r, select (Month_matches y m) 1 (Month_rows l) = [(S k, r)].
Proof.
  intros Hu.
  destruct (select _ 1 (Month_rows l)) as [| [j r] [| [j2 r2] rest]] eqn:Es.
  - left. reflexivity.
  - right. pose proof (select_single _ _ _ _ _ Es) as (Hj & _).
    destruct j as [| k]; [lia |]. eauto.
  - exfalso. pose proof (select_two _ _ _ _ _ _ Es) as Hlt. simpl in Hlt.
    assert (H1 : In (j, r) (select (Month_matches y m) 1 (Month_rows l)))
      by (rewrite Es; left; reflexivity).
    assert (H2 : In (j2, r2) (select (Month_matches y m) 1 (Month_rows l)))
      by (rewrite Es; right; left; reflexivity).
    apply Month_select_stored in H1, H2. destruct H1 as [S1 M1], H2 as [S2 M2].
    apply Month_matches_iff in M1, M2. destruct M1, M2.
    assert (j = j2); [| lia]. eapply Hu; eauto; congruence.
Qed.

Lemma get_from_date_unique (d : date_t) (l : Ledger W) :
  months_unique l ->
  exists k r l',
    get_from_date d l = (inr (k, r), l')
    /\ r = {| Month.year := Z.of_nat (year d); Month.month := Z.of_nat (month d) |}
    /\ Month_stored l' k = Some r
    /\ ((Month_stored l k = Some r /\ l' = l)
        \/ ((forall j x, Month_stored l j = Some x ->
               ~ (Month.year x = Month.year r /\ Month.month x = Month.month r))
            /\ k = S (length (Month_rows l))
            /\ Month_rows l' = Month_rows l ++ [r]))
    /\ tables l' = tables l
    /\ coder_billing_month_id l' = coder_billing_month_id l
    /\ project_billing_month_id l' = project_billing_month_id l
    /\ months_unique l'
    /\ (forall d2, year d2 = year d -> month d2 = month d ->
          get_from_date d2 l' = (inr (k, r), l')).
Proof.
  intros Hu. unfold get_from_date. cbv zeta.
  set (y := Z.of_nat (year d)). set (m := Z.of_nat (month d)).
  destruct (months_unique_select l y m Hu) as [Es | (k & r & Es)]; rewrite Es.
  - set (r := {| Month.year := y; Month.month := m |}).
    set (l' := {| tables := tables l; Month_rows := Month_rows l ++ [r];
                  coder_billing_month_id := coder_billing_month_id l;
                  project_billing_month_id := project_billing_month_id l |}).
    assert (Hnone : forall j x, Month_stored l j = Some x ->
               ~ (Month.year x = Month.year r /\ Month.month x = Month.month r)).
    { intros j x Hj Hx.
      assert (Hin : In (j, x) (select (Month_matches y m) 1 (Month_rows l))).
      { apply Month_select_stored. split; [exact Hj |]. apply Month_matches_iff. exact Hx. }
      rewrite Es in Hin. destruct Hin. }
    assert (Hst : Month_stored l' (S (length (Month_rows l))) = Some r).
    { cbn. rewrite lookup_app_r by lia. rewrite Nat.sub_diag. reflexivity. }
    assert (Hold : forall j x, j <> S (length (Month_rows l)) ->
                     Month_stored l' j = Some x -> Month_stored l j = Some x).
    { intros j x Hj. destruct j as [| i]; [discriminate |]. cbn.
      destruct (Nat.lt_ge_cases i (length (Month_rows l))) as [Hlt | Hge].
      - rewrite lookup_app_l by exact Hlt. tauto.
      - intros Hx. apply lookup_lt_Some in Hx. rewrite length_app in Hx. cbn in Hx. lia. }
    assert (Es' : select (Month_matches y m) 1 (Month_rows l')
                  = [(S (length (Month_rows l)), r)]).
    { cbn. rewrite select_app, Es. cbn.
      replace (Month_matches y m r) with true
        by (symmetry; apply Month_matches_iff; split; reflexivity).
      reflexivity. }
    exists (S (length (Month_rows l))), r, l'.
    split; [reflexivity |]. split; [reflexivity |]. split; [exact Hst |].
    split; [right; split; [exact Hnone |]; split; reflexivity |].
    split; [reflexivity |]. split; [reflexivity |]. split; [reflexivity |].
    split.
    + intros k1 k2 r1 r2 H1 H2 Ey Em.
      destruct (Nat.eq_dec k1 (S (length (Month_rows l)))) as [-> | N1];
        destruct (Nat.eq_dec k2 (S (length (Month_rows l)))) as [-> | N2]; try reflexivity.
      * exfalso. rewrite Hst in H1. inversion H1; subst r1.
        apply (Hnone k2 r2 (Hold _ _ N2 H2)). split; congruence.
      * exfalso. rewrite Hst in H2. inversion H2; subst r2.
        apply (Hnone k1 r1 (Hold _ _ N1 H1)). split; congruence.
      * exact (Hu _ _ _ _ (Hold _ _ N1 H1) (Hold _ _ N2 H2) Ey Em).
    + intros d2 Ey Em. rewrite Ey, Em. fold y m. rewrite Es'. reflexivity.
  - pose proof (proj1 (Month_select_stored l _ (S k) r) ltac:(rewrite Es; left; reflexivity))
      as [Hst Hm].
    apply Month_matches_iff in Hm. destruct Hm as [Hy Hm].
    assert (Er : r = {| Month.year := y; Month.month := m |}).
    { destruct r as [ry rm]. cbn in Hy, Hm. subst. reflexivity. }
    exists (S k), r, l.
    split; [reflexivity |]. split; [exact Er |]. split; [exact Hst |].
    split; [left; split; [exact Hst | reflexivity] |].
    split; [reflexivity |]. split; [reflexivity |]. split; [reflexivity |].
    split; [exact Hu |].
    intros d2 Ey Em. rewrite Ey, Em. fold y m. rewrite Es. reflexivity.
Qed.

(** X16.  [get_from_date] finds or creates the month of a date.  On a
    table where months are unique it returns the month of the year and
    month of the date, stored under the key returned; it adds that month
    at the end when no stored month is it, and changes nothing otherwise;
    months stay unique, and any date of the same year and month then
    gets the same month without a change.  It fails, changing nothing,
    only when two stored months are that month.  It never touches the
    hours tables nor the billing columns, and it keeps every stored
    month under its key. *)
Theorem get_from_date_spec (d : date_t) (l : Ledger W) :
  let m := {| Month.year := Z.of_nat (year d); Month.month := Z.of_nat (month d) |} in
  (months_unique l ->
   exists k l',
     get_from_date d l = (inr (k, m), l')
     /\ Month_stored l' k = Some m
     /\ ((Month_stored l k = Some m /\ l' = l)
         \/ ((forall j, Month_stored l j <> Some m)
             /\ k = S (length (Month_rows l))
             /\ Month_rows l' = Month_rows l ++ [m]))
     /\ months_unique l'
     /\ (forall d2, year d2 = year d -> month d2 = month d ->
           get_from_date d2 l' = (inr (k, m), l')))
  /\ (forall e l', get_from_date d l = (inl e, l') ->
        l' = l
        /\ exists k1 k2, k1 <> k2 /\ Month_stored l k1 = Some m /\ Month_stored l k2 = Some m)
  /\ tables (snd (get_from_date d l)) = tables l
  /\ coder_billing_month_id (snd (get_from_date d l)) = coder_billing_month_id l
  /\ project_billing_month_id (snd (get_from_date d l)) = project_billing_month_id l
  /\ (forall j x, Month_stored l j = Some x ->
        Month_stored (snd (get_from_date d l)) j = Some x).
Proof.
  cbv zeta. split; [| split].
  - intros Hu.
    destruct (get_from_date_unique d l Hu)
      as (k & r & l' & Eg & -> & Hst & Hcase & _ & _ & _ & Hu' & Hag).
    exists k, l'. split; [exact Eg |]. split; [exact Hst |].
    split; [| split; [exact Hu' | exact Hag]].
    destruct Hcase as [Hfound | (Hnone & Hk & Hrows)]; [left; exact Hfound | right].
    split; [| split; assumption].
    intros j Hj. apply (Hnone j _ Hj). split; reflexivity.
  - intros e l'. unfold get_from_date. cbv zeta.
    destruct (select _ 1 (Month_rows l)) as [| [j r] [| [j2 r2] rest]] eqn:Es;
      intros H; inversion H; subst.
    split; [reflexivity |].
    pose proof (select_two _ _ _ _ _ _ Es) as Hlt. simpl in Hlt.
    assert (H1 : In (j, r) (select (Month_matches (Z.of_nat (year d)) (Z.of_nat (month d))) 1
                              (Month_rows l'))) by (rewrite Es; left; reflexivity).
    assert (H2 : In (j2, r2) (select (Month_matches (Z.of_nat (year d)) (Z.of_nat (month d))) 1
                                (Month_rows l'))) by (rewrite Es; right; left; reflexivity).
    apply Month_select_stored in H1, H2. destruct H1 as [S1 M1], H2 as [S2 M2].
    apply Month_matches_iff in M1, M2.
    assert (E1 : r = {| Month.year := Z.of_nat (year d); Month.month := Z.of_nat (month d) |}).
    { destruct r as [a b], M1 as [Ha Hb]. cbn in Ha, Hb. subst. reflexivity. }
    assert (E2 : r2 = {| Month.year := Z.of_nat (year d); Month.month := Z.of_nat (month d) |}).
    { destruct r2 as [a b], M2 as [Ha Hb]. cbn in Ha, Hb. subst. reflexivity. }
    exists j, j2. split; [lia |]. split; congruence.
  - unfold get_from_date. cbv zeta.
    destruct (select _ 1 (Month_rows l)) as [| [j r] [| [j2 r2] rest]] eqn:Es; cbn [snd].
    + repeat split; try reflexivity.
      intros [| i] x Hx; [discriminate Hx |]. cbn in Hx |- *.
      rewrite lookup_app_l; [exact Hx | eapply lookup_lt_Some, Hx].
    + repeat split; try reflexivity. intros j0 x Hx. exact Hx.
    + repeat split; try reflexivity. intros j0 x Hx. exact Hx.
Qed.

Lemma save_rows (h : Hours W) (db : DB W) a :
  Decimal_column W (amount h) = Some a ->
  save h db
  = (Ok tt,
     set_Hours_rows (match pk h with
                     | Some (S i) =>
                         if i <? length (Hours_rows db)
                         then <[i := set_amount a (fields h)]> (Hours_rows db)
                         else if i =? length (Hours_rows db)
                              then Hours_rows db ++ [set_amount a (fields h)]
                              else Hours_rows db
                     | _ => Hours_rows db ++ [set_amount a (fields h)]
                     end) db).
Proof. intros Ha. rewrite save_eq, Ha. reflexivity. Qed.

Lemma stored_appended (rows : list (HoursFields W)) x :
  (forall j, j <> S (length rows) ->
     match j with S i => (rows ++ [x]) !! i | 0 => None end
     = match j with S i => rows !! i | 0 => None end)
  /\ (rows ++ [x]) !! length rows = Some x.
Proof.
  split.
  - intros [| j] Hj; [reflexivity |].
    destruct (Nat.lt_ge_cases j (length rows)) as [Hlt | Hge].
    + apply lookup_app_l. exact Hlt.
    + rewrite (lookup_ge_None_2 rows j Hge).
      apply lookup_ge_None_2. rewrite length_app. cbn. lia.
  - rewrite lookup_app_r by lia. rewrite Nat.sub_diag. reflexivity.
Qed.

Lemma stored_after_save (h : Hours W) (db : DB W) k a :
  Decimal_column W (amount h) = Some a ->
  k = match pk h with Some (S i) => S i | _ => S (length (Hours_rows db)) end ->
  (forall j, j <> k -> stored (snd (save h db)) j = stored db j)
  /\ (k <= S (length (Hours_rows db)) ->
      stored (snd (save h db)) k = Some (set_amount a (fields h))).
Proof.
  intros Ha ->. rewrite (save_rows h db a Ha). unfold stored.
  cbn [snd Hours_rows set_Hours_rows].
  destruct (stored_appended (Hours_rows db) (set_amount a (fields h))) as [Happ Hlast].
  destruct (pk h) as [[| i] |].
  - split; [exact Happ | intros _; exact Hlast].
  - destruct (Nat.ltb_spec i (length (Hours_rows db))) as [Hlt | Hge].
    + split.
      * intros [| j] Hj; [reflexivity |]. apply list_lookup_insert_ne. lia.
      * intros _. apply list_lookup_insert_eq. exact Hlt.
    + destruct (Nat.eqb_spec i (length (Hours_rows db))) as [-> | Hne].
      * split; [exact Happ | intros _; exact Hlast].
      * split; [reflexivity | intros Hk; lia].
  - split; [exact Happ | intros _; exact Hlast].
Qed.

Lemma lookup_set_column k v (col : gmap nat nat) :
  set_column k v col !! k = v
  /\ forall j, j <> k -> set_column k v col !! j = col !! j.
Proof.
  unfold set_column. destruct v as [x |].
  - split; [apply lookup_insert_eq | intros j Hj; apply lookup_insert_ne; congruence].
  - split; [apply lookup_delete_eq | intros j Hj; apply lookup_delete_ne; congruence].
Qed.

Lemma set_column_twice k v v' (col : gmap nat nat) :
  set_column k v (set_column k v' col) = set_column k v col.
Proof.
  unfold set_column. destruct v as [x |], v' as [x' |].
  - apply insert_insert_eq.
  - apply insert_delete_eq.
  - apply delete_insert_eq.
  - apply delete_delete_eq.
Qed.

Lemma save_twice (h : Hours W) (db : DB W) k :
  k = match pk h with Some (S i) => S i | _ => S (length (Hours_rows db)) end ->
  snd (save {| pk := Some k; fields := fields h; _tags_to_be := _tags_to_be h |}
            (snd (save h db)))
  = snd (save h db).
Proof.
  intros ->. rewrite (save_eq h db).
  destruct (Decimal_column W (amount h)) as [a |] eqn:Ea.
  2:{ cbn [snd]. rewrite save_eq. cbn [fields]. rewrite Ea. reflexivity. }
  cbn [snd]. rewrite save_eq. cbn [fields pk]. rewrite Ea.
  cbn [snd]. unfold set_Hours_rows.
  cbn [Hours_rows User_rows Project_rows HourTag_rows Hours_tags_rows].
  assert (Hlast : forall rows : list (HoursFields W), forall x,
            (length rows <? length (rows ++ [x])) = true).
  { intros rows x. apply Nat.ltb_lt. rewrite length_app. cbn. lia. }
  f_equal.
  destruct (pk h) as [[| i] |].
  - rewrite Hlast. apply insert_last.
  - destruct (Nat.ltb_spec i (length (Hours_rows db))) as [Hlt | Hge].
    + rewrite length_insert. apply Nat.ltb_lt in Hlt. rewrite Hlt.
      apply list_insert_insert_eq.
    + destruct (Nat.eqb_spec i (length (Hours_rows db))) as [-> | Hne].
      * rewrite Hlast. apply insert_last.
      * apply Nat.ltb_ge in Hge. rewrite Hge.
        apply Nat.eqb_neq in Hne. rewrite Hne. reflexivity.
  - rewrite Hlast. apply insert_last.
Qed.

Lemma save_billable_ok (x : BillableHours W) l a :
  Decimal_column W (amount (hours x)) = Some a ->
  save_billable x l
  = (inr {| hours := {| pk := Some (save_key x l); fields := fields (hours x);
                        _tags_to_be := _tags_to_be (hours x) |};
            coder_billing_month := coder_billing_month x;
            project_billing_month := project_billing_month x |},
     {| tables := snd (save (hours x) (tables l));
        Month_rows := Month_rows l;
        coder_billing_month_id :=
          set_column (save_key x l) (coder_billing_month x) (coder_billing_month_id l);
        project_billing_month_id :=
          set_column (save_key x l) (project_billing_month x) (project_billing_month_id l) |}).
Proof.
  intros Ha. unfold save_billable. rewrite (save_rows _ _ a Ha). reflexivity.
Qed.

Lemma save_billable_refused (x : BillableHours W) l :
  Decimal_column W (amount (hours x)) = None ->
  save_billable x l = (inl Hours_InvalidOperation, l).
Proof. intros Ha. unfold save_billable. rewrite save_eq, Ha. reflexivity. Qed.

(** X17.  [set_default_coder_billing_month] on an instance that has no
    coder billing month, months being unique: the month of the date of
    the instance is looked up, and made when it is not there.  When the
    column takes the amount of the instance, the instance takes that
    month and is saved under its key, with the amount as the column
    holds it, with that month in the
    coder column and the instance's own project billing month in the
    project column; no other row changes in the hours table nor in the
    two columns.  Called again on the instance, it changes nothing: the
    month once set is kept.  When the column refuses the amount, the
    save fails with [InvalidOperation] and only the month is left. *)
Theorem set_default_coder_billing_month_spec (self : BillableHours W) (l : Ledger W) :
  coder_billing_month self = None -> months_unique l ->
  exists k l1,
    get_from_date (date (hours self)) l
    = (inr (k, {| Month.year := Z.of_nat (year (date (hours self)));
                  Month.month := Z.of_nat (month (date (hours self))) |}), l1)
    /\ tables l1 = tables l
    /\ coder_billing_month_id l1 = coder_billing_month_id l
    /\ project_billing_month_id l1 = project_billing_month_id l
    /\ (Decimal_column W (amount (hours self)) = None ->
        set_default_coder_billing_month self l = (inl Hours_InvalidOperation, l1))
    /\ (forall a, Decimal_column W (amount (hours self)) = Some a ->
        exists self' l',
          set_default_coder_billing_month self l = (inr self', l')
          /\ Month_stored l' k
             = Some {| Month.year := Z.of_nat (year (date (hours self)));
                       Month.month := Z.of_nat (month (date (hours self))) |}
          /\ self' = {| hours := {| pk := Some (save_key self l);
                                    fields := fields (hours self);
                                    _tags_to_be := _tags_to_be (hours self) |};
                        coder_billing_month := Some k;
                        project_billing_month := project_billing_month self |}
          /\ coder_billing_month_id l' !! save_key self l = Some k
          /\ project_billing_month_id l' !! save_key self l = project_billing_month self
          /\ (forall j, j <> save_key self l ->
                coder_billing_month_id l' !! j = coder_billing_month_id l !! j
                /\ project_billing_month_id l' !! j = project_billing_month_id l !! j
                /\ stored (tables l') j = stored (tables l) j)
          /\ (save_key self l <= S (length (Hours_rows (tables l))) ->
              stored (tables l') (save_key self l)
              = Some (set_amount a (fields (hours self))))
          /\ months_unique l'
          /\ set_default_coder_billing_month self' l' = (inr self', l')).
Proof.
  intros Hc Hu.
  destruct (get_from_date_unique (date (hours self)) l Hu)
    as (k & r & l1 & Eg & Er & Hst & _ & Ht & Hcc & Hpc & Hu1 & _).
  exists k, l1. rewrite <- Er.
  split; [exact Eg |]. split; [exact Ht |]. split; [exact Hcc |]. split; [exact Hpc |].
  unfold set_default_coder_billing_month. rewrite Hc, Eg. cbn [fst].
  split.
  { intros Hnone. apply save_billable_refused. exact Hnone. }
  intros a Ha.
  rewrite (save_billable_ok {| hours := hours self; coder_billing_month := Some k;
                               project_billing_month := project_billing_month self |}
             l1 a Ha).
  assert (Ek : save_key {| hours := hours self; coder_billing_month := Some k;
                           project_billing_month := project_billing_month self |} l1
               = save_key self l).
  { unfold save_key. cbn [hours]. rewrite Ht. reflexivity. }
  rewrite Ek. cbn [hours coder_billing_month project_billing_month].
  pose proof (stored_after_save (hours self) (tables l1) (save_key self l) a Ha
                ltac:(unfold save_key; rewrite Ht; reflexivity)) as [Hoth Hself].
  eexists _, _. split; [reflexivity |].
  split; [exact Hst |].
  split; [reflexivity |].
  cbn [coder_billing_month_id project_billing_month_id tables Month_rows].
  split; [apply lookup_set_column |].
  split; [apply lookup_set_column |].
  split.
  { intros j Hj. rewrite <- Hcc, <- Hpc, <- Ht.
    split; [apply lookup_set_column; exact Hj |].
    split; [apply lookup_set_column; exact Hj | apply Hoth; exact Hj]. }
  split; [rewrite <- Ht; exact Hself |].
  split; [exact Hu1 |]. reflexivity.
Qed.

Lemma get_from_date_found d l m l2 :
  get_from_date d l = (inr m, l) -> Month_rows l2 = Month_rows l ->
  get_from_date d l2 = (inr m, l2).
Proof.
  unfold get_from_date. cbv zeta. intros H E. rewrite E.
  destruct (select _ 1 (Month_rows l)) as [| [j y] [| ? ?]].
  - exfalso. inversion H as [[Hm Hl]].
    apply (f_equal (fun z => length (Month_rows z))) in Hl. cbn in Hl.
    rewrite length_app in Hl. cbn in Hl. lia.
  - inversion H. reflexivity.
  - discriminate H.
Qed.

Lemma get_from_date_again d l k r l1 l2 :
  get_from_date d l = (inr (k, r), l1) -> months_unique l ->
  Month_rows l2 = Month_rows l1 ->
  get_from_date d l2 = (inr (k, r), l2).
Proof.
  intros Eg Hu E.
  destruct (get_from_date_unique d l Hu) as (k' & r' & l1' & Eg' & _ & _ & _ & _ & _ & _ & _ & Hag).
  rewrite Eg in Eg'. inversion Eg'; subst k' r' l1'.
  specialize (Hag d eq_refl eq_refl).
  apply (get_from_date_found d l1); [exact Hag | exact E].
Qed.

Lemma save_key_saved (self : BillableHours W) l f t cb pb l2 :
  save_key {| hours := {| pk := Some (save_key self l); fields := f; _tags_to_be := t |};
              coder_billing_month := cb; project_billing_month := pb |} l2
  = save_key self l.
Proof. unfold save_key. cbn [hours pk]. destruct (pk (hours self)) as [[| i] |]; reflexivity. Qed.

(** Saving once more the instance that [save_billable] returned, with
    other billing months. *)
Lemma save_billable_again (x : BillableHours W) l a cb pb :
  Decimal_column W (amount (hours x)) = Some a ->
  save_billable
    {| hours := {| pk := Some (save_key x l); fields := fields (hours x);
                   _tags_to_be := _tags_to_be (hours x) |};
       coder_billing_month := cb; project_billing_month := pb |}
    {| tables := snd (save (hours x) (tables l));
       Month_rows := Month_rows l;
       coder_billing_month_id :=
         set_column (save_key x l) (coder_billing_month x) (coder_billing_month_id l);
       project_billing_month_id :=
         set_column (save_key x l) (project_billing_month x) (project_billing_month_id l) |}
  = (inr {| hours := {| pk := Some (save_key x l); fields := fields (hours x);
                        _tags_to_be := _tags_to_be (hours x) |};
            coder_billing_month := cb; project_billing_month := pb |},
     {| tables := snd (save (hours x) (tables l));
        Month_rows := Month_rows l;
        coder_billing_month_id := set_column (save_key x l) cb (coder_billing_month_id l);
        project_billing_month_id := set_column (save_key x l) pb (project_billing_month_id l) |}).
Proof.
  intros Ha. rewrite (save_billable_ok _ _ a) by exact Ha.
  cbn [hours fields _tags_to_be coder_billing_month project_billing_month
       tables Month_rows coder_billing_month_id project_billing_month_id].
  rewrite !save_key_saved. f_equal. f_equal.
  - apply (save_twice (hours x) (tables l) (save_key x l)). reflexivity.
  - apply set_column_twice.
  - apply set_column_twice.
Qed.

(** X18.  On an instance with neither billing month, months being
    unique.  When the column takes the amount of the instance the two
    setters commute: called one after the other, in either order, they
    leave the same instance and the same tables, and both billing months
    are the one month of the instance's date.  When the column refuses
    the amount, each of them fails with [InvalidOperation], and leaves
    the same tables, with the month of the date in them. *)
Theorem set_default_billing_months_commute (self : BillableHours W) (l : Ledger W) :
  coder_billing_month self = None -> project_billing_month self = None ->
  months_unique l ->
  (Decimal_column W (amount (hours self)) = None ->
   exists l1,
     set_default_coder_billing_month self l = (inl Hours_InvalidOperation, l1)
     /\ set_default_project_billing_month self l = (inl Hours_InvalidOperation, l1)
     /\ tables l1 = tables l)
  /\ (forall a, Decimal_column W (amount (hours self)) = Some a ->
      exists k self1 l1 self2 l2 self' l',
        set_default_coder_billing_month self l = (inr self1, l1)
        /\ set_default_project_billing_month self1 l1 = (inr self', l')
        /\ set_default_project_billing_month self l = (inr self2, l2)
        /\ set_default_coder_billing_month self2 l2 = (inr self', l')
        /\ coder_billing_month self' = Some k
        /\ project_billing_month self' = Some k
        /\ Month_stored l' k
           = Some {| Month.year := Z.of_nat (year (date (hours self)));
                     Month.month := Z.of_nat (month (date (hours self))) |}
        /\ coder_billing_month_id l' !! save_key self l = Some k
        /\ project_billing_month_id l' !! save_key self l = Some k
        /\ Month_rows l' = Month_rows l1 /\ Month_rows l' = Month_rows l2
        /\ tables l' = tables l1 /\ tables l' = tables l2).
Proof.
  intros Hc Hp Hu.
  destruct (get_from_date_unique (date (hours self)) l Hu)
    as (k & r & g & Eg & Er & Hst & _ & Ht & Hcc & Hpc & Hu1 & _).
  split.
  { intros Hnone. exists g.
    unfold set_default_coder_billing_month, set_default_project_billing_month.
    rewrite Hc, Hp, Eg.
    split; [apply save_billable_refused; exact Hnone |].
    split; [apply save_billable_refused; exact Hnone | exact Ht]. }
  intros amt Hamt.
  set (a := {| hours := hours self; coder_billing_month := Some k;
               project_billing_month := project_billing_month self |}).
  set (b := {| hours := hours self; coder_billing_month := coder_billing_month self;
               project_billing_month := Some k |}).
  assert (E1 : set_default_coder_billing_month self l = save_billable a g).
  { unfold set_default_coder_billing_month. rewrite Hc, Eg. reflexivity. }
  assert (E2 : set_default_project_billing_month self l = save_billable b g).
  { unfold set_default_project_billing_month. rewrite Hp, Eg. reflexivity. }
  rewrite (save_billable_ok a g amt Hamt) in E1.
  rewrite (save_billable_ok b g amt Hamt) in E2.
  assert (EKa : save_key a g = save_key self l)
    by (unfold save_key; cbn [hours a]; rewrite Ht; reflexivity).
  assert (EKb : save_key b g = save_key self l)
    by (unfold save_key; cbn [hours b]; rewrite Ht; reflexivity).
  set (final := {| hours := {| pk := Some (save_key self l); fields := fields (hours self);
                               _tags_to_be := _tags_to_be (hours self) |};
                   coder_billing_month := Some k; project_billing_month := Some k |}).
  set (lf := {| tables := snd (save (hours self) (tables g));
                Month_rows := Month_rows g;
                coder_billing_month_id := <[save_key self l := k]> (coder_billing_month_id g);
                project_billing_month_id := <[save_key self l := k]> (project_billing_month_id g) |}).
  match type of E1 with _ = (inr ?x, ?y) => set (a1 := x) in *; set (la := y) in * end.
  match type of E2 with _ = (inr ?x, ?y) => set (b1 := x) in *; set (lb := y) in * end.
  assert (F1 : set_default_project_billing_month a1 la = (inr final, lf)).
  { unfold set_default_project_billing_month.
    change (project_billing_month a1) with (project_billing_month self). rewrite Hp.
    change (date (hours a1)) with (date (hours self)).
    rewrite (get_from_date_again _ _ _ _ _ la Eg Hu eq_refl). cbn [fst].
    change (coder_billing_month a1) with (Some k).
    refine (eq_trans (save_billable_again a g amt (Some k) (Some k) Hamt) _).
    rewrite EKa. reflexivity. }
  assert (F2 : set_default_coder_billing_month b1 lb = (inr final, lf)).
  { unfold set_default_coder_billing_month.
    change (coder_billing_month b1) with (coder_billing_month self). rewrite Hc.
    change (date (hours b1)) with (date (hours self)).
    rewrite (get_from_date_again _ _ _ _ _ lb Eg Hu eq_refl). cbn [fst].
    change (project_billing_month b1) with (Some k).
    refine (eq_trans (save_billable_again b g amt (Some k) (Some k) Hamt) _).
    rewrite EKb. reflexivity. }
  exists k, a1, la, b1, lb, final, lf.
  split; [exact E1 |]. split; [exact F1 |]. split; [exact E2 |]. split; [exact F2 |].
  split; [reflexivity |]. split; [reflexivity |].
  split; [cbn; rewrite <- Er; exact Hst |].
  split; [apply lookup_insert_eq |]. split; [apply lookup_insert_eq |].
  repeat split.
Qed.

Lemma get_from_date_month d l k r l' :
  get_from_date d l = (inr (k, r), l') ->
  r = {| Month.year := Z.of_nat (year d); Month.month := Z.of_nat (month d) |}.
Proof.
  unfold get_from_date. cbv zeta.
  destruct (select _ 1 (Month_rows l)) as [| [j x] [| ? ?]] eqn:Es; intros H; inversion H; subst.
  - reflexivity.
  - apply select_single in Es. destruct Es as (_ & _ & Hm).
    apply Month_matches_iff in Hm. destruct Hm as [Hy Hm].
    destruct r as [ry rm]. cbn in Hy, Hm. subst. reflexivity.
Qed.

(** X19.  The month [get_from_date] returns for a date of a year from
    1000 on prints, by [__unicode__], as the year and the month the way
    [DATE_FORMAT] writes them: the first seven characters of the date as
    [csv_dump] writes it. *)
Theorem Month_unicode_of_date (d : date_t) (l : Ledger W) (k : nat) (r : Month.t)
    (l' : Ledger W) :
  get_from_date d l = (inr (k, r), l') ->
  1000 <= year d <= 9999 -> month d < 100 ->
  Month_unicode r = pad4 (year d) +:+ "-" +:+ pad2 (month d)
  /\ (1900 <= year d ->
      strftime_Ymd d = Some (Month_unicode r +:+ "-" +:+ pad2 (day d))).
Proof.
  intros Hg Hy Hm. rewrite (get_from_date_month _ _ _ _ _ Hg).
  assert (E : Month_unicode {| Month.year := Z.of_nat (year d); Month.month := Z.of_nat (month d) |}
              = pad4 (year d) +:+ "-" +:+ pad2 (month d)).
  { unfold Month_unicode. cbn [Month.year Month.month].
    rewrite format_int_nat, (str_nat_pad4 _ Hy), (format_02d_pad2 _ Hm). reflexivity. }
  split; [exact E |].
  intros H19. rewrite E. unfold strftime_Ymd.
  apply Nat.leb_le in H19. rewrite H19. reflexivity.
Qed.

End BillingProperties.

(* ================================================================== *)
(** * The further properties on the sample installation *)

Lemma parse_time_12_hour_witness :
  parse_time "05:30:15 PM" TIME_FORMATS = Some {| hour := 17; minute := 30; second := 15 |}
  /\ parse_time "12:05:00 am" TIME_FORMATS = Some {| hour := 0; minute := 5; second := 0 |}.
Proof.
  split.
  - exact (parse_time_12_hour 5 30 15 true true ltac:(lia) ltac:(lia) ltac:(lia)).
  - exact (parse_time_12_hour 12 5 0 false false ltac:(lia) ltac:(lia) ltac:(lia)).
Defined.

Lemma sample_import_alice :
  csv_get_or_create Sample.row_alice None Sample.db0
  = (Ok (Sample.alice_stored, true), Sample.db_alice).
Proof. reflexivity. Qed.

Lemma csv_parse_entry_wellformed_witness :
  valid_date 2024 3 1 = true
  /\ exists tags, _tags_to_be Sample.alice_entry = Some tags /\ tags <> []
                  /\ Forall tag_name_normal tags.
Proof.
  destruct (csv_parse_entry_wellformed Sample.row_alice None Sample.db0 Sample.alice_entry
              sample_parse_alice_fst) as (H1 & _ & _ & H4 & _).
  split; [exact H1 | exact H4].
Defined.

Lemma csv_dump_line_determines_values_witness :
  false = false
  /\ ["alice"; "Acme"; "2024-03-01"; "09:00"; "17:00"; "8.00"; "dev,urgent"; "repo-x"; "42"; ""]
     = ["alice"; "Acme"; "2024-03-01"; "09:00"; "17:00"; "8.00"; "dev,urgent"; "repo-x"; "42"; ""].
Proof.
  assert (N : Forall nul_free ["alice"; "Acme"; "2024-03-01"; "09:00"; "17:00"; "8.00";
                               "dev,urgent"; "repo-x"; "42"; ""])
    by (repeat (constructor; [reflexivity |]); constructor).
  exact (csv_dump_line_determines_values (W:=Sample.world)
           Sample.alice_entry Sample.alice_stored false false Sample.db0 Sample.db_alice
           _ _ eq_refl eq_refl N N eq_refl).
Defined.

Lemma as_scsv_without_coder_suffix_witness :
  nul_free "alice"
  /\ exists rest,
       as_scsv_without_coder Sample.alice_stored Sample.db_alice = (Ok rest, Sample.db_alice)
       /\ writerow ["alice"; "Acme"; "2024-03-01"; "09:00"; "17:00"; "8.00"; "dev,urgent";
                    "repo-x"; "42"; ""]
          = csv_field "alice" +:+ ";" +:+ rest.
Proof.
  split; [reflexivity |].
  destruct (as_scsv_without_coder_suffix (W:=Sample.world) Sample.alice_stored Sample.db_alice
              eq_refl) as [H _].
  exact (proj1 (H _) eq_refl).
Defined.

Lemma sample_import_thousandth :
  csv_get_or_create Sample.row_thousandth None Sample.db0
  = (Ok ({| pk := Some 1; fields := fields Sample.thousandth_entry; _tags_to_be := None |},
         true), Sample.db_thousandth).
Proof. reflexivity. Qed.

Lemma sample_parse_thousandth :
  fst (_csv_parse Sample.row_thousandth None Sample.db0) = Ok Sample.thousandth_entry.
Proof. reflexivity. Qed.

(** The import of a row whose amount the column rounds does not keep the
    identities unique: imported over its own first import, the row is
    stored a second time with the same identity. *)
Example sample_identity_not_kept :
  identity_unique Sample.db_thousandth
  /\ snd (csv_get_or_create Sample.row_thousandth None Sample.db_thousandth)
     = Sample.db_thousandth_twice
  /\ ~ identity_unique Sample.db_thousandth_twice.
Proof.
  split; [| split; [reflexivity |]].
  - intros k1 k2 r1 r2 H1 H2 _.
    destruct k1 as [| [| k1]]; try discriminate H1.
    destruct k2 as [| [| k2]]; try discriminate H2.
    reflexivity.
  - intros H.
    assert (E : 1 = 2); [| discriminate E].
    apply (H 1 2 (Sample.thousandth_fields 17 Sample.row_thousandth 8000)
             (Sample.thousandth_fields 17 Sample.row_thousandth 8000) eq_refl eq_refl).
    repeat split.
Qed.

Lemma similar_row_exists_import_witness :
  similar_row_exists Sample.alice_entry Sample.db0 = (Ok false, Sample.db0)
  /\ similar_row_exists Sample.alice_entry Sample.db_alice = (Ok true, Sample.db_alice)
  /\ similar_row_exists Sample.thousandth_entry Sample.db_thousandth
     = (Ok false, Sample.db_thousandth).
Proof.
  destruct (similar_row_exists_import Sample.row_alice None Sample.db0 Sample.alice_entry
              Sample.alice_stored true Sample.db_alice
              sample_parse_alice_fst sample_import_alice) as (H1 & _ & H3 & _).
  destruct (similar_row_exists_import Sample.row_thousandth None Sample.db0
              Sample.thousandth_entry _ true Sample.db_thousandth
              sample_parse_thousandth sample_import_thousandth) as (_ & _ & _ & H4).
  split; [exact H1 |]. split; [exact (proj1 (H3 sample_column_keeps)) |].
  apply H4. intros H. discriminate H.
Defined.

Lemma stored_tags_read_back_witness :
  exists names,
    List.NoDup names
    /\ tags_string Sample.alice_stored Sample.db_alice = (Ok (join ", " names), Sample.db_alice)
    /\ normalize_tags (join ", " names) = names.
Proof.
  destruct (stored_tags_read_back Sample.row_alice None Sample.db0 Sample.alice_stored true
              Sample.db_alice sample_import_alice) as (names & H1 & _ & H3 & H4 & _).
  exists names. split; [exact H1 |]. split; [exact H3 | exact H4].
Defined.

Lemma iter_hours_after_import_witness :
  exists hs,
    iter_hours Sample.tag_dev Sample.db_alice = (Ok hs, Sample.db_alice)
    /\ (In Sample.alice_stored hs
        <-> In "dev" (normalize_tags (row_tags Sample.row_alice None))).
Proof.
  destruct (iter_hours_after_import Sample.row_alice None Sample.db0 Sample.alice_stored true
              Sample.db_alice sample_import_alice Sample.tag_dev eq_refl)
    as (hs & a & H1 & Ha & H2 & _ & H4).
  exists hs. split; [exact H1 |]. rewrite <- (H4 sample_column_keeps). exact H2.
Defined.

Lemma sample_months_unique : months_unique Sample.ledger_alice.
Proof. intros k1 k2 r1 r2 H. destruct k1; discriminate H. Qed.

Lemma get_from_date_spec_witness :
  exists k l',
    get_from_date {| year := 2024; month := 3; day := 1 |} Sample.ledger_alice
    = (inr (k, Sample.march_2024), l')
    /\ Month_stored l' k = Some Sample.march_2024
    /\ months_unique l'.
Proof.
  destruct (get_from_date_spec {| year := 2024; month := 3; day := 1 |} Sample.ledger_alice)
    as (H & _).
  destruct (H sample_months_unique) as (k & l' & H1 & H2 & _ & H4 & _).
  exists k, l'. split; [exact H1 |]. split; [exact H2 | exact H4].
Defined.

Lemma set_default_coder_billing_month_spec_witness :
  exists k self' l',
    set_default_coder_billing_month Sample.alice_billable Sample.ledger_alice
    = (inr self', l')
    /\ coder_billing_month self' = Some k
    /\ Month_stored l' k = Some Sample.march_2024
    /\ set_default_coder_billing_month self' l' = (inr self', l').
Proof.
  destruct (set_default_coder_billing_month_spec Sample.alice_billable Sample.ledger_alice
              eq_refl sample_months_unique)
    as (k & l1 & _ & _ & _ & _ & _ & Hsome).
  destruct (Hsome 8000 eq_refl) as (self' & l' & H1 & H2 & H3 & _ & _ & _ & _ & _ & H9).
  exists k, self', l'. split; [exact H1 |]. split; [rewrite H3; reflexivity |].
  split; [exact H2 | exact H9].
Defined.

Lemma set_default_billing_months_commute_witness :
  exists k self1 l1 self2 l2 self' l',
    set_default_coder_billing_month Sample.alice_billable Sample.ledger_alice = (inr self1, l1)
    /\ set_default_project_billing_month self1 l1 = (inr self', l')
    /\ set_default_project_billing_month Sample.alice_billable Sample.ledger_alice
       = (inr self2, l2)
    /\ set_default_coder_billing_month self2 l2 = (inr self', l')
    /\ coder_billing_month self' = Some k
    /\ project_billing_month self' = Some k.
Proof.
  destruct (set_default_billing_months_commute Sample.alice_billable Sample.ledger_alice
              eq_refl eq_refl sample_months_unique) as (_ & Hsome).
  destruct (Hsome 8000 eq_refl)
    as (k & self1 & l1 & self2 & l2 & self' & l' & H1 & H2 & H3 & H4 & H5 & H6 & _).
  exists k, self1, l1, self2, l2, self', l'. repeat split; assumption.
Defined.

Lemma Month_unicode_of_date_witness :
  Month_unicode Sample.march_2024 = "2024-03"
  /\ strftime_Ymd {| year := 2024; month := 3; day := 1 |} = Some "2024-03-01".
Proof.
  destruct (Month_unicode_of_date (W:=Sample.world) {| year := 2024; month := 3; day := 1 |}
              Sample.ledger_alice 1 Sample.march_2024 Sample.ledger_march eq_refl
              ltac:(split; apply Nat.leb_le; reflexivity) ltac:(apply Nat.ltb_lt; reflexivity))
    as [H1 H2].
  split; [exact H1 |].
  exact (H2 ltac:(apply Nat.leb_le; reflexivity)).
Defined.

Lemma sample_import_seconds :
  csv_get_or_create Sample.row_seconds None Sample.db0
  = (Ok (Sample.seconds_stored, true), Sample.db_seconds).
Proof. reflexivity. Qed.

Lemma sample_import_seconds_again :
  csv_get_or_create Sample.seconds_dumped None Sample.db_seconds
  = (Ok (Sample.seconds_again, true), Sample.db_seconds_again).
Proof. reflexivity. Qed.

Lemma reimport_start_time_changed_witness :
  pk Sample.seconds_again <> pk Sample.seconds_stored
  /\ start_time Sample.seconds_again = Some {| hour := 9; minute := 0; second := 0 |}
  /\ stored Sample.db_seconds_again 1 = Some (fields Sample.seconds_stored).
Proof.
  refine (reimport_start_time_changed (W:=Sample.world)
            Sample.seconds_stored Sample.db_seconds 0
            {| hour := 9; minute := 0; second := 30 |} None Sample.seconds_dumped
            Sample.seconds_again true Sample.db_seconds_again
            eq_refl eq_refl eq_refl _ _ (or_introl _) eq_refl sample_import_seconds_again).
  - cbn. lia.
  - cbn. lia.
  - cbn. discriminate.
Defined.

Lemma csv_dump_reimport_witness :
  exists obj2 db2,
    csv_get_or_create Sample.alice_dumped None Sample.db_alice = (Ok (obj2, false), db2)
    /\ pk obj2 = Some 1
    /\ HourTag_rows db2 = ["dev"; "urgent"].
Proof.
  destruct (csv_dump_reimport (W:=Sample.world) Sample.row_alice None Sample.db0
              Sample.alice_stored Sample.db_alice Sample.alice_dumped
              sample_import_alice eq_refl) as (k & Hk & _ & Hkeep & _).
  - reflexivity.
  - intros t [= <-]. cbn. split; [reflexivity | left; discriminate].
  - reflexivity.
  - reflexivity.
  - intros r [= <-]. reflexivity.
  - intros _. exists Sample.Acme. split; reflexivity.
  - injection Hk as <-.
    destruct (Hkeep sample_column_keeps) as (obj2 & db2 & H1 & H2 & _ & _ & H3 & _).
    exists obj2, db2. split; [exact H1 |]. split; [exact H2 | exact H3].
Defined.

Lemma csv_import_coder_given_witness :
  fst (_csv_parse Sample.row_alice None Sample.db0)
  = match fst (_csv_parse ["Acme"; "2024-03-01"; "09:00"; "17:00"; "8.00"; "dev, urgent";
                           "repo-x"; "42"; ""] (Some Sample.alice_coder) Sample.db0) with
    | Ok b => Ok (set_extra {| x_end_time := end_time b;
                               x_input_data_json :=
                                 Some (json_dumps Sample.world Sample.row_alice) |} b)
    | Raise e => Raise e
    end.
Proof.
  exact (proj1 (csv_import_coder_given (W:=Sample.world) "alice"
                  ["Acme"; "2024-03-01"; "09:00"; "17:00"; "8.00"; "dev, urgent";
                   "repo-x"; "42"; ""] Sample.alice_coder Sample.db0 eq_refl eq_refl)).
Defined.

